(** * Voice login system: feature encoding, similarity and decision policy

    A shallow embedding of the numerical core of the voice-recognition login
    system ([preprocessing.py], [database.py]) and of the decision code of
    its front ends ([app.py], [cli_app.py], [web_app.py]).

    Conventions of the embedding.
    - A NumPy float is a real number ([R]): rounding, infinities and NaN are
      outside the model.  What is stated of a computed score is therefore
      what rounding does not change: comparisons, maxima, the exits that
      return 0.0, symmetry, and the change of sign under negation.
    - A one-dimensional array is a [list R]; a two-dimensional array is a
      list of rows together with its column count (the second component of
      NumPy's [shape], which is still defined when there is no row).
    - A Python function that can raise returns an [option] or a dedicated
      outcome type; a [try/except] is the [match] on it.
    - The SQLite tables are lists of rows, oldest first. *)

From Stdlib Require Import String Reals Lra Lia Bool Arith List Permutation.
Import ListNotations.

(** ** Comparisons on floats, as booleans *)

Definition Rgtb (x y : R) : bool := if Rgt_dec x y then true else false.
Definition Rgeb (x y : R) : bool := if Rge_dec x y then true else false.
Definition Reqb (x y : R) : bool := if Req_dec_T x y then true else false.

(** ** The fragment of NumPy the program uses *)

Module Np.

Record matrix : Type := { ncols : nat; rows : list (list R) }.

(** The arrays that are stored and compared: 1-D or 2-D. *)
Inductive ndarray : Type :=
| Vec (v : list R)
| Mat (m : matrix).

(** [len(a.shape)] *)
Definition ndim (a : ndarray) : nat :=
  match a with Vec _ => 1 | Mat _ => 2 end.

(** [a.flatten()], row-major. *)
Definition flatten (a : ndarray) : list R :=
  match a with Vec v => v | Mat m => concat (rows m) end.

(** [len(m)]: the number of rows. *)
Definition len (m : matrix) : nat := length (rows m).

(** [m[:n]] *)
Definition take (n : nat) (m : matrix) : matrix :=
  {| ncols := ncols m; rows := firstn n (rows m) |}.

(** [np.pad(m, ((0, k), (0, 0)), mode='constant')]: [k] rows of zeros are
    appended, no column is added. *)
Definition zero_row (c : nat) : list R := repeat 0%R c.

Definition pad_rows_after (m : matrix) (k : nat) : matrix :=
  {| ncols := ncols m; rows := rows m ++ repeat (zero_row (ncols m)) k |}.

(** [np.abs(v)], [v > t], [np.any(mask)], [v[mask]] *)
Definition abs (v : list R) : list R := map Rabs v.

Definition gt (v : list R) (t : R) : list bool := map (fun x => Rgtb x t) v.

Definition any (mask : list bool) : bool := existsb (fun b => b) mask.

Definition select (v : list R) (mask : list bool) : list R :=
  map fst (filter snd (combine v mask)).

(** [np.dot(u, v)] and [np.linalg.norm(v)] on 1-D arrays. *)
Fixpoint dot (u v : list R) : R :=
  match u, v with
  | x :: u', y :: v' => (x * y + dot u' v')%R
  | _, _ => 0%R
  end.

Definition norm (v : list R) : R := sqrt (dot v v).

(** [-a], element by element. *)
Definition negative (a : ndarray) : ndarray :=
  match a with
  | Vec v => Vec (map Ropp v)
  | Mat m => Mat {| ncols := ncols m; rows := map (map Ropp) (rows m) |}
  end.

(** All rows have the declared width: what every NumPy 2-D array satisfies. *)
Definition well_shaped (m : matrix) : Prop :=
  Forall (fun r => length r = ncols m) (rows m).

End Np.

(** ** preprocessing.py: class AudioPreprocessor *)

Module AudioPreprocessor.
Import Np.

(** [__init__(..., max_length=100)]; no caller passes another value. *)
Definition max_length : nat := 100.

(** [pad_sequence(self, features)] *)
Definition pad_sequence (features : matrix) : matrix :=
  if (max_length <? len features)%nat then
    take max_length features
  else
    let pad_width := (max_length - len features)%nat in
    pad_rows_after features pad_width.

(** [remove_silence(self, audio, threshold=0.01)].  The [except] branch
    returns [audio] as well; on the arrays of floats it is given nothing in
    the body raises (NumPy divides by a zero length with a warning). *)
Definition remove_silence_with (audio : list R) (threshold : R) : list R :=
  let energy := abs audio in
  let mask := gt energy threshold in
  if any mask then select audio mask else audio.

Definition default_threshold : R := 0.01%R.

Definition remove_silence (audio : list R) : list R :=
  remove_silence_with audio default_threshold.

(** Where [preprocess_audio] leaves: its return value is [None] at every
    exit but the last. *)
Inductive pipeline_exit : Type :=
| FailedToLoad            (* load_audio returned None *)
| EmptyAfterLoading       (* len(audio) == 0 after loading *)
| NoAudioLeft             (* len(audio) == 0 after silence removal *)
| ExtractionReturnedNone  (* features is None *)
| PipelineFailed          (* the except branch *)
| Completed (features : matrix).

Section Pipeline.
(** The librosa calls.  [load_audio] returns [None] for a missing, empty
    or undecodable file.  [extract_mfcc] has no handler of its own, so
    [None] stands for a raised exception; [extract_spectrogram] catches
    and returns [None] itself. *)
Variable load_audio : string -> option (list R).
Variable extract_mfcc : list R -> option matrix.
Variable extract_spectrogram : list R -> option matrix.

Definition preprocess_audio_exit (audio_path feature_type : string)
  : pipeline_exit :=
  match load_audio audio_path with
  | None => FailedToLoad
  | Some audio =>
      if (length audio =? 0)%nat then EmptyAfterLoading
      else
        let audio := remove_silence audio in
        if (length audio =? 0)%nat then NoAudioLeft
        else
          if String.eqb feature_type "mfcc" then
            match extract_mfcc audio with
            | None => PipelineFailed
            | Some features => Completed (pad_sequence features)
            end
          else if String.eqb feature_type "spectrogram" then
            match extract_spectrogram audio with
            | None => ExtractionReturnedNone
            | Some features => Completed (pad_sequence features)
            end
          else PipelineFailed (* ValueError, caught *)
  end.

(** [preprocess_audio(self, audio_path, feature_type='mfcc')] *)
Definition preprocess_audio (audio_path feature_type : string)
  : option matrix :=
  match preprocess_audio_exit audio_path feature_type with
  | Completed features => Some features
  | _ => None
  end.
End Pipeline.

End AudioPreprocessor.

(** ** database.py: class VoiceDatabase *)

Module VoiceDatabase.
Import Np.

(** One record per table of [init_database]; [id] columns are left out,
    timestamps are seconds. *)
Record student : Type := {
  student_id : string;
  name : string;
  email : option string;
  registration_date : nat;
  is_active : bool
}.

Record voice_embedding : Type := {
  ve_student_id : string;
  embedding_data : ndarray;
  audio_hash : string;
  confidence_score : option R;
  ve_registration_date : nat
}.

Record login_attempt : Type := {
  la_student_id : string;
  success : bool;
  la_confidence_score : R;
  ip_address : option string
}.

Record db : Type := {
  students : list student;
  voice_embeddings : list voice_embedding;
  login_attempts : list login_attempt
}.

(** [init_database] on a fresh file. *)
Definition init_database : db :=
  {| students := []; voice_embeddings := []; login_attempts := [] |}.

(** [ORDER BY <date> DESC]: insertion of each row before the first row that
    is not newer.  SQLite leaves the order of equal dates open; no result
    below depends on it. *)
Section OrderBy.
Context {A : Type} (date : A -> nat).

Fixpoint insert_desc (x : A) (l : list A) : list A :=
  match l with
  | [] => [x]
  | y :: l' =>
      if (date y <=? date x)%nat then x :: l else y :: insert_desc x l'
  end.

Definition order_by_desc (l : list A) : list A :=
  fold_right insert_desc [] l.
End OrderBy.

(** [register_student(self, student_id, name, email=None)]: the [UNIQUE]
    constraint on [student_id] raises [IntegrityError], answered by
    [False]; a new row takes the column defaults (date now, active). *)
Definition register_student (d : db) (now : nat)
    (sid nm : string) (mail : option string) : bool * db :=
  if existsb (fun s => String.eqb (student_id s) sid) (students d) then
    (false, d)
  else
    (true,
     {| students := students d ++
          [{| student_id := sid; name := nm; email := mail;
              registration_date := now; is_active := true |}];
        voice_embeddings := voice_embeddings d;
        login_attempts := login_attempts d |}).

(** [store_voice_embedding(self, student_id, embedding, audio_data=None,
    confidence_score=None)].  [None]: the [ValueError] for an unknown
    student.  Without audio data the hash is NULL, the [NOT NULL]
    constraint fails and the handler returns [False]. *)
Definition store_voice_embedding (d : db) (now : nat) (sid : string)
    (embedding : ndarray) (audio_md5 : option string)
    (score : option R) : option (bool * db) :=
  if existsb (fun s => String.eqb (student_id s) sid) (students d) then
    match audio_md5 with
    | None => Some (false, d)
    | Some h =>
        Some (true,
              {| students := students d;
                 voice_embeddings := voice_embeddings d ++
                   [{| ve_student_id := sid; embedding_data := embedding;
                       audio_hash := h; confidence_score := score;
                       ve_registration_date := now |}];
                 login_attempts := login_attempts d |})
    end
  else None.

(** The dictionaries [get_student_embeddings] returns. *)
Record embedding_entry : Type := {
  embedding : ndarray;
  entry_confidence_score : option R;
  entry_registration_date : nat
}.

(** [get_student_embeddings(self, student_id)] *)
Definition get_student_embeddings (d : db) (sid : string)
  : list embedding_entry :=
  let results :=
    order_by_desc ve_registration_date
      (filter (fun ve => String.eqb (ve_student_id ve) sid)
              (voice_embeddings d)) in
  map (fun row =>
         {| embedding := embedding_data row;
            entry_confidence_score := confidence_score row;
            entry_registration_date := ve_registration_date row |})
      results.

(** [list_all_students(self)] *)
Definition list_all_students (d : db) : list student :=
  order_by_desc registration_date (students d).

(** [delete_student(self, student_id)] *)
Definition delete_student (d : db) (sid : string) : bool * db :=
  (true,
   {| students :=
        filter (fun s => negb (String.eqb (student_id s) sid)) (students d);
      voice_embeddings :=
        filter (fun ve => negb (String.eqb (ve_student_id ve) sid))
               (voice_embeddings d);
      login_attempts :=
        filter (fun la => negb (String.eqb (la_student_id la) sid))
               (login_attempts d) |}).

(** [log_login_attempt(self, student_id, success, confidence_score,
    ip_address=None)]: one [INSERT], nothing else. *)
Definition log_login_attempt (d : db) (sid : string) (ok : bool)
    (score : R) : db :=
  {| students := students d;
     voice_embeddings := voice_embeddings d;
     login_attempts := login_attempts d ++
       [{| la_student_id := sid; success := ok;
           la_confidence_score := score; ip_address := None |}] |}.

(** The rows of
    [students s JOIN voice_embeddings ve ON s.student_id = ve.student_id
     WHERE s.is_active = 1].  The query has no [ORDER BY].  Of the two
    tables only [students] has an index on [student_id], the one of its
    [UNIQUE] constraint, so SQLite scans [voice_embeddings] in the order of
    its rows and looks the student of each embedding up through that
    index: the rows come in the order in which the embeddings were
    stored. *)
Definition joined_rows (d : db) : list (string * string * ndarray) :=
  flat_map
    (fun ve =>
       map (fun s => (student_id s, name s, embedding_data ve))
           (filter (fun s => String.eqb (student_id s) (ve_student_id ve)
                             && is_active s)
                   (students d)))
    (voice_embeddings d).

(** The identifiers of a list without their repetitions, each at the place
    where it occurs first. *)
Fixpoint first_occurrences (l : list string) : list string :=
  match l with
  | [] => []
  | x :: l' =>
      x :: filter (fun y => negb (String.eqb y x)) (first_occurrences l')
  end.

(** The encodings stored for [sid], oldest first. *)
Definition stored_for (ves : list voice_embedding) (sid : string)
  : list ndarray :=
  map embedding_data
      (filter (fun ve => String.eqb sid (ve_student_id ve)) ves).

(** The value side of the dictionary [get_all_student_embeddings] builds;
    the dictionary itself keeps insertion order, so it is a list of
    bindings with distinct keys. *)
Record student_samples : Type := {
  samples_name : string;
  embeddings : list ndarray
}.

Definition student_dict : Type := list (string * student_samples).

Definition has_key (sid : string) (sd : student_dict) : bool :=
  existsb (fun kv => String.eqb (fst kv) sid) sd.

(** [student_data[student_id]['embeddings'].append(embedding)] *)
Fixpoint append_embedding (sid : string) (e : ndarray) (sd : student_dict)
  : student_dict :=
  match sd with
  | [] => []
  | (k, v) :: sd' =>
      if String.eqb k sid then
        (k, {| samples_name := samples_name v;
               embeddings := embeddings v ++ [e] |}) :: sd'
      else (k, v) :: append_embedding sid e sd'
  end.

Definition add_row (sd : student_dict) (row : string * string * ndarray)
  : student_dict :=
  let '(sid, nm, e) := row in
  let sd :=
    if has_key sid sd then sd
    else sd ++ [(sid, {| samples_name := nm; embeddings := [] |})] in
  append_embedding sid e sd.

(** [get_all_student_embeddings(self)] *)
Definition get_all_student_embeddings (d : db) : student_dict :=
  fold_left add_row (joined_rows d) [].

(** [shape] of an array. *)
Definition shape (a : ndarray) : list nat :=
  match a with
  | Vec v => [length v]
  | Mat m => [len m; ncols m]
  end.

(** [calculate_cosine_similarity(self, embedding1, embedding2)].  The
    handler of the enclosing [try] returns 0.0 as well; on arrays of floats
    the body raises nothing.  The code rounds the norms, their product and
    the quotient, so the computed score can leave [-1, 1] by a rounding
    error; no range is stated of it. *)
Definition calculate_cosine_similarity (embedding1 embedding2 : ndarray)
  : R :=
  let embedding1 :=
    if (1 <? ndim embedding1)%nat then Vec (flatten embedding1)
    else embedding1 in
  let embedding2 :=
    if (1 <? ndim embedding2)%nat then Vec (flatten embedding2)
    else embedding2 in
  if list_eq_dec Nat.eq_dec (shape embedding1) (shape embedding2) then
    let norm1 := norm (flatten embedding1) in
    let norm2 := norm (flatten embedding2) in
    if Reqb norm1 0 || Reqb norm2 0 then 0%R
    else
      let dot_product := dot (flatten embedding1) (flatten embedding2) in
      (dot_product / (norm1 * norm2))%R
  else 0%R.

(** Python's [max] on a non-empty list: the first element, replaced by each
    later one that is strictly greater. *)
Definition builtin_max (x : R) (xs : list R) : R :=
  fold_left (fun m y => if Rgt_dec y m then y else m) xs x.

(** [verify_student_voice(self, student_id, test_embedding,
    similarity_threshold=0.8)].  The handler returns [(False, 0.0)]; the
    body raises nothing on arrays of floats. *)
Definition verify_student_voice_with (d : db) (sid : string)
    (test_embedding : ndarray) (similarity_threshold : R) : bool * R :=
  let embeddings := get_student_embeddings d sid in
  match embeddings with
  | [] => (false, 0%R)
  | _ :: _ =>
      let similarities :=
        map (fun emb_data =>
               calculate_cosine_similarity test_embedding
                                           (embedding emb_data))
            embeddings in
      let max_similarity :=
        match similarities with
        | [] => 0%R
        | s :: rest => builtin_max s rest
        end in
      let is_match := Rgeb max_similarity similarity_threshold in
      (is_match, max_similarity)
  end.

Definition default_similarity_threshold : R := 0.8%R.

Definition verify_student_voice (d : db) (sid : string)
    (test_embedding : ndarray) : bool * R :=
  verify_student_voice_with d sid test_embedding
                            default_similarity_threshold.

(** The databases the program can produce: a fresh file, changed by the
    four methods that write.  No statement of the program updates a row. *)
Inductive reachable : db -> Prop :=
| reachable_init : reachable init_database
| reachable_register (d : db) (now : nat) (sid nm : string)
    (mail : option string) :
    reachable d -> reachable (snd (register_student d now sid nm mail))
| reachable_store (d : db) (now : nat) (sid : string) (e : ndarray)
    (audio_md5 : option string) (score : option R) (ok : bool) (d' : db) :
    reachable d ->
    store_voice_embedding d now sid e audio_md5 score = Some (ok, d') ->
    reachable d'
| reachable_delete (d : db) (sid : string) :
    reachable d -> reachable (snd (delete_student d sid))
| reachable_log (d : db) (sid : string) (ok : bool) (score : R) :
    reachable d -> reachable (log_login_attempt d sid ok score).

(** The identities with at least one enrolled sample, in the words of the
    specification: the students for whom some embedding is stored. *)
Definition has_sample (d : db) (s : student) : bool :=
  existsb (fun ve => String.eqb (student_id s) (ve_student_id ve))
          (voice_embeddings d).

Definition identities_with_samples (d : db) : list student :=
  filter (has_sample d) (students d).

(** [get_student_info(self, student_id)]: the dictionary of the first row
    with that identifier, or [None]. *)
Definition get_student_info (d : db) (sid : string) : option student :=
  find (fun s => String.eqb (student_id s) sid) (students d).

End VoiceDatabase.

(** ** More of NumPy: reductions and sums *)

Module NpReduce.
Import Np.

(** [np.max(v)] on a 1-D array; an empty array raises [ValueError], which
    is [None]. *)
Definition amax (v : list R) : option R :=
  match v with
  | [] => None
  | x :: v' => Some (fold_left Rmax v' x)
  end.

(** [np.argmax(v)]: the first index that holds the maximum. *)
Fixpoint argmax_from (i best_i : nat) (best : R) (v : list R) : nat :=
  match v with
  | [] => best_i
  | x :: v' =>
      if Rgt_dec x best then argmax_from (S i) i x v'
      else argmax_from (S i) best_i best v'
  end.

Definition argmax (v : list R) : option nat :=
  match v with
  | [] => None
  | x :: v' => Some (argmax_from 1 0 x v')
  end.

(** [np.mean(v)] and [v**2]. *)
Definition total (v : list R) : R := fold_right Rplus 0%R v.

Definition mean (v : list R) : R := (total v / INR (length v))%R.

Definition square (v : list R) : list R := map (fun x => (x * x)%R) v.

(** [a + b] for two arrays of one shape. *)
Definition add_rows (u v : list R) : list R :=
  map (fun xy => (fst xy + snd xy)%R) (combine u v).

Definition add (a b : ndarray) : ndarray :=
  match a, b with
  | Vec u, Vec v => Vec (add_rows u v)
  | Mat m, Mat m' =>
      Mat {| ncols := ncols m;
             rows := map (fun rr => add_rows (fst rr) (snd rr))
                         (combine (rows m) (rows m')) |}
  | _, _ => a
  end.

End NpReduce.

(** ** model.py: inference of class VoiceRecognitionCNN *)

Module Classifier.
Import NpReduce.

(** [predict_speaker(self, audio_features, confidence_threshold=0.7)], given
    the row of class probabilities that [self.model.predict] returns for the
    one sample.  [None]: NumPy raises on an empty row. *)
Definition predict_speaker_with (predictions : list R)
    (confidence_threshold : R) : option (nat * R * bool) :=
  match amax predictions, argmax predictions with
  | Some confidence, Some predicted_class =>
      if Rge_dec confidence confidence_threshold then
        Some (predicted_class, confidence, true)
      else Some (predicted_class, confidence, false)
  | _, _ => None
  end.

Definition predict_speaker (predictions : list R)
  : option (nat * R * bool) :=
  predict_speaker_with predictions 0.7%R.

End Classifier.

(** ** audio_recorder.py: class AudioRecorder *)

Module AudioRecorder.
Import Np NpReduce.

(** [__init__(self, sample_rate=22050, channels=1)] *)
Definition sample_rate : Z := 22050%Z.

(** The dictionary of [get_audio_info]. *)
Record audio_info : Type := {
  duration : R;
  info_sample_rate : Z;
  max_amplitude : R;
  rms : R;
  samples : nat
}.

(** [get_audio_info(self, audio_data)]; [None] when [np.max] raises on an
    empty recording.  The code rounds [duration] and [rms]; of their values
    only the sign is used below. *)
Definition get_audio_info (audio_data : list R) : option audio_info :=
  let duration := (INR (length audio_data) / IZR sample_rate)%R in
  match amax (abs audio_data) with
  | None => None
  | Some max_amplitude =>
      let rms := sqrt (mean (square audio_data)) in
      Some {| duration := duration; info_sample_rate := sample_rate;
              max_amplitude := max_amplitude; rms := rms;
              samples := length audio_data |}
  end.

(** [record_with_voice_activity_detection(self, max_duration=10,
    silence_threshold=0.01, silence_duration=2)] with its defaults:
    [int(max_duration / 0.1)] is 100 and [int(silence_duration / 0.1)] is 20.
    [read i] is the chunk that the [i]-th [stream.read] returns; the result
    is the list of chunks before [np.concatenate]. *)
Definition max_chunks : nat := 100.
Definition max_silence_chunks : nat := 20.
Definition silence_threshold : R := 0.01%R.

Fixpoint record_loop (read : nat -> list R) (remaining i : nat)
    (audio_chunks : list (list R)) (silence_counter : nat)
  : option (list (list R)) :=
  match remaining with
  | O => Some audio_chunks
  | S remaining' =>
      let chunk := read i in
      let audio_chunks := audio_chunks ++ [chunk] in
      match amax (abs chunk) with
      | None => None
      | Some loudest =>
          let silence_counter :=
            if Rlt_dec loudest silence_threshold then S silence_counter
            else O in
          if (max_silence_chunks <=? silence_counter)%nat
             && (10 <? length audio_chunks)%nat
          then Some audio_chunks
          else record_loop read remaining' (S i) audio_chunks silence_counter
      end
  end.

(** A chunk in which no sample reaches the silence threshold. *)
Definition silent (chunk : list R) : Prop :=
  forall x, In x chunk -> (Rabs x < silence_threshold)%R.

(** The loop invariant of the recording: what holds before chunk [i] is
    read, with [s] the silence counter. *)
Definition recording (read : nat -> list R) (i s : nat) : Prop :=
  (s <= i)%nat /\ (s < max_silence_chunks)%nat /\
  (forall j, (i - s <= j < i)%nat -> silent (read j)) /\
  ((s < i)%nat -> ~ silent (read (i - s - 1))) /\
  (forall m, (max_silence_chunks <= m <= i)%nat ->
     exists j, (m - max_silence_chunks <= j < m)%nat /\ ~ silent (read j)).

Definition record_with_voice_activity_detection (read : nat -> list R)
  : option (list R) :=
  match record_loop read max_chunks 0 [] 0 with
  | None => None
  | Some audio_chunks => Some (concat audio_chunks)
  end.

End AudioRecorder.

(** ** Python strings *)

Module Py.

(** [str.lower()] on ASCII letters; the other bytes stay, and no character
    outside ASCII becomes a letter of "yes". *)
Definition lower_char (c : Ascii.ascii) : Ascii.ascii :=
  let n := Ascii.nat_of_ascii c in
  if (65 <=? n)%nat && (n <=? 90)%nat then Ascii.ascii_of_nat (n + 32)
  else c.

Fixpoint lower (s : string) : string :=
  match s with
  | EmptyString => EmptyString
  | String c s' => String (lower_char c) (lower s')
  end.

(** Truth value of an optional string: [None] and [''] are false. *)
Definition truthy (s : option string) : bool :=
  match s with
  | Some s => negb (String.eqb s "")
  | None => false
  end.

End Py.

(** ** What the front ends share *)

(** A call that either returns or raises. *)
Inductive py (A : Type) : Type :=
| Returns (a : A)
| Raises.
Arguments Returns {A} a.
Arguments Raises {A}.

(** The messages of a login attempt, without their formatted numbers. *)
Inductive login_notice : Type :=
| FailedToProcessAudio            (* "Failed to process audio" *)
| NoRegisteredStudents            (* "No registered students found" *)
| WelcomeBack (nm : string)       (* "Welcome back, {name}!" *)
| PossibleMatch (nm : string)     (* "Possible match: {name} ..." *)
| VoiceNotRecognized              (* "Voice not recognized ..." *)
| AuthenticationError             (* the message of the except branch *)
| NoAudioData                     (* web: "No audio data" *)
| AudioDecodeFailed               (* web: "Audio decode failed: ..." *)
| AudioConversionFailed.          (* web: "Audio conversion failed" *)

(** The messages of a training run. *)
Inductive train_notice : Type :=
| NeedTwoStudents                 (* "Need at least 2 ... students ..." *)
| TrainingFailed                  (* "Training failed: {e}" *)
| ModelTrained.                   (* "Model trained ... successfully!" *)

(** [self.model]: a [VoiceRecognitionCNN] object; [network] tells whether
    its attribute [model] holds a Keras network ([build_model] or
    [load_model] has returned). *)
Record VoiceRecognitionCNN : Type := {
  input_shape : list nat;
  num_classes : nat;
  network : bool
}.

(** What the TensorFlow calls of a training run do: [build_model] raises,
    a later call ([compile_model], [train_model], [save_model]) raises, or
    all of them return. *)
Inductive keras_run : Type :=
| BuildRaises
| LaterCallRaises
| Completes.

Definition builds (k : keras_run) : bool :=
  match k with BuildRaises => false | _ => true end.

Definition completes (k : keras_run) : bool :=
  match k with Completes => true | _ => false end.

Module Identification.
Import Np VoiceDatabase.

(** The loop over [all_students], the same text in [identify_and_login]
    (app.py), [_voice_only_login] (cli_app.py) and [api_voice_login]
    (web_app.py); [best_match] is assigned in two of them and never read. *)
Definition consider (d : db) (features : ndarray)
    (best : option student * R) (st : student) : option student * R :=
  let '(best_student, best_similarity) := best in
  if negb (is_active st) then best
  else
    let '(is_match, similarity) :=
      verify_student_voice d (student_id st) features in
    if Rgt_dec similarity best_similarity then (Some st, similarity)
    else best.

(** The similarity the loop obtains for one student. *)
Definition score (d : db) (features : ndarray) (st : student) : R :=
  snd (verify_student_voice d (student_id st) features).

Definition best_candidate (d : db) (features : ndarray)
    (all_students : list student) : option student * R :=
  fold_left (consider d features) all_students (None, 0%R).

(** Preparation of the training set, the same text in both [train_model]s:
    class [i] for every embedding of the [i]-th key. *)
Fixpoint labelled_from (i : nat) (sd : student_dict)
  : list (ndarray * nat) :=
  match sd with
  | [] => []
  | (_, data) :: sd' =>
      map (fun e => (e, i)) (embeddings data) ++ labelled_from (S i) sd'
  end.

(** The keys of the dictionary of [get_all_student_embeddings] after one
    more row for [sid]: a new key goes to the end. *)
Definition add_key (keys : list string) (sid : string) : list string :=
  if existsb (fun k => String.eqb k sid) keys then keys else keys ++ [sid].

(** [np.array(X_train)] followed by the reshape to four dimensions needs
    2-D samples of one shape; the result is [input_shape]. *)
Definition stack_shape (X_train : list ndarray) : py (list nat) :=
  match X_train with
  | Mat m :: rest =>
      if forallb
           (fun e =>
              match e with
              | Mat m' => (len m' =? len m)%nat && (ncols m' =? ncols m)%nat
              | Vec _ => false
              end)
           rest
      then Returns [len m; ncols m; 1%nat]
      else Raises
  | _ => Raises
  end.
End Identification.

(** ** app.py: class VoiceRecognitionApp *)

Module App.
Import Np VoiceDatabase Identification.

(** [app.py] imports os, sys, numpy, tkinter, threading, datetime and the
    four project modules.  The name [time] is not bound in the module, so
    evaluating [time.time()] raises [NameError]. *)
Definition time_time : py nat := Raises.

Record app : Type := {
  db : VoiceDatabase.db;
  model : option VoiceRecognitionCNN;
  login_result : option (bool * login_notice * R);
  train_status : option train_notice
}.

(** [show_login_result(self, success, message, confidence)] *)
Definition show_login_result (a : app) (ok : bool) (message : login_notice)
    (confidence : R) : app :=
  {| db := db a; model := model a;
     login_result := Some (ok, message, confidence);
     train_status := train_status a |}.

Definition log (a : app) (sid : string) (ok : bool) (score : R) : app :=
  {| db := log_login_attempt (db a) sid ok score; model := model a;
     login_result := login_result a; train_status := train_status a |}.

(** What the collaborators of one attempt do: whether [save_audio]
    returns, what [preprocess_audio] returns for the saved file, whether
    [predict_speaker] returns (asked only when a model is loaded). *)
Record attempt : Type := {
  save_audio_returns : bool;
  features : option matrix;
  predict_returns : bool
}.

(** [if self.model and self.model.model] *)
Definition model_loaded (a : app) : bool :=
  match model a with Some m => network m | None => false end.

(** The [try] body of [identify_and_login] after the name of the temporary
    file has been computed. *)
Definition identify_speaker (a : app) (t : attempt) : app :=
  if negb (save_audio_returns t) then
    show_login_result a false AuthenticationError 0
  else
    match features t with
    | None => show_login_result a false FailedToProcessAudio 0
    | Some features =>
        let all_students := list_all_students (db a) in
        match all_students with
        | [] => show_login_result a false NoRegisteredStudents 0
        | _ :: _ =>
            if model_loaded a && negb (predict_returns t) then
              show_login_result a false AuthenticationError 0
            else
              let '(best_student, best_similarity) :=
                best_candidate (db a) (Mat features) all_students in
              let confidence_threshold := 0.75%R in
              match best_student with
              | Some st =>
                  if Rgeb best_similarity confidence_threshold then
                    log (show_login_result a true (WelcomeBack (name st))
                                           best_similarity)
                        (student_id st) true best_similarity
                  else if Rgeb best_similarity 0.5 then
                    log (show_login_result a false (PossibleMatch (name st))
                                           best_similarity)
                        (student_id st) false best_similarity
                  else
                    log (show_login_result a false VoiceNotRecognized
                                           best_similarity)
                        "UNKNOWN" false best_similarity
              | None =>
                  log (show_login_result a false VoiceNotRecognized
                                         best_similarity)
                      "UNKNOWN" false best_similarity
              end
        end
    end.

(** An attempt for which the comparison with the registered voices is
    reached with features [m]: no collaborator raises, features exist. *)
Definition reaches_comparison (a : app) (t : attempt) (m : matrix) : Prop :=
  save_audio_returns t = true /\ features t = Some m /\
  (model_loaded a = true -> predict_returns t = true).

(** [identify_and_login(self, audio_data)] *)
Definition identify_and_login (a : app) (t : attempt) : app :=
  match time_time with
  | Raises => show_login_result a false AuthenticationError 0
  | Returns _ => identify_speaker a t
  end.

(** [train_model(self)], the body of [training_thread]. *)
Definition train_model (a : app) (keras : keras_run) : app :=
  let student_data := get_all_student_embeddings (db a) in
  if (length student_data <? 2)%nat then
    {| db := db a; model := model a; login_result := login_result a;
       train_status := Some NeedTwoStudents |}
  else
    let student_ids := map fst student_data in
    let train := labelled_from 0 student_data in
    match stack_shape (map fst train) with
    | Raises =>
        {| db := db a; model := model a; login_result := login_result a;
           train_status := Some TrainingFailed |}
    | Returns input_shape =>
        let num_classes := length student_ids in
        {| db := db a;
           model := Some {| input_shape := input_shape;
                            num_classes := num_classes;
                            network := builds keras |};
           login_result := login_result a;
           train_status :=
             Some (if completes keras then ModelTrained
                   else TrainingFailed) |}
    end.
End App.

(** ** cli_app.py: class VoiceRecognitionCLI *)

Module Cli.
Import Np VoiceDatabase Identification.

(** [cli_app.py] imports os, sys, argparse, numpy, datetime and the four
    project modules: [time] is not bound here either. *)
Definition time_time : py nat := Raises.

Record cli : Type := {
  db : VoiceDatabase.db;
  model : option VoiceRecognitionCNN
}.

Definition log (c : cli) (sid : string) (ok : bool) (score : R) : cli :=
  {| db := log_login_attempt (db c) sid ok score; model := model c |}.

(** Collaborators of one attempt: whether recording and saving return,
    and what [preprocess_audio] returns for the saved file. *)
Record attempt : Type := {
  record_audio_returns : bool;
  save_audio_returns : bool;
  features : option matrix
}.

(** What a login method yields: its return value, the headline it prints,
    the object afterwards. *)
Definition answer : Type := (bool * login_notice * cli)%type.

(** The [try] body of [_voice_only_login] after the name of the temporary
    file has been computed. *)
Definition identify_speaker (c : cli) (t : attempt) : answer :=
  if negb (save_audio_returns t) then (false, AuthenticationError, c)
  else
    match features t with
    | None => (false, FailedToProcessAudio, c)
    | Some features =>
        let all_students := list_all_students (db c) in
        match all_students with
        | [] => (false, NoRegisteredStudents, c)
        | _ :: _ =>
            let '(best_student, best_similarity) :=
              best_candidate (db c) (Mat features) all_students in
            let confidence_threshold := 0.75%R in
            match best_student with
            | Some st =>
                if Rgeb best_similarity confidence_threshold then
                  (true, WelcomeBack (name st),
                   log c (student_id st) true best_similarity)
                else if Rgeb best_similarity 0.5 then
                  (false, PossibleMatch (name st),
                   log c (student_id st) false best_similarity)
                else
                  (false, VoiceNotRecognized,
                   log c "UNKNOWN" false best_similarity)
            | None =>
                (false, VoiceNotRecognized,
                 log c "UNKNOWN" false best_similarity)
            end
        end
    end.

(** An attempt for which the comparison is reached with features [m]. *)
Definition reaches_comparison (t : attempt) (m : matrix) : Prop :=
  save_audio_returns t = true /\ features t = Some m.

(** [_voice_only_login(self)] *)
Definition _voice_only_login (c : cli) (t : attempt) : answer :=
  if negb (record_audio_returns t) then (false, AuthenticationError, c)
  else
    match time_time with
    | Raises => (false, AuthenticationError, c)
    | Returns _ => identify_speaker c t
    end.

(** [train_model(self)] *)
Definition train_model (c : cli) (keras : keras_run)
  : bool * train_notice * cli :=
  let student_data := get_all_student_embeddings (db c) in
  if (length student_data <? 2)%nat then (false, NeedTwoStudents, c)
  else
    let student_ids := map fst student_data in
    let train := labelled_from 0 student_data in
    match stack_shape (map fst train) with
    | Raises => (false, TrainingFailed, c)
    | Returns input_shape =>
        let num_classes := length student_ids in
        let c' :=
          {| db := db c;
             model := Some {| input_shape := input_shape;
                              num_classes := num_classes;
                              network := builds keras |} |} in
        if completes keras then (true, ModelTrained, c')
        else (false, TrainingFailed, c')
    end.
(** [register_student(self, student_id, name, email=None)]: the row of the
    student first, then the recording.  The value that
    [store_voice_embedding] returns is not looked at; its [ValueError]
    would be caught. *)
Definition register_student (c : cli) (now : nat) (sid nm : string)
    (mail : option string) (t : attempt) (audio_md5 : string) : bool * cli :=
  let '(registered, d) :=
    VoiceDatabase.register_student (db c) now sid nm mail in
  if negb registered then (false, c)
  else
    let c := {| db := d; model := model c |} in
    if negb (record_audio_returns t) then (false, c)
    else if negb (save_audio_returns t) then (false, c)
    else
      match features t with
      | Some features =>
          match store_voice_embedding (db c) now sid (Mat features)
                                      (Some audio_md5) None with
          | Some (_, d') => (true, {| db := d'; model := model c |})
          | None => (false, c)
          end
      | None => (false, c)
      end.

(** [_verify_specific_student(self, student_id)].  When the voice matches
    and [get_student_info] has returned [None], formatting the welcome
    raises and the handler returns [False] before anything is logged. *)
Definition _verify_specific_student (c : cli) (sid : string) (t : attempt)
  : bool * cli :=
  if negb (record_audio_returns t) then (false, c)
  else if negb (save_audio_returns t) then (false, c)
  else
    match features t with
    | None => (false, c)
    | Some features =>
        let student_info := get_student_info (db c) sid in
        let '(is_match, similarity) :=
          verify_student_voice (db c) sid (Mat features) in
        if is_match then
          match student_info with
          | Some _ => (true, log c sid true similarity)
          | None => (false, c)
          end
        else (false, log c sid false similarity)
    end.

(** [login_student(self, student_id=None)] *)
Definition login_student (c : cli) (student_id : option string)
    (t : attempt) : bool * cli :=
  match student_id with
  | Some sid =>
      if Py.truthy student_id then
        match get_student_info (db c) sid with
        | None => (false, c)
        | Some _ => _verify_specific_student c sid t
        end
      else
        let '(ok, _, c') := _voice_only_login c t in (ok, c')
  | None => let '(ok, _, c') := _voice_only_login c t in (ok, c')
  end.

(** [delete_student(self, student_id)], with the line typed at the
    confirmation prompt. *)
Definition delete_student (c : cli) (sid confirm : string) : bool * cli :=
  match get_student_info (db c) sid with
  | None => (false, c)
  | Some _ =>
      if negb (String.eqb (Py.lower confirm) "yes") then (false, c)
      else
        let '(deleted, d) := VoiceDatabase.delete_student (db c) sid in
        if deleted then (true, {| db := d; model := model c |})
        else (false, {| db := d; model := model c |})
  end.

End Cli.

(** ** web_app.py: the login endpoint *)

Module Web.
Import Np VoiceDatabase Identification.

(** [web_app.py] has [import time]: the name of the temporary file is
    computed without incident. *)

(** The JSON object of a reply. *)
Record reply : Type := {
  r_success : bool;
  r_message : login_notice;
  r_student : option (string * string);   (* student_name, student_id *)
  r_confidence : option R
}.

Definition refusal (message : login_notice) : reply :=
  {| r_success := false; r_message := message; r_student := None;
     r_confidence := None |}.

(** How far a request gets before the comparison: the request body, the
    base64 decoding, [convert_audio_to_wav], and the chain spectrogram,
    MFCC, manual spectrum that ends with [features] or without. *)
Inductive upload : Type :=
| Missing
| Undecodable
| Unconvertible
| Unprocessable
| Processed (features : ndarray).

(** [api_voice_login()], with the shared database as explicit state. *)
Definition api_voice_login (d : db) (u : upload) : reply * db :=
  match u with
  | Missing => (refusal NoAudioData, d)
  | Undecodable => (refusal AudioDecodeFailed, d)
  | Unconvertible => (refusal AudioConversionFailed, d)
  | Unprocessable => (refusal FailedToProcessAudio, d)
  | Processed features =>
      let all_students := list_all_students d in
      match all_students with
      | [] => (refusal NoRegisteredStudents, d)
      | _ :: _ =>
          let '(best_student, best_similarity) :=
            best_candidate d features all_students in
          match best_student with
          | Some st =>
              if Rgeb best_similarity 0.65 then
                ({| r_success := true; r_message := WelcomeBack (name st);
                    r_student := Some (name st, student_id st);
                    r_confidence := Some best_similarity |},
                 log_login_attempt d (student_id st) true best_similarity)
              else
                ({| r_success := false; r_message := VoiceNotRecognized;
                    r_student := None;
                    r_confidence := Some best_similarity |},
                 log_login_attempt d "UNKNOWN" false best_similarity)
          | None =>
              ({| r_success := false; r_message := VoiceNotRecognized;
                  r_student := None;
                  r_confidence := Some best_similarity |},
               log_login_attempt d "UNKNOWN" false best_similarity)
          end
      end
  end.
(** The messages of [api_register_student]. *)
Inductive register_notice : Type :=
| MissingRequiredFields           (* "Missing required fields" *)
| RegisterDecodeFailed            (* "Audio decode failed: ..." *)
| RegisterConversionFailed        (* "Audio conversion failed" *)
| RegisterProcessingFailed        (* "Audio processing failed - ..." *)
| StudentIdAlreadyExists          (* "Student ID already exists" *)
| VoiceStorageFailed              (* "Voice storage failed: ..." *)
| Registered.                     (* "Student {name} registered ..." *)

(** [api_register_student()].  [audio_readable] tells whether reading the
    converted file back returns; [noise1] and [noise2] are the two draws of
    [np.random.normal] for the stored variations. *)
Definition api_register_student (d : db) (now : nat)
    (student_id name : option string) (email : option string) (u : upload)
    (audio_readable : bool) (audio_md5 : string) (noise1 noise2 : ndarray)
  : register_notice * db :=
  match student_id, name with
  | Some sid, Some nm =>
      if negb (Py.truthy student_id && Py.truthy name) then
        (MissingRequiredFields, d)
      else
        match u with
        | Missing => (MissingRequiredFields, d)
        | Undecodable => (RegisterDecodeFailed, d)
        | Unconvertible => (RegisterConversionFailed, d)
        | Unprocessable => (RegisterProcessingFailed, d)
        | Processed features =>
            let '(registered, d1) := register_student d now sid nm email in
            if negb registered then (StudentIdAlreadyExists, d1)
            else if negb audio_readable then
              (VoiceStorageFailed, snd (delete_student d1 sid))
            else
              match store_voice_embedding d1 now sid features
                                          (Some audio_md5) None with
              | None => (VoiceStorageFailed, snd (delete_student d1 sid))
              | Some (_, d2) =>
                  let store_variation d noise :=
                    match store_voice_embedding
                            d now sid (NpReduce.add features noise)
                            (Some audio_md5) None with
                    | Some (_, d') => d'
                    | None => d
                    end in
                  (Registered,
                   store_variation (store_variation d2 noise1) noise2)
              end
        end
  | _, _ => (MissingRequiredFields, d)
  end.

(** The [stats] of [dashboard()]. *)
Record stats : Type := {
  total_students : nat;
  active_students : nat;
  total_samples : nat
}.

Definition dashboard (d : db) : stats :=
  let students := list_all_students d in
  {| total_students := length students;
     active_students := length (filter is_active students);
     total_samples :=
       fold_left
         (fun total student =>
            (total + length (get_student_embeddings d (student_id student)))
              %nat)
         students 0%nat |}.

End Web.

(** ** demo_data_generator.py and cleanup_student.py *)

Module Maintenance.
Import VoiceDatabase.

(** [cleanup_demo_data(self)]: every student whose identifier starts with
    DEMO is deleted. *)
Definition cleanup_demo_data (d : db) : db :=
  let students := list_all_students d in
  let demo_students :=
    filter (fun s => String.prefix "DEMO" (student_id s)) students in
  fold_left (fun d student => snd (delete_student d (student_id student)))
            demo_students d.

(** The identifier [x] is the one of a student of [l]. *)
Definition listed (l : list student) (x : string) : bool :=
  existsb (fun t => String.eqb x (student_id t)) l.

(** [cleanup_student(student_id)] of cleanup_student.py, with the line typed
    at the confirmation prompt. *)
Definition cleanup_student (d : db) (sid confirm : string) : bool * db :=
  match get_student_info d sid with
  | None => (false, d)
  | Some _ =>
      if negb (String.eqb (Py.lower confirm) "yes") then (false, d)
      else delete_student d sid
  end.

End Maintenance.

(** ** Test data *)

Module Fixture.
Import Np VoiceDatabase.

(** One enrolled student with one stored 1 x 2 encoding, and a probe whose
    similarity to it is 20/29 (about 0.69). *)
Definition stored : ndarray :=
  Mat {| ncols := 2; rows := [[20%R; 21%R]] |}.

Definition probe_matrix : matrix := {| ncols := 2; rows := [[1%R; 0%R]] |}.

Definition probe : ndarray := Mat probe_matrix.

(** Registration as every front end performs it: the student row, then
    the embedding. *)
Definition enrol (d : db) (now : nat) (sid nm : string) (e : ndarray) : db :=
  let d := snd (register_student d now sid nm None) in
  match store_voice_embedding d now sid e (Some "md5"%string) None with
  | Some (_, d') => d'
  | None => d
  end.

Definition enrolled : db := enrol init_database 1 "S1" "Asha" stored.

(** A second student, whose sample is the probe. *)
Definition two_enrolled : db := enrol enrolled 2 "S2" "Ravi" probe.

(** One frame of 13 coefficients, the width of the MFCC features, and the
    frame that points the other way. *)
Definition frame : matrix :=
  {| ncols := 13;
     rows := [[1; 0; 0; 0; 0; 0; 0; 0; 0; 0; 0; 0; 0]%R] |}.

Definition opposite_frame : matrix :=
  {| ncols := 13;
     rows := [[-1; 0; 0; 0; 0; 0; 0; 0; 0; 0; 0; 0; 0]%R] |}.

(** One more embedding for a registered student. *)
Definition store (d : db) (now : nat) (sid : string) (e : ndarray) : db :=
  match store_voice_embedding d now sid e (Some "md5"%string) None with
  | Some (_, d') => d'
  | None => d
  end.

(** Two students registered in one order and recorded in the other. *)
Definition crossed : db :=
  let d := snd (register_student init_database 1 "S1" "Asha" None) in
  let d := snd (register_student d 2 "S2" "Ravi" None) in
  store (store d 3 "S2" probe) 4 "S1" stored.

Definition two_enrolled_cli : Cli.cli :=
  {| Cli.db := two_enrolled; Cli.model := None |}.

Definition enrolled_cli : Cli.cli :=
  {| Cli.db := enrolled; Cli.model := None |}.

(** No student at all. *)
Definition empty_app : App.app :=
  {| App.db := init_database; App.model := None; App.login_result := None;
     App.train_status := None |}.

Definition good_attempt : App.attempt :=
  {| App.save_audio_returns := true; App.features := Some probe_matrix;
     App.predict_returns := true |}.

Definition enrolled_app : App.app :=
  {| App.db := enrolled; App.model := None; App.login_result := None;
     App.train_status := None |}.

End Fixture.

(** * Properties *)

(** ** Boolean comparisons *)

Lemma Rgtb_true (x y : R) : Rgtb x y = true <-> (x > y)%R.
Proof.
  unfold Rgtb. destruct (Rgt_dec x y); split; intro H;
    (assumption || reflexivity || discriminate || contradiction).
Qed.

Lemma Rgeb_true (x y : R) : Rgeb x y = true <-> (x >= y)%R.
Proof.
  unfold Rgeb. destruct (Rge_dec x y); split; intro H;
    (assumption || reflexivity || discriminate || contradiction).
Qed.

Lemma Rgeb_false (x y : R) : Rgeb x y = false <-> (x < y)%R.
Proof.
  unfold Rgeb. destruct (Rge_dec x y) as [H|H]; split; intro H';
    try reflexivity; try discriminate; lra.
Qed.

Lemma Reqb_true (x y : R) : Reqb x y = true <-> x = y.
Proof.
  unfold Reqb. destruct (Req_dec_T x y); split; intro H;
    (assumption || reflexivity || discriminate || contradiction).
Qed.

(** ** Fixed-length encoding and silence removal *)

Section PreprocessingFacts.
Import Np AudioPreprocessor.

Lemma select_by_mask (v : list R) (t : R) :
  select v (gt (abs v) t) = filter (fun x => Rgtb (Rabs x) t) v.
Proof.
  unfold select, gt, abs.
  induction v as [|x v IH]; simpl; [reflexivity|].
  destruct (Rgtb (Rabs x) t); simpl; now rewrite IH.
Qed.

Lemma any_of_mask (v : list R) (t : R) :
  any (gt (abs v) t) = existsb (fun x => Rgtb (Rabs x) t) v.
Proof.
  unfold any, gt, abs.
  induction v as [|x v IH]; simpl; [reflexivity|]. now rewrite IH.
Qed.

Lemma existsb_filter {A : Type} (p : A -> bool) (l : list A) :
  existsb p l = match filter p l with [] => false | _ :: _ => true end.
Proof.
  induction l as [|x l IH]; simpl; [reflexivity|].
  destruct (p x); simpl; [reflexivity | exact IH].
Qed.

Lemma remove_silence_with_filter (audio : list R) (t : R) :
  remove_silence_with audio t =
  match filter (fun x => Rgtb (Rabs x) t) audio with
  | [] => audio
  | x :: kept => x :: kept
  end.
Proof.
  unfold remove_silence_with.
  rewrite any_of_mask, select_by_mask, existsb_filter.
  now destruct (filter _ audio).
Qed.

Lemma remove_silence_with_nonempty (audio : list R) (t : R) :
  audio <> [] -> remove_silence_with audio t <> [].
Proof.
  intro H. rewrite remove_silence_with_filter.
  destruct (filter _ audio); [exact H | discriminate].
Qed.

Lemma pad_sequence_len (features : matrix) :
  len (pad_sequence features) = max_length.
Proof.
  unfold pad_sequence, len, take, pad_rows_after.
  destruct (Nat.ltb_spec max_length (length (rows features))) as [H|H];
    cbn [rows].
  - rewrite length_firstn. apply Nat.min_l. lia.
  - rewrite length_app, repeat_length. lia.
Qed.

Lemma pad_sequence_well_shaped (features : matrix) :
  well_shaped features -> well_shaped (pad_sequence features).
Proof.
  unfold well_shaped, pad_sequence, take, pad_rows_after.
  intro H. destruct (max_length <? len features)%nat; simpl.
  - rewrite Forall_forall in *. intros r Hr. apply H.
    rewrite <- (firstn_skipn max_length (rows features)).
    apply in_or_app. now left.
  - apply Forall_app. split; [exact H|].
    rewrite Forall_forall. intros r Hr. apply repeat_spec in Hr.
    subst r. apply repeat_length.
Qed.

Lemma preprocess_audio_inv
    (load_audio : string -> option (list R))
    (extract_mfcc extract_spectrogram : list R -> option matrix)
    (audio_path feature_type : string) (features : matrix) :
  preprocess_audio load_audio extract_mfcc extract_spectrogram
                   audio_path feature_type = Some features ->
  exists audio raw,
    load_audio audio_path = Some audio /\ audio <> [] /\
    features = pad_sequence raw /\
    ((feature_type = "mfcc"%string /\
      extract_mfcc (remove_silence audio) = Some raw) \/
     (feature_type = "spectrogram"%string /\
      extract_spectrogram (remove_silence audio) = Some raw)).
Proof.
  unfold preprocess_audio, preprocess_audio_exit.
  destruct (load_audio audio_path) as [audio|]; [|discriminate].
  destruct audio as [|x audio]; [discriminate|]. simpl length at 1.
  cbn [Nat.eqb].
  destruct (length (remove_silence (x :: audio)) =? 0)%nat;
    [discriminate|].
  destruct (String.eqb_spec feature_type "mfcc") as [Hm|Hm].
  - destruct (extract_mfcc _) as [raw|] eqn:E; [|discriminate].
    intro H. injection H as <-. exists (x :: audio), raw.
    repeat split; try discriminate. left. now split.
  - destruct (String.eqb_spec feature_type "spectrogram") as [Hs|Hs];
      [|discriminate].
    destruct (extract_spectrogram _) as [raw|] eqn:E; [|discriminate].
    intro H. injection H as <-. exists (x :: audio), raw.
    repeat split; try discriminate. right. now split.
Qed.
End PreprocessingFacts.


Section PipelineFacts.
Import Np AudioPreprocessor.

Variable load_audio : string -> option (list R).
Variable extract_mfcc extract_spectrogram : list R -> option matrix.

Lemma preprocess_audio_completes
    (audio_path feature_type : string) (audio : list R) (raw : matrix) :
  load_audio audio_path = Some audio ->
  audio <> [] ->
  (feature_type = "mfcc"%string /\
   extract_mfcc (remove_silence audio) = Some raw) \/
  (feature_type = "spectrogram"%string /\
   extract_spectrogram (remove_silence audio) = Some raw) ->
  preprocess_audio load_audio extract_mfcc extract_spectrogram
                   audio_path feature_type = Some (pad_sequence raw).
Proof.
  intros Hload Hne Hcase.
  unfold preprocess_audio, preprocess_audio_exit. rewrite Hload.
  destruct audio as [|x audio]; [contradiction|]. cbn [length Nat.eqb].
  pose proof (remove_silence_with_nonempty (x :: audio) default_threshold Hne)
    as Hkept.
  fold (remove_silence (x :: audio)) in Hkept.
  destruct (remove_silence (x :: audio)) as [|y kept] eqn:E;
    [contradiction|].
  cbn [length Nat.eqb].
  destruct Hcase as [[-> Hx]|[-> Hx]]; cbn; now rewrite Hx.
Qed.

Lemma preprocess_audio_exit_not_silent (audio_path feature_type : string) :
  preprocess_audio_exit load_audio extract_mfcc extract_spectrogram
                        audio_path feature_type <> NoAudioLeft.
Proof.
  unfold preprocess_audio_exit.
  destruct (load_audio audio_path) as [audio|]; [|discriminate].
  destruct audio as [|x audio]; [discriminate|]. cbn [length Nat.eqb].
  assert (Hkept : remove_silence (x :: audio) <> [])
    by (apply remove_silence_with_nonempty; discriminate).
  destruct (remove_silence (x :: audio)) as [|y kept]; [contradiction|].
  cbn [length Nat.eqb].
  destruct (String.eqb feature_type "mfcc").
  - destruct (extract_mfcc _); discriminate.
  - destruct (String.eqb feature_type "spectrogram");
      [destruct (extract_spectrogram _)|]; discriminate.
Qed.
End PipelineFacts.

(** C4.  [pad_sequence] returns exactly 100 rows of the input's width: the
    first 100 rows of a longer input, a shorter input followed by rows of
    zeros, an input of 100 rows as it is.  Hence every encoding that
    [preprocess_audio] returns has 100 rows, and the width of the extractor
    that was selected. *)
Theorem pad_sequence_fixed_length :
  (forall features : Np.matrix,
     Np.len (AudioPreprocessor.pad_sequence features) = 100%nat /\
     Np.ncols (AudioPreprocessor.pad_sequence features) = Np.ncols features /\
     ((100 < Np.len features)%nat ->
      Np.rows (AudioPreprocessor.pad_sequence features) =
      firstn 100 (Np.rows features)) /\
     ((Np.len features < 100)%nat ->
      Np.rows (AudioPreprocessor.pad_sequence features) =
      Np.rows features ++
      repeat (repeat 0%R (Np.ncols features)) (100 - Np.len features)) /\
     (Np.len features = 100%nat ->
      AudioPreprocessor.pad_sequence features = features) /\
     (Np.well_shaped features ->
      Np.well_shaped (AudioPreprocessor.pad_sequence features))) /\
  (forall (load_audio : string -> option (list R))
          (extract_mfcc extract_spectrogram : list R -> option Np.matrix)
          (n_mfcc n_mels : nat),
     (forall audio m, extract_mfcc audio = Some m -> Np.ncols m = n_mfcc) ->
     (forall audio m,
        extract_spectrogram audio = Some m -> Np.ncols m = n_mels) ->
     forall (audio_path feature_type : string) (features : Np.matrix),
       AudioPreprocessor.preprocess_audio
         load_audio extract_mfcc extract_spectrogram
         audio_path feature_type = Some features ->
       Np.len features = 100%nat /\
       Np.ncols features =
       if String.eqb feature_type "mfcc" then n_mfcc else n_mels).
Proof.
  split.
  - intro features.
    split; [exact (pad_sequence_len features)|].
    split; [|split; [|split; [|split;
      [|exact (pad_sequence_well_shaped features)]]]];
      unfold AudioPreprocessor.pad_sequence, Np.take, Np.pad_rows_after,
        Np.zero_row, Np.len;
      change AudioPreprocessor.max_length with 100%nat;
      destruct (Nat.ltb_spec 100 (length (Np.rows features))) as [H|H];
      cbn [Np.ncols Np.rows]; try reflexivity; try lia.
    intro E. destruct features as [c rs]. cbn [Np.ncols Np.rows] in *.
    rewrite E. replace (100 - 100)%nat with 0%nat by lia.
    cbn [repeat]. now rewrite app_nil_r.
  - intros load_audio extract_mfcc extract_spectrogram n_mfcc n_mels
           Hmfcc Hmels audio_path feature_type features Hrun.
    apply preprocess_audio_inv in Hrun.
    destruct Hrun as (audio & raw & _ & _ & -> & Hcase).
    split; [exact (pad_sequence_len raw)|].
    assert (Hc : Np.ncols (AudioPreprocessor.pad_sequence raw) = Np.ncols raw).
    { unfold AudioPreprocessor.pad_sequence.
      now destruct (_ <? _)%nat. }
    rewrite Hc. destruct Hcase as [[-> Hx]|[-> Hx]]; cbn.
    + eapply Hmfcc; exact Hx.
    + eapply Hmels; exact Hx.
Qed.

Lemma pad_sequence_fixed_length_witness :
  let short := {| Np.ncols := 2; Np.rows := [[1; 2]%R] |} in
  let load_audio := fun _ : string => Some [1%R] in
  let extract := fun _ : list R => Some short in
  ((Np.len short < 100)%nat /\
   Np.rows (AudioPreprocessor.pad_sequence short) =
   Np.rows short ++ repeat (repeat 0%R 2) 99) /\
  (AudioPreprocessor.preprocess_audio load_audio extract extract
     "login.wav" "spectrogram" = Some (AudioPreprocessor.pad_sequence short) /\
   Np.len (AudioPreprocessor.pad_sequence short) = 100%nat /\
   Np.ncols (AudioPreprocessor.pad_sequence short) = 2%nat).
Proof.
  intros short load_audio extract.
  assert (Hshort : (Np.len short < 100)%nat) by (cbn; lia).
  assert (Hrun : AudioPreprocessor.preprocess_audio load_audio extract extract
                   "login.wav" "spectrogram"
                 = Some (AudioPreprocessor.pad_sequence short)).
  { apply (preprocess_audio_completes load_audio extract extract
             "login.wav" "spectrogram" [1%R] short);
      [reflexivity | discriminate | right; split; reflexivity]. }
  split.
  - split; [exact Hshort|].
    exact (proj1 (proj2 (proj2 (proj2
             (proj1 pad_sequence_fixed_length short)))) Hshort).
  - split; [exact Hrun|].
    assert (Hwidth : forall audio m, extract audio = Some m ->
                                     Np.ncols m = 2%nat).
    { intros audio m H. injection H as <-. reflexivity. }
    exact (proj2 pad_sequence_fixed_length load_audio extract extract
             2%nat 2%nat Hwidth Hwidth "login.wav"%string
             "spectrogram"%string _ Hrun).
Defined.

(** C5.  [remove_silence] returns the samples whose absolute amplitude is
    strictly above 0.01, in their order; when there is none it returns its
    input. *)
Theorem remove_silence_keeps_loud_samples (audio : list R) :
  AudioPreprocessor.remove_silence audio =
  match filter (fun x => Rgtb (Rabs x) 0.01) audio with
  | [] => audio
  | x :: kept => x :: kept
  end.
Proof.
  exact (remove_silence_with_filter audio AudioPreprocessor.default_threshold).
Qed.

(** C10.  On a non-empty input [remove_silence] returns a non-empty
    sequence, and [preprocess_audio] never leaves through its "no audio left
    after silence removal" exit. *)
Theorem remove_silence_never_empties :
  (forall audio : list R,
     audio <> [] -> AudioPreprocessor.remove_silence audio <> []) /\
  (forall (load_audio : string -> option (list R))
          (extract_mfcc extract_spectrogram : list R -> option Np.matrix)
          (audio_path feature_type : string),
     AudioPreprocessor.preprocess_audio_exit
       load_audio extract_mfcc extract_spectrogram audio_path feature_type
     <> AudioPreprocessor.NoAudioLeft).
Proof.
  split.
  - intros audio H.
    exact (remove_silence_with_nonempty audio _ H).
  - exact preprocess_audio_exit_not_silent.
Qed.

Lemma remove_silence_never_empties_witness :
  [0.001%R; 0.5%R] <> [] /\
  AudioPreprocessor.remove_silence [0.001%R; 0.5%R] <> [].
Proof.
  assert (H : [0.001%R; 0.5%R] <> []) by discriminate.
  split; [exact H|].
  exact (proj1 remove_silence_never_empties [0.001%R; 0.5%R] H).
Defined.

(** Two runs of [remove_silence]: one loud sample among quiet ones, and
    silence only. *)
Example remove_silence_mixed :
  AudioPreprocessor.remove_silence [0.001%R; (-0.5)%R; 0.01%R] = [(-0.5)%R].
Proof.
  unfold AudioPreprocessor.remove_silence.
  rewrite remove_silence_with_filter.
  unfold AudioPreprocessor.default_threshold. cbn [filter].
  replace (Rgtb (Rabs 0.001) 0.01) with false.
  2:{ symmetry. apply not_true_is_false. rewrite Rgtb_true.
      rewrite Rabs_right by lra. lra. }
  replace (Rgtb (Rabs (-0.5)) 0.01) with true.
  2:{ symmetry. rewrite Rgtb_true. rewrite Rabs_left by lra. lra. }
  replace (Rgtb (Rabs 0.01) 0.01) with false.
  2:{ symmetry. apply not_true_is_false. rewrite Rgtb_true.
      rewrite Rabs_right by lra. lra. }
  reflexivity.
Qed.

Example remove_silence_all_quiet :
  AudioPreprocessor.remove_silence [0.001%R; 0.01%R] = [0.001%R; 0.01%R].
Proof.
  unfold AudioPreprocessor.remove_silence.
  rewrite remove_silence_with_filter.
  unfold AudioPreprocessor.default_threshold. cbn [filter].
  replace (Rgtb (Rabs 0.001) 0.01) with false.
  2:{ symmetry. apply not_true_is_false. rewrite Rgtb_true.
      rewrite Rabs_right by lra. lra. }
  replace (Rgtb (Rabs 0.01) 0.01) with false.
  2:{ symmetry. apply not_true_is_false. rewrite Rgtb_true.
      rewrite Rabs_right by lra. lra. }
  reflexivity.
Qed.

(** ** Cosine similarity *)

Section SimilarityFacts.
Import Np VoiceDatabase.
Local Open Scope R_scope.

Lemma dot_comm (u v : list R) : dot u v = dot v u.
Proof.
  revert v. induction u as [|x u IH]; intros [|y v]; cbn; try reflexivity.
  rewrite IH. ring.
Qed.

Lemma dot_zeros_l (u v : list R) : Forall (fun x => x = 0) u -> dot u v = 0.
Proof.
  intro H. revert v. induction H as [|x u Hx _ IH]; intros [|y v]; cbn;
    try reflexivity.
  rewrite IH, Hx. ring.
Qed.

Lemma norm_zeros (v : list R) : Forall (fun x => x = 0) v -> norm v = 0.
Proof.
  intro H. unfold norm. rewrite (dot_zeros_l v v H). apply sqrt_0.
Qed.

(** The function after its two flattening steps. *)
Lemma calculate_cosine_similarity_eq (a b : ndarray) :
  calculate_cosine_similarity a b =
  if (length (flatten a) =? length (flatten b))%nat then
    if Reqb (norm (flatten a)) 0 || Reqb (norm (flatten b)) 0 then 0
    else dot (flatten a) (flatten b) / (norm (flatten a) * norm (flatten b))
  else 0.
Proof.
  unfold calculate_cosine_similarity.
  destruct a as [u|m], b as [v|m']; cbn [ndim Nat.ltb Nat.leb flatten shape];
    match goal with
    | |- context [list_eq_dec Nat.eq_dec [?n] [?k]] =>
        destruct (list_eq_dec Nat.eq_dec [n] [k]) as [E|E];
        destruct (Nat.eqb_spec n k) as [E'|E'];
        try reflexivity; exfalso; congruence
    end.
Qed.

Lemma calculate_cosine_similarity_sym (a b : ndarray) :
  calculate_cosine_similarity a b = calculate_cosine_similarity b a.
Proof.
  rewrite !calculate_cosine_similarity_eq.
  rewrite (Nat.eqb_sym (length (flatten b))).
  rewrite (orb_comm (Reqb (norm (flatten b)) 0)).
  rewrite (dot_comm (flatten b)).
  rewrite (Rmult_comm (norm (flatten b))).
  reflexivity.
Qed.
End SimilarityFacts.

Section NegationFacts.
Import Np VoiceDatabase.
Local Open Scope R_scope.

Lemma flatten_negative (a : ndarray) :
  flatten (negative a) = map Ropp (flatten a).
Proof.
  destruct a as [v|m]; cbn [negative flatten rows]; [reflexivity|].
  now rewrite concat_map.
Qed.

Lemma dot_negative_r (u v : list R) : dot u (map Ropp v) = - dot u v.
Proof.
  revert v. induction u as [|x u IH]; intros [|y v]; cbn [map dot];
    try ring.
  rewrite IH. ring.
Qed.

Lemma dot_negative_l (u v : list R) : dot (map Ropp u) v = - dot u v.
Proof. now rewrite dot_comm, dot_negative_r, dot_comm. Qed.

Lemma norm_negative (v : list R) : norm (map Ropp v) = norm v.
Proof.
  unfold norm. rewrite dot_negative_r, dot_negative_l. f_equal. ring.
Qed.

Lemma calculate_cosine_similarity_negative_r (a b : ndarray) :
  calculate_cosine_similarity a (negative b)
  = - calculate_cosine_similarity a b.
Proof.
  rewrite !calculate_cosine_similarity_eq, flatten_negative.
  rewrite length_map, norm_negative, dot_negative_r.
  destruct (_ =? _)%nat; [|ring].
  destruct (Reqb (norm (flatten a)) 0 || Reqb (norm (flatten b)) 0);
    [ring|].
  unfold Rdiv. ring.
Qed.
End NegationFacts.

Section PaddingFacts.
Import Np AudioPreprocessor VoiceDatabase.
Local Open Scope R_scope.

Lemma dot_app (u v u' v' : list R) :
  length u = length v ->
  dot (u ++ u') (v ++ v') = dot u v + dot u' v'.
Proof.
  revert v. induction u as [|x u IH]; intros [|y v] Hlen;
    try discriminate; cbn [app dot].
  - ring.
  - rewrite IH by (cbn in Hlen; lia). ring.
Qed.

Lemma zero_rows_flat (c k : nat) :
  Forall (fun x => x = 0) (concat (repeat (zero_row c) k)).
Proof.
  induction k as [|k IH]; cbn [repeat concat]; [constructor|].
  apply Forall_app. split; [|exact IH].
  unfold zero_row. apply Forall_forall. intros x Hx.
  now apply repeat_spec in Hx.
Qed.

Lemma zero_rows_length (c k : nat) :
  length (concat (repeat (zero_row c) k)) = (k * c)%nat.
Proof.
  induction k as [|k IH]; cbn [repeat concat]; [reflexivity|].
  rewrite length_app, IH. unfold zero_row. rewrite repeat_length. lia.
Qed.

Lemma well_shaped_flat_length (m : matrix) :
  well_shaped m -> length (concat (rows m)) = (len m * ncols m)%nat.
Proof.
  unfold well_shaped, len. induction 1 as [|r rs Hr _ IH]; cbn;
    [reflexivity|].
  rewrite length_app, Hr, IH. lia.
Qed.

Lemma padded_flat (m : matrix) :
  (len m <= max_length)%nat ->
  flatten (Mat (pad_sequence m)) =
  concat (rows m) ++
  concat (repeat (zero_row (ncols m)) (max_length - len m)).
Proof.
  intro Hle. unfold pad_sequence.
  destruct (Nat.ltb_spec max_length (len m)) as [H|_]; [lia|].
  cbn [flatten pad_rows_after rows]. apply concat_app.
Qed.

Lemma dot_zero_padded (u v z z' : list R) :
  length u = length v -> Forall (fun x => x = 0) z ->
  dot (u ++ z) (v ++ z') = dot u v.
Proof.
  intros Hlen Hz. rewrite dot_app by exact Hlen.
  rewrite (dot_zeros_l z z' Hz). ring.
Qed.
End PaddingFacts.

(** Two padded feature matrices that point in opposite directions. *)
Example opposite_frames_score :
  VoiceDatabase.calculate_cosine_similarity
    (Np.Mat (AudioPreprocessor.pad_sequence Fixture.frame))
    (Np.Mat (AudioPreprocessor.pad_sequence Fixture.opposite_frame))
  = (-1)%R.
Proof.
  rewrite calculate_cosine_similarity_eq.
  rewrite !padded_flat
    by (unfold Np.len, AudioPreprocessor.max_length; cbn; lia).
  unfold Fixture.frame, Fixture.opposite_frame.
  cbn [Np.rows Np.ncols Np.len concat length].
  rewrite !app_nil_r, !length_app. cbn [length]. rewrite Nat.eqb_refl.
  unfold Np.norm.
  rewrite !dot_zero_padded by (try reflexivity; apply zero_rows_flat).
  cbn [Np.dot].
  repeat match goal with
         | |- context [sqrt ?x] =>
             progress replace x with 1%R by ring
         end.
  rewrite sqrt_1.
  assert (Hne : Reqb 1 0 = false).
  { apply not_true_is_false. rewrite Reqb_true. lra. }
  rewrite Hne. cbn [orb]. field.
Qed.

(** C1, as stated, fails: no clamping takes place, and two feature matrices
    of the shape the pipeline produces, 100 frames of 13 coefficients, that
    point in opposite directions score -1. *)
Lemma cosine_similarity_not_clamped :
  ~ (0 <= VoiceDatabase.calculate_cosine_similarity
            (Np.Mat (AudioPreprocessor.pad_sequence Fixture.frame))
            (Np.Mat (AudioPreprocessor.pad_sequence Fixture.opposite_frame))
     <= 1)%R.
Proof.
  rewrite opposite_frames_score. lra.
Qed.

(** C1, amended.  The score is 0.0 when the flattened lengths differ or a
    norm is zero, and otherwise the quotient of the dot product of the two
    flattened encodings by the product of their norms, returned as it was
    computed: nothing clamps it to [0, 1].  Negating one of the encodings
    negates the score, so the scores lie symmetrically around 0: for every
    pair that scores above 0 there is a pair that scores below 0. *)
Theorem similarity_is_unclamped_cosine (a b : Np.ndarray) :
  let u := Np.flatten a in
  let v := Np.flatten b in
  let s := VoiceDatabase.calculate_cosine_similarity a b in
  (((length u <> length v \/ Np.norm u = 0%R \/ Np.norm v = 0%R) /\
    s = 0%R) \/
   (length u = length v /\ Np.norm u <> 0%R /\ Np.norm v <> 0%R /\
    s = (Np.dot u v / (Np.norm u * Np.norm v))%R)) /\
  VoiceDatabase.calculate_cosine_similarity a (Np.negative b) = (- s)%R /\
  VoiceDatabase.calculate_cosine_similarity (Np.negative a) b = (- s)%R /\
  ((0 < s)%R ->
   (VoiceDatabase.calculate_cosine_similarity a (Np.negative b) < 0)%R).
Proof.
  intros u v s.
  assert (Hr : VoiceDatabase.calculate_cosine_similarity a (Np.negative b)
               = (- s)%R)
    by apply calculate_cosine_similarity_negative_r.
  split; [|split; [exact Hr|split]].
  - subst s. rewrite calculate_cosine_similarity_eq. fold u v.
    destruct (Nat.eqb_spec (length u) (length v)) as [E|E];
      [|left; split; [left; exact E | reflexivity]].
    destruct (Reqb (Np.norm u) 0) eqn:Eu.
    { left. apply Reqb_true in Eu. cbn [orb]. split; [|reflexivity].
      right. left. exact Eu. }
    destruct (Reqb (Np.norm v) 0) eqn:Ev.
    { left. apply Reqb_true in Ev. cbn [orb]. split; [|reflexivity].
      right. right. exact Ev. }
    right. cbn [orb]. repeat split; try assumption.
    + intro H. apply Reqb_true in H. congruence.
    + intro H. apply Reqb_true in H. congruence.
  - rewrite calculate_cosine_similarity_sym.
    rewrite calculate_cosine_similarity_negative_r.
    subst s. f_equal. apply calculate_cosine_similarity_sym.
  - intro Hpos. rewrite Hr. lra.
Qed.

(** C6.  The score is exactly 0 whenever the flattened lengths differ or
    one of the encodings has norm zero, in particular when one of them holds
    zeros only. *)
Theorem cosine_similarity_degenerate (a b : Np.ndarray) :
  length (Np.flatten a) <> length (Np.flatten b) \/
  Np.norm (Np.flatten a) = 0%R \/ Np.norm (Np.flatten b) = 0%R \/
  Forall (fun x => x = 0%R) (Np.flatten a) \/
  Forall (fun x => x = 0%R) (Np.flatten b) ->
  VoiceDatabase.calculate_cosine_similarity a b = 0%R.
Proof.
  intro H. rewrite calculate_cosine_similarity_eq.
  destruct (Nat.eqb_spec (length (Np.flatten a)) (length (Np.flatten b)))
    as [E|E]; [|reflexivity].
  assert (Hz : Np.norm (Np.flatten a) = 0%R \/ Np.norm (Np.flatten b) = 0%R).
  { destruct H as [H|[H|[H|[H|H]]]];
      [contradiction | now left | now right
      | left; now apply norm_zeros | right; now apply norm_zeros]. }
  destruct Hz as [Hz|Hz]; apply Reqb_true in Hz; rewrite Hz;
    [reflexivity | now rewrite orb_true_r].
Qed.

Lemma cosine_similarity_degenerate_witness :
  let silent := Np.Mat {| Np.ncols := 2; Np.rows := [[0%R; 0%R]] |} in
  let probe := Np.Mat {| Np.ncols := 2; Np.rows := [[1%R; 2%R]] |} in
  Forall (fun x => x = 0%R) (Np.flatten silent) /\
  VoiceDatabase.calculate_cosine_similarity silent probe = 0%R /\
  VoiceDatabase.calculate_cosine_similarity probe (Np.Vec [1%R]) = 0%R.
Proof.
  intros silent probe.
  assert (Hz : Forall (fun x => x = 0%R) (Np.flatten silent))
    by (repeat constructor).
  split; [exact Hz|]. split.
  - apply cosine_similarity_degenerate. right. right. right. left. exact Hz.
  - apply cosine_similarity_degenerate. left. cbn. lia.
Defined.

(** C7.  The score does not depend on the order of its arguments. *)
Theorem cosine_similarity_symmetric (a b : Np.ndarray) :
  VoiceDatabase.calculate_cosine_similarity a b =
  VoiceDatabase.calculate_cosine_similarity b a.
Proof.
  exact (calculate_cosine_similarity_sym a b).
Qed.

(** ** Closed-set verification *)

Section VerificationFacts.
Import Np VoiceDatabase.
Local Open Scope R_scope.

Lemma insert_desc_perm {A : Type} (date : A -> nat) (x : A) (l : list A) :
  Permutation (insert_desc date x l) (x :: l).
Proof.
  induction l as [|y l IH]; cbn; [apply Permutation_refl|].
  destruct (date y <=? date x)%nat; [apply Permutation_refl|].
  eapply perm_trans; [apply perm_skip, IH | apply perm_swap].
Qed.

Lemma order_by_desc_perm {A : Type} (date : A -> nat) (l : list A) :
  Permutation (order_by_desc date l) l.
Proof.
  unfold order_by_desc. induction l as [|x l IH]; cbn;
    [apply perm_nil|].
  eapply perm_trans; [apply insert_desc_perm | apply perm_skip, IH].
Qed.

Lemma order_by_desc_in {A : Type} (date : A -> nat) (l : list A) (x : A) :
  In x (order_by_desc date l) <-> In x l.
Proof.
  split; apply Permutation_in;
    [apply order_by_desc_perm | apply Permutation_sym, order_by_desc_perm].
Qed.

Lemma order_by_desc_nil {A : Type} (date : A -> nat) (l : list A) :
  order_by_desc date l = [] -> l = [].
Proof.
  intro H. apply Permutation_nil. rewrite <- H.
  apply order_by_desc_perm.
Qed.

(** Python's [max]: an element of the list, and an upper bound of it. *)
Lemma builtin_max_ge_start (x : R) (xs : list R) : x <= builtin_max x xs.
Proof.
  unfold builtin_max. revert x.
  induction xs as [|y xs IH]; intro x; cbn; [lra|].
  destruct (Rgt_dec y x) as [H|H]; [|apply IH].
  eapply Rle_trans; [|apply IH]. lra.
Qed.

Lemma builtin_max_upper (x : R) (xs : list R) (y : R) :
  In y (x :: xs) -> y <= builtin_max x xs.
Proof.
  revert x. induction xs as [|z xs IH]; intros x [<-|Hin].
  - apply builtin_max_ge_start.
  - destruct Hin.
  - apply builtin_max_ge_start.
  - unfold builtin_max in *. cbn [fold_left].
    destruct (Rgt_dec z x) as [H|H].
    + apply IH. destruct Hin as [<-|Hin]; [now left | now right].
    + destruct Hin as [<-|Hin].
      * eapply Rle_trans; [|apply (builtin_max_ge_start x xs)]. lra.
      * apply IH. now right.
Qed.

Lemma builtin_max_in (x : R) (xs : list R) : In (builtin_max x xs) (x :: xs).
Proof.
  unfold builtin_max. revert x.
  induction xs as [|y xs IH]; intro x; cbn [fold_left]; [now left|].
  destruct (Rgt_dec y x) as [H|H].
  - right. apply IH.
  - destruct (IH x) as [E|Hin]; [left; exact E | right; right; exact Hin].
Qed.

Lemma get_student_embeddings_in (d : db) (sid : string) (e : ndarray) :
  In e (map embedding (get_student_embeddings d sid)) <->
  In e (map embedding_data
          (filter (fun ve => String.eqb (ve_student_id ve) sid)
                  (voice_embeddings d))).
Proof.
  unfold get_student_embeddings. rewrite map_map. cbn [embedding].
  rewrite !in_map_iff.
  split; intros (ve & <- & Hin); exists ve; (split; [reflexivity|]).
  - now apply order_by_desc_in in Hin.
  - now apply order_by_desc_in.
Qed.

Lemma get_student_embeddings_nil (d : db) (sid : string) :
  get_student_embeddings d sid = [] ->
  filter (fun ve => String.eqb (ve_student_id ve) sid) (voice_embeddings d)
  = [].
Proof.
  unfold get_student_embeddings. intro H.
  apply map_eq_nil in H. now apply order_by_desc_nil in H.
Qed.
End VerificationFacts.

Lemma similarities_in (d : VoiceDatabase.db) (sid : string)
    (probe : Np.ndarray) (s : R) :
  In s (map (fun emb_data =>
               VoiceDatabase.calculate_cosine_similarity
                 probe (VoiceDatabase.embedding emb_data))
            (VoiceDatabase.get_student_embeddings d sid)) <->
  In s (map (fun ve =>
               VoiceDatabase.calculate_cosine_similarity
                 probe (VoiceDatabase.embedding_data ve))
            (filter (fun ve => String.eqb (VoiceDatabase.ve_student_id ve) sid)
                    (VoiceDatabase.voice_embeddings d))).
Proof.
  rewrite <- (map_map VoiceDatabase.embedding
                (VoiceDatabase.calculate_cosine_similarity probe)).
  rewrite <- (map_map VoiceDatabase.embedding_data
                (VoiceDatabase.calculate_cosine_similarity probe)).
  rewrite !in_map_iff.
  split; intros (e & <- & Hin); exists e; (split; [reflexivity|]);
    now apply get_student_embeddings_in.
Qed.

(** Python's [max] on the three scores of the specification's example. *)
Example builtin_max_of_three :
  VoiceDatabase.builtin_max 0.3 [0.9; 0.5]%R = 0.9%R.
Proof.
  unfold VoiceDatabase.builtin_max. cbn [fold_left].
  destruct (Rgt_dec 0.9 0.3) as [_|H]; [|exfalso; lra].
  destruct (Rgt_dec 0.5 0.9) as [H|_]; [exfalso; lra|]. reflexivity.
Qed.

(** C2.  For an identity with at least one stored encoding,
    [verify_student_voice] returns as score the maximum of the similarities
    between the probe and the stored encodings (one of them, and at least
    each of them), and accepts exactly when that maximum is at least 0.8. *)
Theorem verify_student_voice_best_of_n
    (d : VoiceDatabase.db) (sid : string) (probe : Np.ndarray) :
  let stored :=
    filter (fun ve => String.eqb (VoiceDatabase.ve_student_id ve) sid)
           (VoiceDatabase.voice_embeddings d) in
  let scores :=
    map (fun ve => VoiceDatabase.calculate_cosine_similarity
                     probe (VoiceDatabase.embedding_data ve)) stored in
  stored <> [] ->
  let result := VoiceDatabase.verify_student_voice d sid probe in
  In (snd result) scores /\
  (forall s, In s scores -> (s <= snd result)%R) /\
  (fst result = true <-> (snd result >= 0.8)%R).
Proof.
  intros stored scores Hstored result.
  subst result. unfold VoiceDatabase.verify_student_voice,
    VoiceDatabase.verify_student_voice_with,
    VoiceDatabase.default_similarity_threshold.
  pose proof (similarities_in d sid probe) as Hin. fold stored scores in Hin.
  destruct (VoiceDatabase.get_student_embeddings d sid) as [|e es] eqn:E.
  - apply get_student_embeddings_nil in E. contradiction.
  - cbn [map fst snd] in *. split; [|split].
    + apply Hin. apply builtin_max_in.
    + intros s Hs. apply builtin_max_upper. now apply Hin.
    + apply Rgeb_true.
Qed.

Lemma verify_student_voice_best_of_n_witness :
  filter (fun ve => String.eqb (VoiceDatabase.ve_student_id ve) "S1")
         (VoiceDatabase.voice_embeddings Fixture.enrolled) <> [] /\
  In (snd (VoiceDatabase.verify_student_voice
             Fixture.enrolled "S1" Fixture.probe))
     [VoiceDatabase.calculate_cosine_similarity Fixture.probe Fixture.stored]
  /\
  (fst (VoiceDatabase.verify_student_voice Fixture.enrolled "S1"
                                           Fixture.probe) = true <->
   (snd (VoiceDatabase.verify_student_voice Fixture.enrolled "S1"
                                            Fixture.probe) >= 0.8)%R).
Proof.
  assert (H : filter (fun ve => String.eqb (VoiceDatabase.ve_student_id ve)
                                           "S1")
                     (VoiceDatabase.voice_embeddings Fixture.enrolled) <> [])
    by (cbn; discriminate).
  split; [exact H|].
  pose proof (verify_student_voice_best_of_n Fixture.enrolled "S1"
                Fixture.probe H) as (Hin & _ & Hmatch).
  split; [exact Hin | exact Hmatch].
Defined.

(** ** Open-set identification *)

Section IdentificationFacts.
Import Np VoiceDatabase Identification.
Local Open Scope R_scope.

Variable d : db.
Variable probe : ndarray.

Lemma consider_eq (best : option student * R) (st : student) :
  consider d probe best st =
  if is_active st then
    if Rgt_dec (score d probe st) (snd best) then (Some st, score d probe st)
    else best
  else best.
Proof.
  unfold consider, score. destruct best as [bs b].
  destruct (is_active st); cbn [negb snd]; [|reflexivity].
  now destruct (verify_student_voice d (student_id st) probe).
Qed.

Lemma scan_spec (l : list student) (bs : option student) (b : R) :
  let r := fold_left (consider d probe) l (bs, b) in
  b <= snd r /\
  (forall st, In st l -> is_active st = true -> score d probe st <= snd r) /\
  ((r = (bs, b)) \/
   (exists st, In st l /\ is_active st = true /\
               r = (Some st, score d probe st) /\ b < score d probe st)).
Proof.
  revert bs b. induction l as [|x l IH]; intros bs b; cbn [fold_left].
  - split; [cbn; lra|]. split; [intros st []|]. now left.
  - rewrite consider_eq. cbn [snd].
    destruct (is_active x) eqn:Hact.
    + destruct (Rgt_dec (score d probe x) b) as [Hgt|Hle].
      * destruct (IH (Some x) (score d probe x)) as (H1 & H2 & H3).
        split; [lra|]. split.
        -- intros st [<-|Hin] Ha; [exact H1 | now apply H2].
        -- right. destruct H3 as [H3|(st & Hin & Ha & H3 & Hlt)].
           ++ exists x. repeat split; try assumption; try now left.
           ++ exists st. repeat split; try assumption; [now right | lra].
      * destruct (IH bs b) as (H1 & H2 & H3).
        split; [exact H1|]. split.
        -- intros st [<-|Hin] Ha; [lra | now apply H2].
        -- destruct H3 as [H3|(st & Hin & Ha & H3 & Hlt)]; [now left|].
           right. exists st. repeat split; try assumption. now right.
    + destruct (IH bs b) as (H1 & H2 & H3).
      split; [exact H1|]. split.
      * intros st [<-|Hin] Ha; [congruence | now apply H2].
      * destruct H3 as [H3|(st & Hin & Ha & H3 & Hlt)]; [now left|].
        right. exists st. repeat split; try assumption. now right.
Qed.

(** With [s] the top score of the active students: the loop ends on a
    student of score [s] when [s] is positive, and on nobody otherwise. *)
Lemma best_candidate_top (all_students : list student) (s : R) :
  In s (map (score d probe) (filter is_active all_students)) ->
  (forall x,
     In x (map (score d probe) (filter is_active all_students)) -> x <= s) ->
  (0 < s ->
   exists st, In st all_students /\ score d probe st = s /\
              best_candidate d probe all_students = (Some st, s)) /\
  (s <= 0 -> best_candidate d probe all_students = (None, 0)).
Proof.
  intros Hin Htop. unfold best_candidate.
  destruct (scan_spec all_students None 0) as (H1 & H2 & H3).
  apply in_map_iff in Hin. destruct Hin as (top & Hs & Hintop).
  apply filter_In in Hintop. destruct Hintop as [Hintop Hact].
  pose proof (H2 top Hintop Hact) as Hle. rewrite Hs in Hle.
  destruct H3 as [H3|(st & Hinst & Ha & H3 & Hlt)].
  - rewrite H3 in *. cbn [snd] in *. split; [intro; exfalso; lra|].
    reflexivity.
  - rewrite H3 in *. cbn [snd] in *.
    assert (Hst : score d probe st <= s).
    { apply Htop, in_map_iff. exists st. split; [reflexivity|].
      apply filter_In. now split. }
    assert (E : score d probe st = s) by lra.
    split; [|intro; exfalso; lra].
    intros _. exists st. rewrite E. now repeat split.
Qed.

Lemma best_candidate_nobody (all_students : list student) :
  map (score d probe) (filter is_active all_students) = [] ->
  best_candidate d probe all_students = (None, 0).
Proof.
  intro Hnil. unfold best_candidate.
  destruct (scan_spec all_students None 0)
    as (_ & _ & [H3|(st & Hinst & Ha & _)]); [exact H3|].
  exfalso. apply map_eq_nil in Hnil.
  assert (Hin : In st (filter is_active all_students))
    by (apply filter_In; now split).
  rewrite Hnil in Hin. destruct Hin.
Qed.
End IdentificationFacts.

Section FrontEndFacts.
Import Np VoiceDatabase Identification.
Local Open Scope R_scope.

Lemma list_all_students_in (d : db) (st : student) :
  In st (list_all_students d) <-> In st (students d).
Proof. apply order_by_desc_in. Qed.

Lemma list_all_students_scores (d : db) (f : student -> R) (x : R) :
  In x (map f (filter is_active (list_all_students d))) <->
  In x (map f (filter is_active (students d))).
Proof.
  rewrite !in_map_iff. split; intros (st & <- & Hin); exists st;
    (split; [reflexivity|]); apply filter_In in Hin; apply filter_In;
    (split; [apply list_all_students_in|]); tauto.
Qed.

(** The outcome of the loop in terms of the top score over the table. *)
Lemma top_candidate (d : db) (probe : ndarray) (s : R) :
  let score := fun st => snd (verify_student_voice d (student_id st) probe) in
  let scores := map score (filter is_active (students d)) in
  In s scores ->
  (forall x, In x scores -> x <= s) ->
  list_all_students d <> [] /\
  (0 < s ->
   exists st, In st (students d) /\ score st = s /\
              best_candidate d probe (list_all_students d) = (Some st, s)) /\
  (s <= 0 -> best_candidate d probe (list_all_students d) = (None, 0)).
Proof.
  intros score scores Hin Htop.
  assert (Hin' : In s (map score (filter is_active (list_all_students d))))
    by now apply list_all_students_scores.
  assert (Htop' : forall x,
             In x (map score (filter is_active (list_all_students d))) ->
             x <= s)
    by (intros x Hx; now apply Htop, list_all_students_scores).
  destruct (best_candidate_top d probe (list_all_students d) s Hin' Htop')
    as [Hpos Hneg].
  split; [|split].
  - intro E. rewrite E in Hin'. destruct Hin'.
  - intro Hs. destruct (Hpos Hs) as (st & Hst & Hscore & Hbest).
    exists st. split; [now apply list_all_students_in|]. now split.
  - exact Hneg.
Qed.

(** The desktop attempt, once the comparison is reached. *)
Lemma app_identify_speaker_reached (a : App.app) (t : App.attempt)
    (m : matrix) :
  App.reaches_comparison a t m ->
  list_all_students (App.db a) <> [] ->
  App.identify_speaker a t =
  match best_candidate (App.db a) (Mat m) (list_all_students (App.db a)) with
  | (Some st, b) =>
      if Rgeb b 0.75 then
        App.log (App.show_login_result a true (WelcomeBack (name st)) b)
                (student_id st) true b
      else if Rgeb b 0.5 then
        App.log (App.show_login_result a false (PossibleMatch (name st)) b)
                (student_id st) false b
      else
        App.log (App.show_login_result a false VoiceNotRecognized b)
                "UNKNOWN" false b
  | (None, b) =>
      App.log (App.show_login_result a false VoiceNotRecognized b)
              "UNKNOWN" false b
  end.
Proof.
  intros (Hsave & Hfeat & Hpred) Hne. unfold App.identify_speaker.
  rewrite Hsave, Hfeat. cbn [negb].
  destruct (list_all_students (App.db a)) as [|st0 rest] eqn:E;
    [contradiction|].
  assert (Hm : App.model_loaded a && negb (App.predict_returns t) = false).
  { destruct (App.model_loaded a); [|reflexivity].
    now rewrite Hpred. }
  rewrite Hm.
  destruct (best_candidate (App.db a) (Mat m) (st0 :: rest)) as [[st|] b];
    reflexivity.
Qed.

(** The command-line attempt, once the comparison is reached. *)
Lemma cli_identify_speaker_reached (c : Cli.cli) (t : Cli.attempt)
    (m : matrix) :
  Cli.reaches_comparison t m ->
  list_all_students (Cli.db c) <> [] ->
  Cli.identify_speaker c t =
  match best_candidate (Cli.db c) (Mat m) (list_all_students (Cli.db c)) with
  | (Some st, b) =>
      if Rgeb b 0.75 then
        (true, WelcomeBack (name st), Cli.log c (student_id st) true b)
      else if Rgeb b 0.5 then
        (false, PossibleMatch (name st), Cli.log c (student_id st) false b)
      else (false, VoiceNotRecognized, Cli.log c "UNKNOWN" false b)
  | (None, b) => (false, VoiceNotRecognized, Cli.log c "UNKNOWN" false b)
  end.
Proof.
  intros (Hsave & Hfeat) Hne. unfold Cli.identify_speaker.
  rewrite Hsave, Hfeat. cbn [negb].
  destruct (list_all_students (Cli.db c)) as [|st0 rest] eqn:E;
    [contradiction|].
  destruct (best_candidate (Cli.db c) (Mat m) (st0 :: rest)) as [[st|] b];
    reflexivity.
Qed.

(** Without a registered student nothing is compared, and nothing logged. *)
Lemma list_all_students_nil (d : db) :
  students d = [] -> list_all_students d = [].
Proof. unfold list_all_students. now intros ->. Qed.

(** The entry points of the desktop and command-line front ends stop at the
    unbound name [time]: whatever the attempt, they report an error and log
    nothing. *)
Lemma app_identify_and_login_stops (a : App.app) (t : App.attempt) :
  App.identify_and_login a t =
  App.show_login_result a false AuthenticationError 0.
Proof. reflexivity. Qed.

Lemma cli_voice_only_login_stops (c : Cli.cli) (t : Cli.attempt) :
  Cli._voice_only_login c t = (false, AuthenticationError, c).
Proof.
  unfold Cli._voice_only_login.
  now destruct (Cli.record_audio_returns t).
Qed.
End FrontEndFacts.

(** ** The test data *)

Lemma enrolled_tables :
  VoiceDatabase.students Fixture.enrolled =
    [{| VoiceDatabase.student_id := "S1"; VoiceDatabase.name := "Asha";
        VoiceDatabase.email := None; VoiceDatabase.registration_date := 1;
        VoiceDatabase.is_active := true |}] /\
  VoiceDatabase.get_student_embeddings Fixture.enrolled "S1" =
    [{| VoiceDatabase.embedding := Fixture.stored;
        VoiceDatabase.entry_confidence_score := None;
        VoiceDatabase.entry_registration_date := 1 |}] /\
  VoiceDatabase.login_attempts Fixture.enrolled = [].
Proof. repeat split. Qed.

Lemma probe_score :
  VoiceDatabase.calculate_cosine_similarity Fixture.probe Fixture.stored
  = (20 / 29)%R.
Proof.
  rewrite calculate_cosine_similarity_eq.
  unfold Fixture.probe, Fixture.probe_matrix, Fixture.stored.
  cbn [Np.flatten Np.rows concat app length Nat.eqb].
  assert (H1 : Np.norm [1%R; 0%R] = 1%R).
  { unfold Np.norm. cbn [Np.dot].
    replace (1 * 1 + (0 * 0 + 0))%R with 1%R by ring. apply sqrt_1. }
  assert (H2 : Np.norm [20%R; 21%R] = 29%R).
  { unfold Np.norm. cbn [Np.dot].
    replace (20 * 20 + (21 * 21 + 0))%R with (29 * 29)%R by ring.
    apply sqrt_square. lra. }
  rewrite H1, H2.
  assert (Hne1 : Reqb 1 0 = false).
  { apply not_true_is_false. rewrite Reqb_true. lra. }
  assert (Hne2 : Reqb 29 0 = false).
  { apply not_true_is_false. rewrite Reqb_true. lra. }
  rewrite Hne1, Hne2. cbn [orb Np.dot]. field.
Qed.

Lemma probe_verification :
  VoiceDatabase.verify_student_voice Fixture.enrolled "S1" Fixture.probe
  = (false, (20 / 29)%R).
Proof.
  unfold VoiceDatabase.verify_student_voice,
    VoiceDatabase.verify_student_voice_with.
  rewrite (proj1 (proj2 enrolled_tables)).
  cbn [map VoiceDatabase.embedding VoiceDatabase.builtin_max fold_left].
  rewrite probe_score. f_equal.
  apply Rgeb_false. unfold VoiceDatabase.default_similarity_threshold. lra.
Qed.

Lemma probe_best_candidate :
  exists st,
    VoiceDatabase.student_id st = "S1"%string /\
    VoiceDatabase.name st = "Asha"%string /\
    Identification.best_candidate
      Fixture.enrolled Fixture.probe
      (VoiceDatabase.list_all_students Fixture.enrolled)
    = (Some st, (20 / 29)%R).
Proof.
  eexists. split; [|split]; cycle 2.
  - unfold Identification.best_candidate, VoiceDatabase.list_all_students.
    rewrite (proj1 enrolled_tables).
    cbn [VoiceDatabase.order_by_desc fold_right VoiceDatabase.insert_desc
         fold_left].
    unfold Identification.consider.
    cbn [VoiceDatabase.is_active negb VoiceDatabase.student_id].
    rewrite probe_verification.
    destruct (Rgt_dec (20 / 29) 0) as [_|H]; [reflexivity | exfalso; lra].
  - reflexivity.
  - reflexivity.
Qed.

(** C3, as stated, fails on the web endpoint: a top score of 20/29, inside
    the band from 0.5 to 0.75, is answered by a successful login. *)
Lemma web_login_accepts_inside_middle_band :
  let s := snd (VoiceDatabase.verify_student_voice
                  Fixture.enrolled "S1" Fixture.probe) in
  let r := fst (Web.api_voice_login Fixture.enrolled
                  (Web.Processed Fixture.probe)) in
  (0.5 <= s < 0.75)%R /\
  Web.r_success r = true /\
  Web.r_message r = WelcomeBack "Asha" /\
  Web.r_student r = Some ("Asha", "S1")%string.
Proof.
  cbv zeta. rewrite probe_verification. cbn [snd].
  split; [lra|].
  unfold Web.api_voice_login.
  destruct probe_best_candidate as (st & Hid & Hname & Hbest).
  destruct (VoiceDatabase.list_all_students Fixture.enrolled) as [|st0 rest]
    eqn:E; [discriminate E|].
  rewrite Hbest.
  assert (Hge : Rgeb (20 / 29) 0.65 = true) by (apply Rgeb_true; lra).
  rewrite Hge. cbn. now rewrite Hid, Hname.
Qed.

(** C3, amended.  With [s] the top score over the active registered
    students and the comparison reached: the desktop and command-line code
    accepts when [s >= 0.75], reports a possible match without granting
    access when [0.5 <= s < 0.75] and rejects when [s < 0.5]; the web
    endpoint accepts when [s >= 0.65] and rejects otherwise.  Without any
    registered student all three reject. *)
Theorem open_set_decision_tiers :
  (forall (d : VoiceDatabase.db) (m : Np.matrix) (s : R),
     let score := fun st =>
       snd (VoiceDatabase.verify_student_voice
              d (VoiceDatabase.student_id st) (Np.Mat m)) in
     let scores :=
       map score (filter VoiceDatabase.is_active (VoiceDatabase.students d)) in
     In s scores ->
     (forall x, In x scores -> (x <= s)%R) ->
     (forall a t,
        App.db a = d -> App.reaches_comparison a t m ->
        let shown := App.login_result (App.identify_speaker a t) in
        ((s >= 0.75)%R ->
         exists st, In st (VoiceDatabase.students d) /\ score st = s /\
           shown = Some (true, WelcomeBack (VoiceDatabase.name st), s)) /\
        ((0.5 <= s < 0.75)%R ->
         exists st, In st (VoiceDatabase.students d) /\ score st = s /\
           shown = Some (false, PossibleMatch (VoiceDatabase.name st), s)) /\
        ((s < 0.5)%R ->
         exists b, shown = Some (false, VoiceNotRecognized, b))) /\
     (forall c t,
        Cli.db c = d -> Cli.reaches_comparison t m ->
        let answer := fst (Cli.identify_speaker c t) in
        ((s >= 0.75)%R ->
         exists st, In st (VoiceDatabase.students d) /\ score st = s /\
           answer = (true, WelcomeBack (VoiceDatabase.name st))) /\
        ((0.5 <= s < 0.75)%R ->
         exists st, In st (VoiceDatabase.students d) /\ score st = s /\
           answer = (false, PossibleMatch (VoiceDatabase.name st))) /\
        ((s < 0.5)%R -> answer = (false, VoiceNotRecognized))) /\
     (let r := fst (Web.api_voice_login d (Web.Processed (Np.Mat m))) in
      ((s >= 0.65)%R ->
       exists st, In st (VoiceDatabase.students d) /\ score st = s /\
         Web.r_success r = true /\
         Web.r_message r = WelcomeBack (VoiceDatabase.name st) /\
         Web.r_student r =
           Some (VoiceDatabase.name st, VoiceDatabase.student_id st)) /\
      ((s < 0.65)%R ->
       Web.r_success r = false /\ Web.r_message r = VoiceNotRecognized /\
       Web.r_student r = None))) /\
  (forall (d : VoiceDatabase.db) (m : Np.matrix),
     VoiceDatabase.students d = [] ->
     (forall a t,
        App.db a = d -> App.reaches_comparison a t m ->
        App.login_result (App.identify_speaker a t)
        = Some (false, NoRegisteredStudents, 0%R)) /\
     (forall c t,
        Cli.db c = d -> Cli.reaches_comparison t m ->
        fst (Cli.identify_speaker c t) = (false, NoRegisteredStudents)) /\
     fst (Web.api_voice_login d (Web.Processed (Np.Mat m)))
     = Web.refusal NoRegisteredStudents).
Proof.
  split.
  - intros d m s score scores Hin Htop.
    destruct (top_candidate d (Np.Mat m) s Hin Htop) as (Hne & Hpos & Hneg).
    fold score in Hpos.
    assert (Hcases :
      (exists st, In st (VoiceDatabase.students d) /\ score st = s /\
         (0 < s)%R /\
         Identification.best_candidate d (Np.Mat m)
           (VoiceDatabase.list_all_students d) = (Some st, s)) \/
      ((s <= 0)%R /\
       Identification.best_candidate d (Np.Mat m)
         (VoiceDatabase.list_all_students d) = (None, 0%R))).
    { destruct (Rlt_dec 0 s) as [Hs|Hs].
      - left. destruct (Hpos Hs) as (st & H1 & H2 & H3). exists st. tauto.
      - right. split; [lra|]. apply Hneg. lra. }
    split; [|split].
    + intros a t Hd Hreach shown. subst shown d.
      rewrite (app_identify_speaker_reached a t m Hreach Hne).
      destruct Hcases as [(st & Hst & Hsc & Hs & ->)|(Hs & ->)].
      * destruct (Rgeb s 0.75) eqn:E1; [|destruct (Rgeb s 0.5) eqn:E2];
          rewrite ?Rgeb_true, ?Rgeb_false in *; cbn;
          (split; [|split]); intro Hc; try (exfalso; lra);
          try (exists st; now repeat split); now exists s.
      * cbn. (split; [|split]); intro Hc; try (exfalso; lra).
        now exists 0%R.
    + intros c t Hd Hreach answer. subst answer d.
      rewrite (cli_identify_speaker_reached c t m Hreach Hne).
      destruct Hcases as [(st & Hst & Hsc & Hs & ->)|(Hs & ->)].
      * destruct (Rgeb s 0.75) eqn:E1; [|destruct (Rgeb s 0.5) eqn:E2];
          rewrite ?Rgeb_true, ?Rgeb_false in *; cbn;
          (split; [|split]); intro Hc; try (exfalso; lra);
          try (exists st; now repeat split); reflexivity.
      * cbn. (split; [|split]); intro Hc; try (exfalso; lra). reflexivity.
    + unfold Web.api_voice_login.
      destruct (VoiceDatabase.list_all_students d) as [|st0 rest] eqn:E;
        [contradiction|].
      destruct Hcases as [(st & Hst & Hsc & Hs & ->)|(Hs & ->)].
      * destruct (Rgeb s 0.65) eqn:E1;
          rewrite ?Rgeb_true, ?Rgeb_false in *; cbn;
          split; intro Hc; try (exfalso; lra);
          try (exists st; now repeat split); now repeat split.
      * cbn. split; intro Hc; try (exfalso; lra). now repeat split.
  - intros d m Hnone.
    pose proof (list_all_students_nil d Hnone) as Hnil.
    split; [|split].
    + intros a t Hd (Hsave & Hfeat & _). subst d.
      unfold App.identify_speaker. now rewrite Hsave, Hfeat, Hnil.
    + intros c t Hd (Hsave & Hfeat). subst d.
      unfold Cli.identify_speaker. now rewrite Hsave, Hfeat, Hnil.
    + unfold Web.api_voice_login. now rewrite Hnil.
Qed.

Lemma open_set_decision_tiers_witness :
  (0.5 <= 20 / 29 < 0.75)%R /\
  App.reaches_comparison Fixture.enrolled_app Fixture.good_attempt
                         Fixture.probe_matrix /\
  App.login_result
    (App.identify_speaker Fixture.enrolled_app Fixture.good_attempt)
  = Some (false, PossibleMatch "Asha", (20 / 29)%R) /\
  App.login_result
    (App.identify_speaker Fixture.empty_app Fixture.good_attempt)
  = Some (false, NoRegisteredStudents, 0%R).
Proof.
  assert (Hband : (0.5 <= 20 / 29 < 0.75)%R) by lra.
  assert (Hreach : forall a, App.model a = None ->
            App.reaches_comparison a Fixture.good_attempt
                                   Fixture.probe_matrix).
  { intros a Ha. repeat split. }
  split; [exact Hband|]. split; [now apply Hreach|]. split.
  - assert (Hscores :
      map (fun st =>
             snd (VoiceDatabase.verify_student_voice Fixture.enrolled
                    (VoiceDatabase.student_id st)
                    (Np.Mat Fixture.probe_matrix)))
          (filter VoiceDatabase.is_active
                  (VoiceDatabase.students Fixture.enrolled))
      = [(20 / 29)%R]).
    { rewrite (proj1 enrolled_tables).
      cbn [filter VoiceDatabase.is_active map VoiceDatabase.student_id].
      fold Fixture.probe. now rewrite probe_verification. }
    assert (Hin : In (20 / 29)%R
      (map (fun st =>
             snd (VoiceDatabase.verify_student_voice Fixture.enrolled
                    (VoiceDatabase.student_id st)
                    (Np.Mat Fixture.probe_matrix)))
          (filter VoiceDatabase.is_active
                  (VoiceDatabase.students Fixture.enrolled))))
      by (rewrite Hscores; now left).
    assert (Htop : forall x, In x
      (map (fun st =>
             snd (VoiceDatabase.verify_student_voice Fixture.enrolled
                    (VoiceDatabase.student_id st)
                    (Np.Mat Fixture.probe_matrix)))
          (filter VoiceDatabase.is_active
                  (VoiceDatabase.students Fixture.enrolled))) ->
      (x <= 20 / 29)%R).
    { rewrite Hscores. intros x [<-|[]]. apply Rle_refl. }
    destruct (proj1 (proj2 (proj1
                (proj1 open_set_decision_tiers Fixture.enrolled
                   Fixture.probe_matrix (20 / 29)%R Hin Htop)
                Fixture.enrolled_app Fixture.good_attempt eq_refl
                (Hreach Fixture.enrolled_app eq_refl))) Hband)
      as (st & Hst & _ & Hshown).
    rewrite Hshown. rewrite (proj1 enrolled_tables) in Hst.
    destruct Hst as [<-|[]]. reflexivity.
  - exact (proj1 (proj2 open_set_decision_tiers VoiceDatabase.init_database
                    Fixture.probe_matrix eq_refl)
             Fixture.empty_app Fixture.good_attempt eq_refl
             (Hreach Fixture.empty_app eq_refl)).
Defined.

(** ** The audit trail *)

Lemma best_candidate_some (d : VoiceDatabase.db) (probe : Np.ndarray)
    (l : list VoiceDatabase.student) (st : VoiceDatabase.student) (b : R) :
  Identification.best_candidate d probe l = (Some st, b) ->
  In st l /\ VoiceDatabase.is_active st = true /\
  b = snd (VoiceDatabase.verify_student_voice
             d (VoiceDatabase.student_id st) probe) /\
  (0 < b)%R.
Proof.
  unfold Identification.best_candidate. intro E.
  destruct (scan_spec d probe l None 0%R)
    as (_ & _ & [H|(st' & Hin & Ha & H & Hlt)]);
    rewrite E in H; [discriminate|].
  injection H as -> ->. tauto.
Qed.

Lemma best_candidate_bound (d : VoiceDatabase.db) (probe : Np.ndarray)
    (l : list VoiceDatabase.student) (st : VoiceDatabase.student) :
  In st l -> VoiceDatabase.is_active st = true ->
  (snd (VoiceDatabase.verify_student_voice
          d (VoiceDatabase.student_id st) probe)
   <= snd (Identification.best_candidate d probe l))%R.
Proof.
  intros Hin Ha.
  destruct (scan_spec d probe l None 0%R) as (_ & H & _). now apply H.
Qed.

Lemma app_log_tables (a : App.app) (sid : string) (ok : bool) (score : R) :
  VoiceDatabase.login_attempts (App.db (App.log a sid ok score)) =
    VoiceDatabase.login_attempts (App.db a) ++
    [{| VoiceDatabase.la_student_id := sid; VoiceDatabase.success := ok;
        VoiceDatabase.la_confidence_score := score;
        VoiceDatabase.ip_address := None |}] /\
  VoiceDatabase.students (App.db (App.log a sid ok score)) =
    VoiceDatabase.students (App.db a) /\
  VoiceDatabase.voice_embeddings (App.db (App.log a sid ok score)) =
    VoiceDatabase.voice_embeddings (App.db a) /\
  App.login_result (App.log a sid ok score) = App.login_result a.
Proof. repeat split. Qed.

(** C9, as stated, fails: an attempt made while no student is registered is
    rejected on the screen and leaves the table of login attempts as it
    was, from the entry point and from the body alike. *)
Lemma attempt_without_students_is_not_logged :
  VoiceDatabase.login_attempts (App.db Fixture.empty_app) = [] /\
  VoiceDatabase.login_attempts
    (App.db (App.identify_and_login Fixture.empty_app Fixture.good_attempt))
  = [] /\
  App.login_result
    (App.identify_speaker Fixture.empty_app Fixture.good_attempt)
  = Some (false, NoRegisteredStudents, 0%R) /\
  VoiceDatabase.login_attempts
    (App.db (App.identify_speaker Fixture.empty_app Fixture.good_attempt))
  = [].
Proof. repeat split. Qed.

(** C9, amended.  An attempt that reaches the comparison while at least one
    student is registered appends exactly one row to the login attempts: the
    identifier of the best student, or "UNKNOWN" when the attempt is
    rejected, the success flag that is shown, and the best similarity of the
    attempt.  An attempt that ends before the comparison leaves the database
    as it was. *)
Theorem identification_logs_once :
  (forall (a : App.app) (t : App.attempt) (m : Np.matrix),
     App.reaches_comparison a t m ->
     VoiceDatabase.students (App.db a) <> [] ->
     let a' := App.identify_speaker a t in
     let best :=
       Identification.best_candidate
         (App.db a) (Np.Mat m) (VoiceDatabase.list_all_students (App.db a)) in
     exists (identity : string) (ok : bool) (notice : login_notice),
       VoiceDatabase.login_attempts (App.db a') =
         VoiceDatabase.login_attempts (App.db a) ++
         [{| VoiceDatabase.la_student_id := identity;
             VoiceDatabase.success := ok;
             VoiceDatabase.la_confidence_score := snd best;
             VoiceDatabase.ip_address := None |}] /\
       App.login_result a' = Some (ok, notice, snd best) /\
       ((identity = "UNKNOWN"%string /\ ok = false /\
         notice = VoiceNotRecognized /\ (snd best < 0.5)%R) \/
        (exists st,
           fst best = Some st /\ In st (VoiceDatabase.students (App.db a)) /\
           identity = VoiceDatabase.student_id st /\
           snd best = snd (VoiceDatabase.verify_student_voice
                             (App.db a) (VoiceDatabase.student_id st)
                             (Np.Mat m)) /\
           ((ok = true /\ notice = WelcomeBack (VoiceDatabase.name st) /\
             (snd best >= 0.75)%R) \/
            (ok = false /\ notice = PossibleMatch (VoiceDatabase.name st) /\
             (0.5 <= snd best < 0.75)%R)))) /\
       (forall st, In st (VoiceDatabase.students (App.db a)) ->
          VoiceDatabase.is_active st = true ->
          (snd (VoiceDatabase.verify_student_voice
                  (App.db a) (VoiceDatabase.student_id st) (Np.Mat m))
           <= snd best)%R) /\
       VoiceDatabase.students (App.db a') = VoiceDatabase.students (App.db a) /\
       VoiceDatabase.voice_embeddings (App.db a') =
         VoiceDatabase.voice_embeddings (App.db a)) /\
  (forall (a : App.app) (t : App.attempt),
     App.save_audio_returns t = false \/ App.features t = None \/
     VoiceDatabase.students (App.db a) = [] \/
     (App.model_loaded a = true /\ App.predict_returns t = false) ->
     App.db (App.identify_speaker a t) = App.db a /\
     exists notice,
       App.login_result (App.identify_speaker a t) = Some (false, notice, 0%R)).
Proof.
  split.
  - intros a t m Hreach Hstudents a' best.
    assert (Hne : VoiceDatabase.list_all_students (App.db a) <> []).
    { intro E. apply Hstudents.
      unfold VoiceDatabase.list_all_students in E.
      now apply order_by_desc_nil in E. }
    assert (Hbound : forall st,
              In st (VoiceDatabase.students (App.db a)) ->
              VoiceDatabase.is_active st = true ->
              (snd (VoiceDatabase.verify_student_voice
                      (App.db a) (VoiceDatabase.student_id st) (Np.Mat m))
               <= snd best)%R).
    { intros st Hin Ha. apply best_candidate_bound; [|exact Ha].
      now apply list_all_students_in. }
    subst a' best. rewrite (app_identify_speaker_reached a t m Hreach Hne).
    remember (Identification.best_candidate (App.db a) (Np.Mat m)
                (VoiceDatabase.list_all_students (App.db a))) as best eqn:E.
    symmetry in E. destruct best as [[st|] b]; cbn [fst snd] in *.
    + apply best_candidate_some in E. destruct E as (Hin & Ha & Hb & Hpos).
      apply list_all_students_in in Hin.
      destruct (Rgeb b 0.75) eqn:E1; [|destruct (Rgeb b 0.5) eqn:E2];
        rewrite ?Rgeb_true, ?Rgeb_false in *.
      * exists (VoiceDatabase.student_id st), true,
          (WelcomeBack (VoiceDatabase.name st)).
        repeat split; try assumption.
        right. exists st. repeat split; try assumption. left. now repeat split.
      * exists (VoiceDatabase.student_id st), false,
          (PossibleMatch (VoiceDatabase.name st)).
        repeat split; try assumption.
        right. exists st. repeat split; try assumption.
        right. repeat split; try assumption; lra.
      * exists "UNKNOWN"%string, false, VoiceNotRecognized.
        repeat split; try assumption. left. now repeat split.
    + assert (Hb : b = 0%R).
      { unfold Identification.best_candidate in E.
        destruct (scan_spec (App.db a) (Np.Mat m)
                    (VoiceDatabase.list_all_students (App.db a)) None 0%R)
          as (_ & _ & [H|(st' & _ & _ & H & _)]);
          rewrite E in H; [now injection H | discriminate]. }
      exists "UNKNOWN"%string, false, VoiceNotRecognized.
      repeat split; try assumption. left. repeat split. lra.
  - intros a t H. unfold App.identify_speaker.
    destruct (App.save_audio_returns t) eqn:Hsave; cbn [negb];
      [|split; [reflexivity | now eexists]].
    destruct (App.features t) as [m|] eqn:Hfeat;
      [|split; [reflexivity | now eexists]].
    destruct (VoiceDatabase.list_all_students (App.db a)) as [|st0 rest]
      eqn:Hall; [split; [reflexivity | now eexists]|].
    destruct H as [H|[H|[H|[Hm Hp]]]]; try discriminate.
    + apply list_all_students_nil in H. congruence.
    + rewrite Hm, Hp. cbn. split; [reflexivity | now eexists].
Qed.

Lemma identification_logs_once_witness :
  App.reaches_comparison Fixture.enrolled_app Fixture.good_attempt
                         Fixture.probe_matrix /\
  VoiceDatabase.students (App.db Fixture.enrolled_app) <> [] /\
  (exists identity ok,
     VoiceDatabase.login_attempts
       (App.db (App.identify_speaker Fixture.enrolled_app
                                     Fixture.good_attempt))
     = [{| VoiceDatabase.la_student_id := identity;
           VoiceDatabase.success := ok;
           VoiceDatabase.la_confidence_score := (20 / 29)%R;
           VoiceDatabase.ip_address := None |}]) /\
  App.db (App.identify_speaker Fixture.empty_app Fixture.good_attempt)
  = App.db Fixture.empty_app.
Proof.
  assert (Hreach : App.reaches_comparison Fixture.enrolled_app
                     Fixture.good_attempt Fixture.probe_matrix)
    by (repeat split).
  assert (Hne : VoiceDatabase.students (App.db Fixture.enrolled_app) <> [])
    by (cbn; discriminate).
  split; [exact Hreach|]. split; [exact Hne|]. split.
  - destruct (proj1 identification_logs_once Fixture.enrolled_app
                Fixture.good_attempt Fixture.probe_matrix Hreach Hne)
      as (identity & ok & notice & Hlog & _).
    exists identity, ok. rewrite Hlog.
    destruct probe_best_candidate as (st & _ & _ & Hbest).
    cbn [App.db Fixture.enrolled_app]. fold Fixture.probe.
    rewrite Hbest. reflexivity.
  - exact (proj1 (proj2 identification_logs_once Fixture.empty_app
                    Fixture.good_attempt
                    (or_intror (or_intror (or_introl eq_refl))))).
Defined.

(** ** The training guard *)

Section DatabaseInvariant.
Import Np VoiceDatabase.

(** Deleting rows keeps the student identifiers distinct. *)
Lemma kept_students_distinct (keep : student -> bool) (table : list student) :
  NoDup (map student_id table) ->
  NoDup (map student_id (filter keep table)).
Proof.
  intro Hdistinct. induction table as [|row table IH]; cbn; [constructor|].
  cbn in Hdistinct. apply NoDup_cons_iff in Hdistinct.
  destruct Hdistinct as [Hfresh Hrest].
  destruct (keep row); cbn; [|now apply IH].
  apply NoDup_cons; [|now apply IH].
  intro Hin. apply Hfresh. apply in_map_iff in Hin.
  destruct Hin as (other & Hsame & Hin). apply filter_In in Hin.
  apply in_map_iff. exists other. tauto.
Qed.

Lemma existsb_eqb_in (sid : string) (l : list student) :
  existsb (fun s => String.eqb (student_id s) sid) l = false ->
  ~ In sid (map student_id l).
Proof.
  intros H Hin. apply in_map_iff in Hin. destruct Hin as (s & Hs & Hin).
  assert (Ht : existsb (fun s => String.eqb (student_id s) sid) l = true).
  { apply existsb_exists. exists s. split; [exact Hin|].
    now apply String.eqb_eq. }
  congruence.
Qed.

(** Every reachable database has distinct student identifiers and active
    students only. *)
Lemma reachable_invariant (d : db) :
  reachable d ->
  NoDup (map student_id (students d)) /\
  Forall (fun s => is_active s = true) (students d).
Proof.
  induction 1 as [ | d now sid nm mail _ [IHn IHa]
                   | d now sid e h score ok d' _ [IHn IHa] Hstore
                   | d sid _ [IHn IHa]
                   | d sid ok score _ IH ].
  - split; constructor.
  - unfold register_student.
    destruct (existsb _ (students d)) eqn:E; cbn [snd students];
      [now split|].
    split.
    + rewrite map_app. cbn [map student_id].
      apply NoDup_app; [exact IHn | repeat constructor; intros [] |].
      intros x Hx [Hsid|[]]. subst x.
      now apply (existsb_eqb_in sid (students d)).
    + apply Forall_app. split; [exact IHa | now repeat constructor].
  - unfold store_voice_embedding in Hstore.
    destruct (existsb _ (students d)); [|discriminate].
    destruct h; injection Hstore as _ <-; now split.
  - cbn [snd delete_student students]. split.
    + now apply kept_students_distinct.
    + rewrite Forall_forall in *. intros s Hs. apply filter_In in Hs.
      now apply IHa.
  - exact IH.
Qed.
End DatabaseInvariant.

(** Every stored embedding belongs to a registered student. *)
Lemma reachable_embeddings_owned (d : VoiceDatabase.db) :
  VoiceDatabase.reachable d ->
  forall ve, In ve (VoiceDatabase.voice_embeddings d) ->
  In (VoiceDatabase.ve_student_id ve)
     (map VoiceDatabase.student_id (VoiceDatabase.students d)).
Proof.
  induction 1 as [ | d now sid nm mail _ IH
                   | d now sid e h score ok d' _ IH Hstore
                   | d sid _ IH
                   | d sid ok score _ IH ].
  - intros ve [].
  - intros ve Hve. unfold VoiceDatabase.register_student in *.
    destruct (existsb _ (VoiceDatabase.students d));
      cbn [snd VoiceDatabase.students VoiceDatabase.voice_embeddings] in *;
      [now apply IH|].
    rewrite map_app. apply in_or_app. left. now apply IH.
  - unfold VoiceDatabase.store_voice_embedding in Hstore.
    destruct (existsb _ (VoiceDatabase.students d)) eqn:E; [|discriminate].
    destruct h; injection Hstore as _ <-; [|exact IH].
    cbn [VoiceDatabase.students VoiceDatabase.voice_embeddings].
    intros ve Hve. apply in_app_or in Hve.
    destruct Hve as [Hve|[<-|[]]]; [now apply IH|].
    cbn [VoiceDatabase.ve_student_id].
    apply existsb_exists in E. destruct E as (owner & Hs & Hid).
    apply String.eqb_eq in Hid. subst sid. now apply in_map.
  - cbn [snd VoiceDatabase.delete_student VoiceDatabase.students
         VoiceDatabase.voice_embeddings].
    intros ve Hve. apply filter_In in Hve. destruct Hve as [Hve Hkeep].
    apply IH in Hve. apply in_map_iff in Hve.
    destruct Hve as (s & Hid & Hs). apply in_map_iff. exists s.
    split; [exact Hid|]. apply filter_In. split; [exact Hs|].
    now rewrite Hid.
  - exact IH.
Qed.

Section TrainingFacts.
Import Np VoiceDatabase Identification.

Lemma filter_twice {A : Type} (f g : A -> bool) (l : list A) :
  filter f (filter g l) = filter (fun x => g x && f x) l.
Proof.
  induction l as [|x l IH]; cbn; [reflexivity|].
  destruct (g x); cbn; [destruct (f x)|]; now rewrite IH.
Qed.

Lemma has_key_keys (sid : string) (sd : student_dict) :
  has_key sid sd = existsb (fun k => String.eqb k sid) (map fst sd).
Proof.
  unfold has_key. induction sd as [|[k v] sd IH]; cbn; [reflexivity|].
  now rewrite IH.
Qed.

Lemma existsb_key_true (sid : string) (keys : list string) :
  In sid keys -> existsb (fun k => String.eqb k sid) keys = true.
Proof.
  intro H. apply existsb_exists. exists sid. split; [exact H|].
  apply String.eqb_refl.
Qed.

Lemma has_sample_length (d : db) (s : student) :
  has_sample d s =
  match length (filter (fun ve => String.eqb (student_id s) (ve_student_id ve))
                       (voice_embeddings d)) with
  | 0%nat => false
  | S _ => true
  end.
Proof.
  unfold has_sample. rewrite existsb_filter.
  now destruct (filter _ (voice_embeddings d)).
Qed.

(** *** Identifiers in the order of their first occurrence *)

Lemma first_occurrences_in (l : list string) (x : string) :
  In x (first_occurrences l) <-> In x l.
Proof.
  induction l as [|a l IH]; cbn [first_occurrences]; [tauto|]. split.
  - intros [->|H]; [now left|]. apply filter_In in H. right. now apply IH.
  - intros [->|H]; [now left|].
    destruct (String.eqb_spec x a) as [->|Hne]; [now left|]. right.
    apply filter_In. split; [now apply IH|].
    apply negb_true_iff, String.eqb_neq, Hne.
Qed.

Lemma first_occurrences_distinct (l : list string) :
  NoDup (first_occurrences l).
Proof.
  induction l as [|a l IH]; cbn [first_occurrences]; constructor.
  - intro H. apply filter_In in H. destruct H as [_ H].
    now rewrite String.eqb_refl in H.
  - now apply NoDup_filter.
Qed.

Lemma existsb_among_others (a x : string) (l : list string) :
  a <> x ->
  existsb (fun k => String.eqb k x)
          (filter (fun y => negb (String.eqb y a)) l)
  = existsb (fun k => String.eqb k x) l.
Proof.
  intro Hne. induction l as [|y l IH]; cbn [filter existsb]; [reflexivity|].
  destruct (String.eqb_spec y a) as [->|Hya]; cbn [negb existsb].
  - rewrite IH. destruct (String.eqb_spec a x); [contradiction|reflexivity].
  - now rewrite IH.
Qed.

(** One more identifier at the end is a new key, or none. *)
Lemma first_occurrences_snoc (l : list string) (x : string) :
  first_occurrences (l ++ [x]) = add_key (first_occurrences l) x.
Proof.
  unfold add_key. induction l as [|a l IH]; [reflexivity|].
  cbn [app first_occurrences existsb]. rewrite IH.
  destruct (String.eqb_spec a x) as [->|Hne]; cbn [orb].
  - f_equal. destruct (existsb _ (first_occurrences l)); [reflexivity|].
    rewrite filter_app. cbn [filter]. rewrite String.eqb_refl. cbn [negb].
    apply app_nil_r.
  - rewrite (existsb_among_others a x _ Hne).
    destruct (existsb _ (first_occurrences l)); [reflexivity|].
    rewrite filter_app. cbn [filter].
    destruct (String.eqb_spec x a) as [->|_]; [contradiction|reflexivity].
Qed.

(** *** The dictionary, row by row *)

Lemma append_embedding_last (sid : string) (e : ndarray)
    (acc : student_dict) (v : student_samples) :
  ~ In sid (map fst acc) ->
  append_embedding sid e (acc ++ [(sid, v)]) =
  acc ++ [(sid, {| samples_name := samples_name v;
                   embeddings := embeddings v ++ [e] |})].
Proof.
  induction acc as [|[k v0] acc IH]; cbn [app append_embedding map fst];
    intro Hnot.
  - now rewrite String.eqb_refl.
  - destruct (String.eqb_spec k sid) as [->|Hne].
    + exfalso. apply Hnot. now left.
    + rewrite IH; [reflexivity|]. intro Hin. apply Hnot. now right.
Qed.

Lemma stored_for_snoc (ves : list voice_embedding) (ve : voice_embedding)
    (sid : string) :
  stored_for (ves ++ [ve]) sid =
  if String.eqb sid (ve_student_id ve)
  then stored_for ves sid ++ [embedding_data ve]
  else stored_for ves sid.
Proof.
  unfold stored_for. rewrite filter_app, map_app. cbn [filter].
  destruct (String.eqb sid (ve_student_id ve)); cbn [map];
    [reflexivity | apply app_nil_r].
Qed.

Lemma stored_for_nobody (ves : list voice_embedding) (sid : string) :
  ~ In sid (map ve_student_id ves) -> stored_for ves sid = [].
Proof.
  unfold stored_for. induction ves as [|ve ves IH]; cbn [map filter];
    intro Hnot; [reflexivity|].
  destruct (String.eqb_spec sid (ve_student_id ve)) as [E|_].
  - exfalso. apply Hnot. left. now symmetry.
  - apply IH. intro H. apply Hnot. now right.
Qed.

Lemma entries_of_others (nm : string -> string)
    (ves : list voice_embedding) (ve : voice_embedding)
    (keys : list string) :
  ~ In (ve_student_id ve) keys ->
  map (fun sid => (sid, {| samples_name := nm sid;
                           embeddings := stored_for (ves ++ [ve]) sid |}))
      keys
  = map (fun sid => (sid, {| samples_name := nm sid;
                             embeddings := stored_for ves sid |}))
        keys.
Proof.
  intro Hnot. apply map_ext_in. intros k Hk. rewrite stored_for_snoc.
  destruct (String.eqb_spec k (ve_student_id ve)) as [->|_];
    [contradiction | reflexivity].
Qed.

Lemma append_embedding_entries (nm : string -> string)
    (ves : list voice_embedding) (ve : voice_embedding)
    (keys : list string) :
  NoDup keys -> In (ve_student_id ve) keys ->
  append_embedding (ve_student_id ve) (embedding_data ve)
    (map (fun sid => (sid, {| samples_name := nm sid;
                              embeddings := stored_for ves sid |}))
         keys)
  = map (fun sid => (sid, {| samples_name := nm sid;
                             embeddings := stored_for (ves ++ [ve]) sid |}))
        keys.
Proof.
  induction keys as [|k keys IH]; intros Hnodup Hin; [destruct Hin|].
  apply NoDup_cons_iff in Hnodup. destruct Hnodup as [Hfresh Hnodup].
  cbn [map append_embedding].
  destruct (String.eqb_spec k (ve_student_id ve)) as [E|Hne].
  - rewrite entries_of_others by (now rewrite <- E).
    rewrite stored_for_snoc, E, String.eqb_refl. reflexivity.
  - destruct Hin as [Hin|Hin]; [contradiction|].
    rewrite IH by assumption. rewrite (stored_for_snoc ves ve k).
    destruct (String.eqb_spec k (ve_student_id ve)); [contradiction|].
    reflexivity.
Qed.

(** The dictionary built from one row for each embedding, in the order of
    the embeddings. *)
Lemma dict_of_rows (nm : string -> string) (ves : list voice_embedding) :
  fold_left add_row
    (map (fun ve => (ve_student_id ve, nm (ve_student_id ve),
                     embedding_data ve)) ves)
    []
  = map (fun sid => (sid, {| samples_name := nm sid;
                             embeddings := stored_for ves sid |}))
        (first_occurrences (map ve_student_id ves)).
Proof.
  induction ves as [|ve ves IH] using rev_ind; [reflexivity|].
  rewrite !map_app, fold_left_app, IH. cbn [map fold_left].
  rewrite first_occurrences_snoc. unfold add_row, add_key.
  rewrite has_key_keys, map_map. cbn [fst]. rewrite map_id.
  destruct (existsb _ (first_occurrences (map ve_student_id ves))) eqn:E.
  - apply append_embedding_entries; [apply first_occurrences_distinct|].
    apply existsb_exists in E. destruct E as (k & Hk & E).
    apply String.eqb_eq in E. now subst k.
  - assert (Hnot : ~ In (ve_student_id ve)
                        (first_occurrences (map ve_student_id ves))).
    { intro H. now rewrite (existsb_key_true _ _ H) in E. }
    rewrite append_embedding_last
      by (rewrite map_map; cbn [fst]; now rewrite map_id).
    rewrite map_app, entries_of_others by exact Hnot.
    cbn [map samples_name embeddings]. rewrite stored_for_snoc.
    rewrite String.eqb_refl, stored_for_nobody; [reflexivity|].
    intro H. apply Hnot. now apply first_occurrences_in.
Qed.

(** *** The joined rows of a database the program can produce *)

Lemma one_student_row (l : list student) (sid : string) :
  NoDup (map student_id l) ->
  Forall (fun s => is_active s = true) l ->
  In sid (map student_id l) ->
  exists s,
    find (fun s => String.eqb (student_id s) sid) l = Some s /\
    student_id s = sid /\
    filter (fun s => String.eqb (student_id s) sid && is_active s) l = [s].
Proof.
  induction l as [|s l IH]; intros Hnodup Hact Hin; [destruct Hin|].
  cbn [map] in Hnodup. apply NoDup_cons_iff in Hnodup.
  destruct Hnodup as [Hfresh Hnodup].
  inversion Hact as [|? ? Hs Hact']; subst.
  cbn [find filter].
  destruct (String.eqb_spec (student_id s) sid) as [E|Hne].
  - exists s. split; [reflexivity|]. split; [exact E|].
    rewrite Hs. cbn [andb]. f_equal.
    assert (Hnone : forall l',
              ~ In sid (map student_id l') ->
              filter (fun s' => String.eqb (student_id s') sid
                                && is_active s') l' = []).
    { induction l' as [|s' l' IH']; cbn [map filter]; intro Hnot;
        [reflexivity|].
      destruct (String.eqb_spec (student_id s') sid) as [E'|_].
      - exfalso. apply Hnot. now left.
      - apply IH'. intro H'. apply Hnot. now right. }
    apply Hnone. now rewrite <- E.
  - cbn [andb]. destruct Hin as [Hin|Hin]; [contradiction|].
    now apply IH.
Qed.

Lemma joined_rows_reachable (d : db) :
  reachable d ->
  joined_rows d =
  map (fun ve =>
         (ve_student_id ve,
          match get_student_info d (ve_student_id ve) with
          | Some s => name s
          | None => EmptyString
          end,
          embedding_data ve))
      (voice_embeddings d).
Proof.
  intro Hreach. destruct (reachable_invariant d Hreach) as [Hnodup Hact].
  pose proof (reachable_embeddings_owned d Hreach) as Hown.
  unfold joined_rows, get_student_info.
  induction (voice_embeddings d) as [|ve ves IH]; [reflexivity|].
  cbn [flat_map map].
  destruct (one_student_row (students d) (ve_student_id ve) Hnodup Hact)
    as (s & Hfind & Hid & Hrow); [apply Hown; now left|].
  rewrite Hrow, Hfind, IH by (intros ve' H'; apply Hown; now right).
  cbn [map app]. now rewrite Hid.
Qed.

(** In a database the program can produce the dictionary has one key for
    each student who has a stored sample, in the order in which the first
    samples of the students were stored. *)
Lemma get_all_student_embeddings_dict (d : db) :
  reachable d ->
  get_all_student_embeddings d =
  map (fun sid =>
         (sid,
          {| samples_name :=
               match get_student_info d sid with
               | Some s => name s
               | None => EmptyString
               end;
             embeddings := stored_for (voice_embeddings d) sid |}))
      (first_occurrences (map ve_student_id (voice_embeddings d))).
Proof.
  intro Hreach. unfold get_all_student_embeddings.
  rewrite (joined_rows_reachable d Hreach).
  apply (dict_of_rows
           (fun sid => match get_student_info d sid with
                       | Some s => name s
                       | None => EmptyString
                       end)).
Qed.

Lemma get_all_student_embeddings_keys (d : db) :
  reachable d ->
  map fst (get_all_student_embeddings d) =
  first_occurrences (map ve_student_id (voice_embeddings d)).
Proof.
  intro Hreach. rewrite (get_all_student_embeddings_dict d Hreach).
  rewrite map_map. cbn [fst]. apply map_id.
Qed.

(** The keys are the students that have a sample. *)
Lemma keys_are_sampled_students (d : db) :
  reachable d ->
  Permutation
    (first_occurrences (map ve_student_id (voice_embeddings d)))
    (map student_id (identities_with_samples d)).
Proof.
  intro Hreach. destruct (reachable_invariant d Hreach) as [Hnodup _].
  pose proof (reachable_embeddings_owned d Hreach) as Hown.
  apply NoDup_Permutation.
  - apply first_occurrences_distinct.
  - now apply kept_students_distinct.
  - intro x. rewrite first_occurrences_in. unfold identities_with_samples.
    split; intro H; apply in_map_iff in H.
    + destruct H as (ve & <- & Hve). pose proof (Hown ve Hve) as Hs.
      apply in_map_iff in Hs. destruct Hs as (s & Hid & Hs).
      apply in_map_iff. exists s. split; [exact Hid|].
      apply filter_In. split; [exact Hs|]. unfold has_sample.
      apply existsb_exists. exists ve. split; [exact Hve|].
      now apply String.eqb_eq.
    + destruct H as (s & <- & Hs). apply filter_In in Hs.
      destruct Hs as [_ Hs]. unfold has_sample in Hs.
      apply existsb_exists in Hs. destruct Hs as (ve & Hve & E).
      apply String.eqb_eq in E. rewrite E. now apply in_map.
Qed.

Lemma key_is_registered (d : db) (sid : string) :
  reachable d ->
  In sid (first_occurrences (map ve_student_id (voice_embeddings d))) ->
  exists s, get_student_info d sid = Some s.
Proof.
  intros Hreach Hin. apply (proj1 (first_occurrences_in _ _)) in Hin.
  apply in_map_iff in Hin. destruct Hin as (ve & <- & Hve).
  destruct (reachable_invariant d Hreach) as [Hnodup Hact].
  destruct (one_student_row (students d) (ve_student_id ve) Hnodup Hact)
    as (s & Hfind & _); [now apply reachable_embeddings_owned|].
  now exists s.
Qed.

Lemma get_all_student_embeddings_length (d : db) :
  reachable d ->
  length (get_all_student_embeddings d) = length (identities_with_samples d).
Proof.
  intro Hreach.
  rewrite <- (length_map fst (get_all_student_embeddings d)).
  rewrite (get_all_student_embeddings_keys d Hreach).
  rewrite (Permutation_length (keys_are_sampled_students d Hreach)).
  apply length_map.
Qed.
End TrainingFacts.

Lemma enrol_reachable (d : VoiceDatabase.db) (now : nat) (sid nm : string)
    (e : Np.ndarray) :
  VoiceDatabase.reachable d ->
  VoiceDatabase.reachable (Fixture.enrol d now sid nm e).
Proof.
  intro H. unfold Fixture.enrol.
  pose proof (VoiceDatabase.reachable_register d now sid nm None H) as Hr.
  destruct (VoiceDatabase.store_voice_embedding _ now sid e _ None)
    as [[ok d']|] eqn:E; [|exact Hr].
  exact (VoiceDatabase.reachable_store _ _ _ _ _ _ _ _ Hr E).
Qed.

(** C8.  In a database the program can produce, with [n] the number of
    students that have at least one stored sample: when [n < 2] both
    [train_model]s stop with "Need at least 2 students" and leave the model
    as it was; when [n >= 2] they go on to stack the samples and to build a
    model of [n] classes, and report success exactly when these steps
    return. *)
Theorem training_needs_two_identities (d : VoiceDatabase.db) :
  VoiceDatabase.reachable d ->
  let n := length (VoiceDatabase.identities_with_samples d) in
  let X_train :=
    map fst (Identification.labelled_from
               0 (VoiceDatabase.get_all_student_embeddings d)) in
  (forall (c : Cli.cli) (keras : keras_run),
     Cli.db c = d ->
     ((n < 2)%nat ->
      Cli.train_model c keras = (false, NeedTwoStudents, c)) /\
     ((2 <= n)%nat ->
      Cli.train_model c keras =
      match Identification.stack_shape X_train with
      | Raises => (false, TrainingFailed, c)
      | Returns shape =>
          (completes keras,
           if completes keras then ModelTrained else TrainingFailed,
           {| Cli.db := d;
              Cli.model := Some {| input_shape := shape; num_classes := n;
                                   network := builds keras |} |})
      end)) /\
  (forall (a : App.app) (keras : keras_run),
     App.db a = d ->
     let a' := App.train_model a keras in
     App.db a' = d /\ App.login_result a' = App.login_result a /\
     ((n < 2)%nat ->
      App.train_status a' = Some NeedTwoStudents /\
      App.model a' = App.model a) /\
     ((2 <= n)%nat ->
      match Identification.stack_shape X_train with
      | Raises =>
          App.train_status a' = Some TrainingFailed /\
          App.model a' = App.model a
      | Returns shape =>
          App.train_status a' =
            Some (if completes keras then ModelTrained else TrainingFailed) /\
          App.model a' = Some {| input_shape := shape; num_classes := n;
                                 network := builds keras |}
      end)).
Proof.
  intros Hreach n X_train.
  pose proof (get_all_student_embeddings_length d Hreach) as Hlen.
  fold n in Hlen. split.
  - intros c keras Hd. unfold Cli.train_model. rewrite Hd.
    rewrite length_map, Hlen. fold X_train.
    destruct (Nat.ltb_spec n 2) as [Hlt|Hge]; split; intro H;
      try lia; [reflexivity|].
    destruct (Identification.stack_shape X_train); [|reflexivity].
    now destruct (completes keras).
  - intros a keras Hd a'. subst a'. unfold App.train_model.
    rewrite Hd, length_map, Hlen. fold X_train.
    destruct (Nat.ltb_spec n 2) as [Hlt|Hge].
    + cbn. repeat split; lia.
    + destruct (Identification.stack_shape X_train) eqn:Hstack; cbn;
        repeat split; try lia; intros _; rewrite Hstack; now split.
Qed.

Lemma training_needs_two_identities_witness :
  VoiceDatabase.reachable Fixture.enrolled /\
  VoiceDatabase.reachable Fixture.two_enrolled /\
  Cli.train_model Fixture.enrolled_cli Completes
  = (false, NeedTwoStudents, Fixture.enrolled_cli) /\
  Cli.train_model Fixture.two_enrolled_cli Completes
  = (true, ModelTrained,
     {| Cli.db := Fixture.two_enrolled;
        Cli.model := Some {| input_shape := [1; 2; 1]%nat; num_classes := 2;
                             network := true |} |}).
Proof.
  assert (H1 : VoiceDatabase.reachable Fixture.enrolled)
    by apply enrol_reachable, VoiceDatabase.reachable_init.
  assert (H2 : VoiceDatabase.reachable Fixture.two_enrolled)
    by apply enrol_reachable, H1.
  split; [exact H1|]. split; [exact H2|]. split.
  - apply (proj1 (proj1 (training_needs_two_identities Fixture.enrolled H1)
                    Fixture.enrolled_cli Completes eq_refl)).
    cbn. lia.
  - rewrite (proj2 (proj1 (training_needs_two_identities
                             Fixture.two_enrolled H2)
                      Fixture.two_enrolled_cli Completes eq_refl));
      [reflexivity | cbn; lia].
Defined.

(** * Further properties of the database *)

Section DatabaseFacts.
Import Np VoiceDatabase.

Lemma find_in_appended {A : Type} (p : A -> bool) (l l' : list A) :
  find p (l ++ l') =
  match find p l with Some x => Some x | None => find p l' end.
Proof.
  induction l as [|x l IH]; cbn; [reflexivity|].
  now destruct (p x).
Qed.

Lemma existsb_as_find {A : Type} (p : A -> bool) (l : list A) :
  existsb p l = match find p l with Some _ => true | None => false end.
Proof.
  induction l as [|x l IH]; cbn; [reflexivity|].
  now destruct (p x).
Qed.

Lemma find_filtered_out {A : Type} (p keep : A -> bool) (l : list A) :
  (forall x, p x = true -> keep x = false) ->
  find p (filter keep l) = None.
Proof.
  intro H. induction l as [|x l IH]; cbn; [reflexivity|].
  destruct (keep x) eqn:K; [|exact IH]. cbn.
  destruct (p x) eqn:P; [|exact IH]. apply H in P. congruence.
Qed.

Lemma find_filter_kept {A : Type} (p keep : A -> bool) (l : list A) :
  (forall x, p x = true -> keep x = true) ->
  find p (filter keep l) = find p l.
Proof.
  intro H. induction l as [|x l IH]; cbn; [reflexivity|].
  destruct (p x) eqn:P.
  - rewrite (H x P). cbn. now rewrite P.
  - destruct (keep x); cbn; [now rewrite P | exact IH].
Qed.

Lemma filter_filter_kept {A : Type} (p keep : A -> bool) (l : list A) :
  (forall x, p x = true -> keep x = true) ->
  filter p (filter keep l) = filter p l.
Proof.
  intro H. induction l as [|x l IH]; cbn; [reflexivity|].
  destruct (p x) eqn:P.
  - rewrite (H x P). cbn. now rewrite P, IH.
  - destruct (keep x); cbn; [now rewrite P | exact IH].
Qed.

Lemma filter_filtered_out {A : Type} (p keep : A -> bool) (l : list A) :
  (forall x, p x = true -> keep x = false) ->
  filter p (filter keep l) = [].
Proof.
  intro H. induction l as [|x l IH]; cbn; [reflexivity|].
  destruct (keep x) eqn:K; [|exact IH]. cbn.
  destruct (p x) eqn:P; [|exact IH]. apply H in P. congruence.
Qed.

Lemma eqb_other (a b c : string) :
  a <> c -> String.eqb b a = true -> negb (String.eqb b c) = true.
Proof.
  intros Hne E. apply String.eqb_eq in E. subst b.
  apply negb_true_iff, String.eqb_neq. exact Hne.
Qed.

Lemma eqb_same (a b : string) :
  String.eqb b a = true -> negb (String.eqb b a) = false.
Proof. intros ->. reflexivity. Qed.
End DatabaseFacts.

(** X1.  [register_student] refuses an identifier that is registered and
    leaves the database as it was; a new identifier is registered as an
    active student that [get_student_info] finds with the given name and
    email, no other lookup changes, and no sample or login attempt is
    touched. *)
Theorem register_student_lookup (d : VoiceDatabase.db) (now : nat)
    (sid nm : string) (mail : option string) :
  let r := VoiceDatabase.register_student d now sid nm mail in
  match VoiceDatabase.get_student_info d sid with
  | Some _ => r = (false, d)
  | None =>
      fst r = true /\
      VoiceDatabase.get_student_info (snd r) sid =
        Some {| VoiceDatabase.student_id := sid; VoiceDatabase.name := nm;
                VoiceDatabase.email := mail;
                VoiceDatabase.registration_date := now;
                VoiceDatabase.is_active := true |} /\
      (forall other, other <> sid ->
         VoiceDatabase.get_student_info (snd r) other =
         VoiceDatabase.get_student_info d other) /\
      VoiceDatabase.voice_embeddings (snd r) =
        VoiceDatabase.voice_embeddings d /\
      VoiceDatabase.login_attempts (snd r) = VoiceDatabase.login_attempts d
  end.
Proof.
  cbv zeta. unfold VoiceDatabase.register_student,
    VoiceDatabase.get_student_info.
  rewrite existsb_as_find.
  destruct (find _ (VoiceDatabase.students d)) as [s|] eqn:E;
    [reflexivity|].
  cbn [fst snd VoiceDatabase.students VoiceDatabase.voice_embeddings
       VoiceDatabase.login_attempts].
  repeat split.
  - rewrite find_in_appended, E. cbn. now rewrite String.eqb_refl.
  - intros other Hne. rewrite find_in_appended.
    destruct (find (fun s => String.eqb (VoiceDatabase.student_id s) other)
                   (VoiceDatabase.students d)); [reflexivity|].
    cbn. apply String.eqb_neq in Hne. rewrite String.eqb_sym in Hne.
    now rewrite Hne.
Qed.

Lemma register_student_lookup_witness :
  VoiceDatabase.get_student_info
    (snd (VoiceDatabase.register_student
            Fixture.enrolled 5 "S9" "Noor" None)) "S1"
  = VoiceDatabase.get_student_info Fixture.enrolled "S1".
Proof.
  assert (Hne : "S1"%string <> "S9"%string) by discriminate.
  exact (proj1 (proj2 (proj2
           (register_student_lookup Fixture.enrolled 5 "S9" "Noor" None)))
           "S1"%string Hne).
Defined.

Lemma stored_embeddings_eq (d : VoiceDatabase.db) (sid : string) :
  map VoiceDatabase.embedding (VoiceDatabase.get_student_embeddings d sid) =
  map VoiceDatabase.embedding_data
      (VoiceDatabase.order_by_desc VoiceDatabase.ve_registration_date
         (filter (fun ve => String.eqb (VoiceDatabase.ve_student_id ve) sid)
                 (VoiceDatabase.voice_embeddings d))).
Proof.
  unfold VoiceDatabase.get_student_embeddings. now rewrite map_map.
Qed.

(** X2.  [store_voice_embedding] raises for an identifier that is not
    registered and returns [False] without audio data; otherwise the
    embedding is added to those that [get_student_embeddings] returns for
    the student, the embeddings of every other student are returned as
    before, and students and login attempts are untouched. *)
Theorem store_voice_embedding_lookup (d : VoiceDatabase.db) (now : nat)
    (sid : string) (e : Np.ndarray) (h : string) (score : option R) :
  match VoiceDatabase.get_student_info d sid with
  | None =>
      forall audio_md5,
        VoiceDatabase.store_voice_embedding d now sid e audio_md5 score
        = None
  | Some _ =>
      VoiceDatabase.store_voice_embedding d now sid e None score
      = Some (false, d) /\
      exists d',
        VoiceDatabase.store_voice_embedding d now sid e (Some h) score
        = Some (true, d') /\
        Permutation
          (map VoiceDatabase.embedding
               (VoiceDatabase.get_student_embeddings d' sid))
          (e :: map VoiceDatabase.embedding
                    (VoiceDatabase.get_student_embeddings d sid)) /\
        (forall other, other <> sid ->
           VoiceDatabase.get_student_embeddings d' other =
           VoiceDatabase.get_student_embeddings d other) /\
        VoiceDatabase.students d' = VoiceDatabase.students d /\
        VoiceDatabase.login_attempts d' = VoiceDatabase.login_attempts d
  end.
Proof.
  unfold VoiceDatabase.store_voice_embedding, VoiceDatabase.get_student_info.
  rewrite existsb_as_find.
  destruct (find _ (VoiceDatabase.students d)) as [s|];
    [|intros audio_md5; reflexivity].
  split; [reflexivity|]. eexists. split; [reflexivity|].
  cbn [VoiceDatabase.students VoiceDatabase.login_attempts].
  split; [|split; [|split; reflexivity]].
  - rewrite !stored_embeddings_eq.
    cbn [VoiceDatabase.voice_embeddings]. rewrite filter_app.
    cbn [filter VoiceDatabase.ve_student_id]. rewrite String.eqb_refl.
    set (mine := filter _ (VoiceDatabase.voice_embeddings d)).
    set (row := {| VoiceDatabase.ve_student_id := sid |}).
    change e with (VoiceDatabase.embedding_data row).
    change (VoiceDatabase.embedding_data row ::
            map VoiceDatabase.embedding_data
                (VoiceDatabase.order_by_desc
                   VoiceDatabase.ve_registration_date mine))
      with (map VoiceDatabase.embedding_data
                (row :: VoiceDatabase.order_by_desc
                          VoiceDatabase.ve_registration_date mine)).
    apply Permutation_map.
    eapply perm_trans; [apply order_by_desc_perm|].
    eapply perm_trans;
      [apply Permutation_sym, Permutation_cons_append|].
    apply perm_skip, Permutation_sym, order_by_desc_perm.
  - intros other Hne. unfold VoiceDatabase.get_student_embeddings.
    cbn [VoiceDatabase.voice_embeddings]. rewrite filter_app.
    cbn [filter VoiceDatabase.ve_student_id].
    apply String.eqb_neq in Hne. rewrite String.eqb_sym in Hne.
    rewrite Hne. now rewrite app_nil_r.
Qed.

Lemma store_voice_embedding_lookup_witness :
  VoiceDatabase.store_voice_embedding
    Fixture.enrolled 7 "S9" Fixture.probe (Some "md5"%string) None = None /\
  VoiceDatabase.store_voice_embedding
    Fixture.enrolled 7 "S1" Fixture.probe None None
  = Some (false, Fixture.enrolled).
Proof.
  split.
  - exact (store_voice_embedding_lookup Fixture.enrolled 7 "S9" Fixture.probe
             "md5" None (Some "md5"%string)).
  - exact (proj1 (store_voice_embedding_lookup Fixture.enrolled 7 "S1"
                    Fixture.probe "md5" None)).
Defined.

Lemma verify_depends_on_embeddings (d d' : VoiceDatabase.db) (sid : string)
    (probe : Np.ndarray) :
  VoiceDatabase.get_student_embeddings d' sid =
  VoiceDatabase.get_student_embeddings d sid ->
  VoiceDatabase.verify_student_voice d' sid probe =
  VoiceDatabase.verify_student_voice d sid probe.
Proof.
  intro H. unfold VoiceDatabase.verify_student_voice,
    VoiceDatabase.verify_student_voice_with. now rewrite H.
Qed.

(** X3.  [delete_student] erases the student and everything filed under the
    identifier: the lookup, the embeddings and the login attempts of the
    student are gone and a verification scores [(False, 0.0)]; what belongs
    to any other identifier is as before; and the identifier can be
    registered again. *)
Theorem delete_student_erases (d : VoiceDatabase.db) (sid : string) :
  let d' := snd (VoiceDatabase.delete_student d sid) in
  fst (VoiceDatabase.delete_student d sid) = true /\
  VoiceDatabase.get_student_info d' sid = None /\
  VoiceDatabase.get_student_embeddings d' sid = [] /\
  (forall probe,
     VoiceDatabase.verify_student_voice d' sid probe = (false, 0%R)) /\
  filter (fun la => String.eqb (VoiceDatabase.la_student_id la) sid)
         (VoiceDatabase.login_attempts d') = [] /\
  (forall other, other <> sid ->
     VoiceDatabase.get_student_info d' other =
       VoiceDatabase.get_student_info d other /\
     VoiceDatabase.get_student_embeddings d' other =
       VoiceDatabase.get_student_embeddings d other /\
     (forall probe,
        VoiceDatabase.verify_student_voice d' other probe =
        VoiceDatabase.verify_student_voice d other probe) /\
     filter (fun la => String.eqb (VoiceDatabase.la_student_id la) other)
            (VoiceDatabase.login_attempts d') =
     filter (fun la => String.eqb (VoiceDatabase.la_student_id la) other)
            (VoiceDatabase.login_attempts d)) /\
  (forall now nm mail,
     fst (VoiceDatabase.register_student d' now sid nm mail) = true).
Proof.
  intro d'.
  assert (Hinfo : VoiceDatabase.get_student_info d' sid = None).
  { apply find_filtered_out. intros s Hs. now apply eqb_same. }
  assert (Hemb : VoiceDatabase.get_student_embeddings d' sid = []).
  { unfold VoiceDatabase.get_student_embeddings. subst d'.
    cbn [snd VoiceDatabase.delete_student VoiceDatabase.voice_embeddings].
    rewrite filter_filtered_out; [reflexivity|].
    intros ve Hve. now apply eqb_same. }
  split; [reflexivity|]. split; [exact Hinfo|]. split; [exact Hemb|].
  split; [|split; [|split]].
  - intro probe. unfold VoiceDatabase.verify_student_voice,
      VoiceDatabase.verify_student_voice_with. now rewrite Hemb.
  - apply filter_filtered_out. intros la Hla. now apply eqb_same.
  - intros other Hne.
    assert (Hemb' : VoiceDatabase.get_student_embeddings d' other =
                    VoiceDatabase.get_student_embeddings d other).
    { unfold VoiceDatabase.get_student_embeddings. subst d'.
      cbn [snd VoiceDatabase.delete_student VoiceDatabase.voice_embeddings].
      rewrite filter_filter_kept; [reflexivity|].
      intros ve Hve. now apply (eqb_other other). }
    split; [|split; [exact Hemb'|split]].
    + apply find_filter_kept. intros s Hs. now apply (eqb_other other).
    + intro probe. now apply verify_depends_on_embeddings.
    + apply filter_filter_kept. intros la Hla. now apply (eqb_other other).
  - intros now nm mail. unfold VoiceDatabase.register_student.
    rewrite existsb_as_find.
    unfold VoiceDatabase.get_student_info in Hinfo. now rewrite Hinfo.
Qed.

Lemma delete_student_erases_witness :
  VoiceDatabase.get_student_embeddings
    (snd (VoiceDatabase.delete_student Fixture.two_enrolled "S2")) "S1"
  = VoiceDatabase.get_student_embeddings Fixture.two_enrolled "S1".
Proof.
  assert (Hne : "S1"%string <> "S2"%string) by discriminate.
  exact (proj1 (proj2 (proj1 (proj2 (proj2 (proj2 (proj2 (proj2
           (delete_student_erases Fixture.two_enrolled "S2"))))))
           "S1"%string Hne))).
Defined.

(** * Invariants of the database *)

(** X5.  Whatever sequence of registrations, stored embeddings, deletions
    and logged attempts produced the database: student identifiers are
    distinct, every student is active, and every stored embedding belongs
    to a registered student. *)
Theorem database_invariant (d : VoiceDatabase.db) :
  VoiceDatabase.reachable d ->
  NoDup (map VoiceDatabase.student_id (VoiceDatabase.students d)) /\
  Forall (fun s => VoiceDatabase.is_active s = true)
         (VoiceDatabase.students d) /\
  Forall (fun ve =>
            exists s, In s (VoiceDatabase.students d) /\
                      VoiceDatabase.student_id s =
                      VoiceDatabase.ve_student_id ve /\
                      VoiceDatabase.get_student_info
                        d (VoiceDatabase.ve_student_id ve) = Some s)
         (VoiceDatabase.voice_embeddings d).
Proof.
  intro Hreach. destruct (reachable_invariant d Hreach) as [Hnodup Hact].
  split; [exact Hnodup|]. split; [exact Hact|].
  apply Forall_forall. intros ve Hve.
  pose proof (reachable_embeddings_owned d Hreach ve Hve) as Hown.
  unfold VoiceDatabase.get_student_info.
  destruct (find _ (VoiceDatabase.students d)) as [s|] eqn:E.
  - apply find_some in E. destruct E as [Hs Hid].
    apply String.eqb_eq in Hid. exists s. now repeat split.
  - exfalso. apply in_map_iff in Hown. destruct Hown as (s & Hid & Hs).
    apply (find_none _ _ E) in Hs. apply String.eqb_neq in Hs. congruence.
Qed.

Lemma database_invariant_witness :
  VoiceDatabase.reachable Fixture.two_enrolled /\
  NoDup (map VoiceDatabase.student_id
             (VoiceDatabase.students Fixture.two_enrolled)).
Proof.
  assert (H : VoiceDatabase.reachable Fixture.two_enrolled)
    by (do 2 apply enrol_reachable; apply VoiceDatabase.reachable_init).
  split; [exact H | exact (proj1 (database_invariant _ H))].
Defined.

(** * The training set *)

Lemma store_reachable (d : VoiceDatabase.db) (now : nat) (sid : string)
    (e : Np.ndarray) :
  VoiceDatabase.reachable d ->
  VoiceDatabase.reachable (Fixture.store d now sid e).
Proof.
  intro H. unfold Fixture.store.
  destruct (VoiceDatabase.store_voice_embedding d now sid e _ None)
    as [[ok d']|] eqn:E; [|exact H].
  exact (VoiceDatabase.reachable_store _ _ _ _ _ _ _ _ H E).
Qed.

Lemma crossed_reachable : VoiceDatabase.reachable Fixture.crossed.
Proof.
  unfold Fixture.crossed. do 2 apply store_reachable.
  do 2 apply VoiceDatabase.reachable_register.
  apply VoiceDatabase.reachable_init.
Qed.

(** X6.  In a database the program can produce,
    [get_all_student_embeddings] returns one entry for each student that
    has samples.  The entries come in the order in which the first samples
    of the students were stored, which is the order in which SQLite returns
    the joined rows, not the order of the students table.  An entry holds
    the name of the student and exactly the student's embeddings, in the
    order in which they were stored. *)
Theorem get_all_student_embeddings_groups (d : VoiceDatabase.db) :
  VoiceDatabase.reachable d ->
  let student_data := VoiceDatabase.get_all_student_embeddings d in
  map fst student_data =
    VoiceDatabase.first_occurrences
      (map VoiceDatabase.ve_student_id (VoiceDatabase.voice_embeddings d)) /\
  Permutation (map fst student_data)
              (map VoiceDatabase.student_id
                   (VoiceDatabase.identities_with_samples d)) /\
  Forall (fun kv =>
            (exists s,
               VoiceDatabase.get_student_info d (fst kv) = Some s /\
               VoiceDatabase.samples_name (snd kv) = VoiceDatabase.name s) /\
            VoiceDatabase.embeddings (snd kv) =
              map VoiceDatabase.embedding_data
                  (filter (fun ve =>
                             String.eqb (fst kv)
                                        (VoiceDatabase.ve_student_id ve))
                          (VoiceDatabase.voice_embeddings d)))
         student_data.
Proof.
  intros Hreach student_data. subst student_data.
  rewrite (get_all_student_embeddings_keys d Hreach).
  split; [reflexivity|].
  split; [now apply keys_are_sampled_students|].
  rewrite (get_all_student_embeddings_dict d Hreach).
  apply Forall_forall. intros kv Hkv. apply in_map_iff in Hkv.
  destruct Hkv as (sid & <- & Hsid). cbn [fst snd]. split; [|reflexivity].
  apply key_is_registered in Hsid; [|exact Hreach].
  destruct Hsid as (s & Hs). exists s. cbn. rewrite Hs. now split.
Qed.

Lemma get_all_student_embeddings_groups_witness :
  VoiceDatabase.reachable Fixture.crossed /\
  map VoiceDatabase.student_id (VoiceDatabase.students Fixture.crossed)
  = ["S1"; "S2"]%string /\
  map fst (VoiceDatabase.get_all_student_embeddings Fixture.crossed)
  = ["S2"; "S1"]%string.
Proof.
  split; [exact crossed_reachable|]. split; [reflexivity|].
  rewrite (proj1 (get_all_student_embeddings_groups
                    _ crossed_reachable)).
  reflexivity.
Defined.

Section CountingFacts.
Import Np VoiceDatabase Identification.

Lemma list_sum_permuted (l l' : list nat) :
  Permutation l l' -> list_sum l = list_sum l'.
Proof.
  unfold list_sum.
  induction 1 as [| x l l' _ IH | x y l | l l' l'' _ IH1 _ IH2];
    cbn [fold_right];
    [reflexivity | now rewrite IH | lia | congruence].
Qed.

Lemma sum_over_cons (l : list student) (ve : voice_embedding)
    (ves : list voice_embedding) :
  list_sum (map (fun s =>
                   length (filter (fun ve' => String.eqb (student_id s)
                                                (ve_student_id ve'))
                                  (ve :: ves))) l) =
  (length (filter (fun s => String.eqb (student_id s) (ve_student_id ve)) l)
   + list_sum (map (fun s =>
                      length (filter (fun ve' => String.eqb (student_id s)
                                                   (ve_student_id ve'))
                                     ves)) l))%nat.
Proof.
  unfold list_sum.
  induction l as [|s l IH]; cbn [map fold_right]; [reflexivity|].
  rewrite IH. cbn [filter].
  destruct (String.eqb (student_id s) (ve_student_id ve));
    cbn [length fold_right]; lia.
Qed.

Lemma one_owner (l : list student) (sid : string) :
  NoDup (map student_id l) -> In sid (map student_id l) ->
  length (filter (fun s => String.eqb (student_id s) sid) l) = 1%nat.
Proof.
  induction l as [|s l IH]; cbn [map filter]; intros Hnodup Hin;
    [destruct Hin|].
  apply NoDup_cons_iff in Hnodup. destruct Hnodup as [Hfresh Hnodup].
  destruct (String.eqb_spec (student_id s) sid) as [E|E].
  - cbn [length]. f_equal. subst sid.
    assert (Hnone : forall l',
              ~ In (student_id s) (map student_id l') ->
              filter (fun s' => String.eqb (student_id s') (student_id s)) l'
              = []).
    { induction l' as [|s' l' IH']; cbn [map filter]; intro Hnot;
        [reflexivity|].
      destruct (String.eqb_spec (student_id s') (student_id s)) as [E'|E'].
      - exfalso. apply Hnot. now left.
      - apply IH'. intro H'. apply Hnot. now right. }
    now rewrite Hnone.
  - apply IH; [exact Hnodup|]. destruct Hin as [Hin|Hin]; [contradiction|].
    exact Hin.
Qed.

Lemma sum_of_zeros {A : Type} (l : list A) :
  list_sum (map (fun _ => 0%nat) l) = 0%nat.
Proof. induction l as [|x l IH]; cbn; [reflexivity | exact IH]. Qed.

Lemma samples_per_owner (l : list student) (ves : list voice_embedding) :
  NoDup (map student_id l) ->
  (forall ve, In ve ves -> In (ve_student_id ve) (map student_id l)) ->
  list_sum (map (fun s =>
                   length (filter (fun ve => String.eqb (student_id s)
                                               (ve_student_id ve))
                                  ves))
                l)
  = length ves.
Proof.
  intros Hnodup. induction ves as [|ve ves IH]; intro Hown.
  - cbn [filter length]. apply sum_of_zeros.
  - rewrite sum_over_cons, IH by (intros ve' H'; apply Hown; now right).
    rewrite one_owner; [reflexivity | exact Hnodup |].
    apply Hown. now left.
Qed.

(** Every stored embedding is counted for exactly one student. *)
Lemma samples_per_student (d : db) :
  reachable d ->
  list_sum (map (fun s =>
                   length (filter (fun ve => String.eqb (student_id s)
                                               (ve_student_id ve))
                                  (voice_embeddings d)))
                (students d))
  = length (voice_embeddings d).
Proof.
  intro Hreach. destruct (reachable_invariant d Hreach) as [Hnodup _].
  apply samples_per_owner; [exact Hnodup|].
  now apply reachable_embeddings_owned.
Qed.

Lemma sum_over_sampled (d : db) (l : list student) :
  list_sum (map (fun s =>
                   length (filter (fun ve => String.eqb (student_id s)
                                               (ve_student_id ve))
                                  (voice_embeddings d)))
                (filter (has_sample d) l))
  = list_sum (map (fun s =>
                     length (filter (fun ve => String.eqb (student_id s)
                                                 (ve_student_id ve))
                                    (voice_embeddings d)))
                  l).
Proof.
  unfold list_sum.
  induction l as [|s l IH]; cbn [filter map fold_right]; [reflexivity|].
  rewrite has_sample_length.
  destruct (length (filter (fun ve => String.eqb (student_id s)
                                        (ve_student_id ve))
                           (voice_embeddings d))) eqn:E;
    cbn [map fold_right]; rewrite ?E, IH; reflexivity.
Qed.

Lemma labelled_from_length (i : nat) (sd : student_dict) :
  length (labelled_from i sd) =
  list_sum (map (fun kv => length (embeddings (snd kv))) sd).
Proof.
  revert i. induction sd as [|[k v] sd IH]; intro i;
    cbn [labelled_from map list_sum snd]; [reflexivity|].
  now rewrite length_app, length_map, IH.
Qed.

Lemma labelled_from_range (i : nat) (sd : student_dict) :
  Forall (fun p => (i <= snd p < i + length sd)%nat) (labelled_from i sd).
Proof.
  revert i. induction sd as [|[k v] sd IH]; intro i;
    cbn [labelled_from length]; [constructor|].
  apply Forall_app. split.
  - apply Forall_forall. intros p Hp. apply in_map_iff in Hp.
    destruct Hp as (e & <- & _). cbn. lia.
  - eapply Forall_impl; [|apply (IH (S i))]. cbn. intros p Hp. lia.
Qed.

Lemma labelled_from_class (i k : nat) (sd : student_dict)
    (entry : string * student_samples) :
  nth_error sd k = Some entry ->
  map fst (filter (fun p => (snd p =? i + k)%nat) (labelled_from i sd)) =
  embeddings (snd entry).
Proof.
  revert i k. induction sd as [|[key v] sd IH]; intros i k Hnth;
    [destruct k; discriminate|].
  cbn [labelled_from]. rewrite filter_app, map_app.
  destruct k as [|k]; cbn [nth_error] in Hnth.
  - injection Hnth as <-. cbn [snd].
    assert (Hmine : forall es : list ndarray,
              map fst (filter (fun p : ndarray * nat =>
                                 (snd p =? i + 0)%nat)
                              (map (fun e => (e, i)) es)) = es).
    { induction es as [|e es IHes]; cbn; [reflexivity|].
      replace (i + 0)%nat with i by lia. rewrite Nat.eqb_refl. cbn.
      f_equal. replace (i + 0)%nat with i in IHes by lia. exact IHes. }
    rewrite Hmine.
    assert (Hrest : filter (fun p : ndarray * nat => (snd p =? i + 0)%nat)
                           (labelled_from (S i) sd) = []).
    { pose proof (labelled_from_range (S i) sd) as Hr.
      induction Hr as [|p l Hp _ IHl]; cbn; [reflexivity|].
      destruct (Nat.eqb_spec (snd p) (i + 0)); [lia | exact IHl]. }
    rewrite Hrest. cbn. now rewrite app_nil_r.
  - assert (Hmine : forall es : list ndarray,
              filter (fun p : ndarray * nat => (snd p =? i + S k)%nat)
                     (map (fun e => (e, i)) es) = []).
    { induction es as [|e es IHes]; cbn; [reflexivity|].
      destruct (Nat.eqb_spec i (i + S k)); [lia | exact IHes]. }
    rewrite Hmine. cbn [map app].
    replace (i + S k)%nat with (S i + k)%nat by lia.
    now apply IH.
Qed.
End CountingFacts.

(** X7.  The training set that both [train_model]s prepare from a database
    the program can produce holds as many samples as there are stored
    embeddings, and its labels are below the number of classes.  The
    students are numbered in the order in which their first samples were
    stored: the samples labelled [k] are the embeddings of the [k]-th such
    student, in the order in which they were stored. *)
Theorem training_set_labels (d : VoiceDatabase.db) :
  VoiceDatabase.reachable d ->
  let student_data := VoiceDatabase.get_all_student_embeddings d in
  let train := Identification.labelled_from 0 student_data in
  length train = length (VoiceDatabase.voice_embeddings d) /\
  Forall (fun p => (snd p < length student_data)%nat) train /\
  (forall k sid,
     nth_error
       (VoiceDatabase.first_occurrences
          (map VoiceDatabase.ve_student_id (VoiceDatabase.voice_embeddings d)))
       k = Some sid ->
     map fst (filter (fun p => (snd p =? k)%nat) train) =
     map VoiceDatabase.embedding_data
         (filter (fun ve => String.eqb sid (VoiceDatabase.ve_student_id ve))
                 (VoiceDatabase.voice_embeddings d))).
Proof.
  intros Hreach student_data train. subst train student_data.
  rewrite (get_all_student_embeddings_dict d Hreach).
  split; [|split].
  - rewrite labelled_from_length, map_map.
    cbn [snd VoiceDatabase.embeddings].
    rewrite (list_sum_permuted _ _
               (Permutation_map _ (keys_are_sampled_students d Hreach))).
    rewrite map_map. unfold VoiceDatabase.stored_for.
    erewrite map_ext; [|intro s; apply length_map].
    unfold VoiceDatabase.identities_with_samples.
    rewrite sum_over_sampled. now apply samples_per_student.
  - eapply Forall_impl; [|apply labelled_from_range]. cbn. intros p Hp. lia.
  - intros k sid Hnth.
    rewrite (labelled_from_class 0 k _
               (sid,
                {| VoiceDatabase.samples_name :=
                     match VoiceDatabase.get_student_info d sid with
                     | Some s => VoiceDatabase.name s
                     | None => EmptyString
                     end;
                   VoiceDatabase.embeddings :=
                     VoiceDatabase.stored_for
                       (VoiceDatabase.voice_embeddings d) sid |}));
      [reflexivity|].
    rewrite nth_error_map, Hnth. reflexivity.
Qed.

Lemma training_set_labels_witness :
  VoiceDatabase.reachable Fixture.crossed /\
  map fst (filter (fun p => (snd p =? 0)%nat)
             (Identification.labelled_from
                0 (VoiceDatabase.get_all_student_embeddings Fixture.crossed)))
  = [Fixture.probe].
Proof.
  split; [exact crossed_reachable|].
  exact (proj2 (proj2 (training_set_labels _ crossed_reachable))
           0%nat "S2"%string eq_refl).
Defined.

(** * The dashboard of the web front end *)

Section DashboardFacts.
Import Np VoiceDatabase.

Lemma all_active_filter (l : list student) :
  Forall (fun s => is_active s = true) l -> filter is_active l = l.
Proof.
  induction 1 as [|s l Hs _ IH]; cbn; [reflexivity|]. now rewrite Hs, IH.
Qed.

Lemma fold_left_total {A : Type} (f : A -> nat) (l : list A) (a : nat) :
  fold_left (fun total x => (total + f x)%nat) l a
  = (a + list_sum (map f l))%nat.
Proof.
  unfold list_sum.
  revert a. induction l as [|x l IH]; intro a; cbn [fold_left map fold_right];
    [lia|].
  rewrite IH. lia.
Qed.

Lemma get_student_embeddings_length (d : db) (s : student) :
  length (get_student_embeddings d (student_id s)) =
  length (filter (fun ve => String.eqb (student_id s) (ve_student_id ve))
                 (voice_embeddings d)).
Proof.
  unfold get_student_embeddings. rewrite length_map.
  rewrite (Permutation_length (order_by_desc_perm _ _)).
  f_equal. apply filter_ext. intro ve. apply String.eqb_sym.
Qed.
End DashboardFacts.

(** X8.  On a database the program can produce, the dashboard counts every
    student, counts every student as active, and its total of samples,
    summed student by student, is the number of stored embeddings. *)
Theorem dashboard_totals (d : VoiceDatabase.db) :
  VoiceDatabase.reachable d ->
  Web.total_students (Web.dashboard d) =
    length (VoiceDatabase.students d) /\
  Web.active_students (Web.dashboard d) =
    length (VoiceDatabase.students d) /\
  Web.total_samples (Web.dashboard d) =
    length (VoiceDatabase.voice_embeddings d).
Proof.
  intro Hreach. destruct (reachable_invariant d Hreach) as [_ Hact].
  pose proof (order_by_desc_perm VoiceDatabase.registration_date
                (VoiceDatabase.students d)) as Hperm.
  unfold Web.dashboard, VoiceDatabase.list_all_students.
  cbn [Web.total_students Web.active_students Web.total_samples].
  split; [exact (Permutation_length Hperm)|]. split.
  - rewrite all_active_filter; [exact (Permutation_length Hperm)|].
    apply Forall_forall. intros s Hs. rewrite Forall_forall in Hact.
    apply Hact. now apply (Permutation_in _ Hperm).
  - rewrite fold_left_total. cbn [Nat.add].
    rewrite (list_sum_permuted _ _ (Permutation_map _ Hperm)).
    erewrite map_ext; [|intro s; apply get_student_embeddings_length].
    now apply samples_per_student.
Qed.

Lemma dashboard_totals_witness :
  VoiceDatabase.reachable Fixture.two_enrolled /\
  Web.total_samples (Web.dashboard Fixture.two_enrolled) = 2%nat.
Proof.
  assert (H : VoiceDatabase.reachable Fixture.two_enrolled)
    by (do 2 apply enrol_reachable; apply VoiceDatabase.reachable_init).
  split; [exact H|].
  rewrite (proj2 (proj2 (dashboard_totals _ H))). reflexivity.
Defined.

(** * Further properties of the preprocessing *)

(** X9.  [pad_sequence] changes nothing when applied a second time. *)
Theorem pad_sequence_idempotent (features : Np.matrix) :
  AudioPreprocessor.pad_sequence (AudioPreprocessor.pad_sequence features)
  = AudioPreprocessor.pad_sequence features.
Proof.
  pose proof (pad_sequence_len features) as Hlen.
  destruct (AudioPreprocessor.pad_sequence features) as [c rs].
  unfold AudioPreprocessor.pad_sequence, Np.pad_rows_after, Np.len in *.
  cbn [Np.rows Np.ncols] in *. rewrite Hlen, Nat.ltb_irrefl, Nat.sub_diag.
  cbn [repeat]. now rewrite app_nil_r.
Qed.

(** X10.  Zero padding does not change the similarity: two feature
    matrices of one shape with at most 100 rows have, after [pad_sequence],
    the similarity they had before. *)
Theorem zero_padding_keeps_similarity (a b : Np.matrix) :
  Np.well_shaped a -> Np.well_shaped b ->
  Np.len a = Np.len b -> Np.ncols a = Np.ncols b ->
  (Np.len a <= 100)%nat ->
  VoiceDatabase.calculate_cosine_similarity
    (Np.Mat (AudioPreprocessor.pad_sequence a))
    (Np.Mat (AudioPreprocessor.pad_sequence b))
  = VoiceDatabase.calculate_cosine_similarity (Np.Mat a) (Np.Mat b).
Proof.
  intros Ha Hb Hlen Hcols Hle.
  assert (Hflat : length (concat (Np.rows a)) = length (concat (Np.rows b))).
  { rewrite (well_shaped_flat_length a Ha), (well_shaped_flat_length b Hb).
    now rewrite Hlen, Hcols. }
  rewrite !calculate_cosine_similarity_eq.
  rewrite (padded_flat a), (padded_flat b)
    by (unfold AudioPreprocessor.max_length; lia).
  cbn [Np.flatten]. rewrite !length_app, !zero_rows_length.
  rewrite <- Hlen, <- Hcols, Hflat.
  rewrite !Nat.eqb_refl.
  unfold Np.norm.
  rewrite !dot_zero_padded;
    [reflexivity | exact Hflat | apply zero_rows_flat | reflexivity
    | apply zero_rows_flat | symmetry; reflexivity | apply zero_rows_flat].
Qed.

Lemma zero_padding_keeps_similarity_witness :
  let a := {| Np.ncols := 2; Np.rows := [[20%R; 21%R]] |} in
  VoiceDatabase.calculate_cosine_similarity
    (Np.Mat (AudioPreprocessor.pad_sequence Fixture.probe_matrix))
    (Np.Mat (AudioPreprocessor.pad_sequence a))
  = (20 / 29)%R.
Proof.
  intro a.
  rewrite (zero_padding_keeps_similarity Fixture.probe_matrix a);
    [exact probe_score | | | reflexivity | reflexivity | cbn; lia];
    repeat constructor.
Defined.

(** X11.  [remove_silence] changes nothing when applied a second time, its
    result is never longer than its input, and every sample of the result
    is a sample of the input. *)
Theorem remove_silence_idempotent (audio : list R) :
  AudioPreprocessor.remove_silence (AudioPreprocessor.remove_silence audio)
  = AudioPreprocessor.remove_silence audio /\
  (length (AudioPreprocessor.remove_silence audio) <= length audio)%nat /\
  (forall x, In x (AudioPreprocessor.remove_silence audio) -> In x audio).
Proof.
  unfold AudioPreprocessor.remove_silence.
  set (loud := fun x => Rgtb (Rabs x) AudioPreprocessor.default_threshold).
  assert (Hkept : AudioPreprocessor.remove_silence_with
                    audio AudioPreprocessor.default_threshold = audio \/
                  (AudioPreprocessor.remove_silence_with
                     audio AudioPreprocessor.default_threshold
                   = filter loud audio /\ filter loud audio <> [])).
  { rewrite remove_silence_with_filter. fold loud.
    destruct (filter loud audio); [now left | right; split; congruence]. }
  destruct Hkept as [H|[H Hne]].
  - rewrite !H. split; [reflexivity|]. split; [lia | tauto].
  - rewrite !H. split; [|split].
    + rewrite remove_silence_with_filter. fold loud.
      rewrite (filter_filter_kept loud loud audio (fun x Hx => Hx)).
      now destruct (filter loud audio).
    + apply filter_length_le.
    + intros x Hx. now apply filter_In in Hx.
Qed.

Lemma remove_silence_idempotent_witness :
  In 0.5%R (AudioPreprocessor.remove_silence [0.001%R; 0.5%R]) /\
  In 0.5%R [0.001%R; 0.5%R].
Proof.
  assert (H : In 0.5%R (AudioPreprocessor.remove_silence [0.001%R; 0.5%R])).
  { unfold AudioPreprocessor.remove_silence.
    rewrite remove_silence_with_filter.
    unfold AudioPreprocessor.default_threshold. cbn [filter].
    replace (Rgtb (Rabs 0.001) 0.01) with false.
    2:{ symmetry. apply not_true_is_false. rewrite Rgtb_true.
        rewrite Rabs_right by lra. lra. }
    replace (Rgtb (Rabs 0.5) 0.01) with true.
    2:{ symmetry. rewrite Rgtb_true. rewrite Rabs_right by lra. lra. }
    now left. }
  split; [exact H|].
  exact (proj2 (proj2 (remove_silence_idempotent [0.001%R; 0.5%R])) _ H).
Defined.

(** X12.  [preprocess_audio] returns features exactly when the file loads
    with at least one sample, the feature type is "mfcc" or "spectrogram",
    and the extractor of that type returns on the audio that silence
    removal leaves; the features are then the padded output of that
    extractor.  In particular any other feature type, a file that does not
    load, and an empty recording give [None]. *)
Theorem preprocess_audio_returns
    (load_audio : string -> option (list R))
    (extract_mfcc extract_spectrogram : list R -> option Np.matrix)
    (audio_path feature_type : string) :
  (forall features,
     AudioPreprocessor.preprocess_audio
       load_audio extract_mfcc extract_spectrogram audio_path feature_type
     = Some features <->
     exists audio raw,
       load_audio audio_path = Some audio /\ audio <> [] /\
       features = AudioPreprocessor.pad_sequence raw /\
       ((feature_type = "mfcc"%string /\
         extract_mfcc (AudioPreprocessor.remove_silence audio) = Some raw) \/
        (feature_type = "spectrogram"%string /\
         extract_spectrogram (AudioPreprocessor.remove_silence audio)
         = Some raw))) /\
  (feature_type <> "mfcc"%string -> feature_type <> "spectrogram"%string ->
   AudioPreprocessor.preprocess_audio
     load_audio extract_mfcc extract_spectrogram audio_path feature_type
   = None) /\
  (load_audio audio_path = None \/ load_audio audio_path = Some [] ->
   AudioPreprocessor.preprocess_audio
     load_audio extract_mfcc extract_spectrogram audio_path feature_type
   = None).
Proof.
  assert (Hiff : forall features,
     AudioPreprocessor.preprocess_audio
       load_audio extract_mfcc extract_spectrogram audio_path feature_type
     = Some features <->
     exists audio raw,
       load_audio audio_path = Some audio /\ audio <> [] /\
       features = AudioPreprocessor.pad_sequence raw /\
       ((feature_type = "mfcc"%string /\
         extract_mfcc (AudioPreprocessor.remove_silence audio) = Some raw) \/
        (feature_type = "spectrogram"%string /\
         extract_spectrogram (AudioPreprocessor.remove_silence audio)
         = Some raw))).
  { intro features. split.
    - apply preprocess_audio_inv.
    - intros (audio & raw & Hload & Hne & -> & Hcase).
      now apply (preprocess_audio_completes _ _ _ _ _ audio raw). }
  split; [exact Hiff|]. split.
  - intros Hm Hs.
    destruct (AudioPreprocessor.preprocess_audio _ _ _ _ _) as [f|] eqn:E;
      [|reflexivity].
    destruct (proj1 (Hiff f) eq_refl)
      as (_ & _ & _ & _ & _ & [[H _]|[H _]]); contradiction.
  - intros Hload.
    destruct (AudioPreprocessor.preprocess_audio _ _ _ _ _) as [f|] eqn:E;
      [|reflexivity].
    destruct (proj1 (Hiff f) eq_refl) as (audio & _ & Hl & Hne & _).
    destruct Hload as [H|H]; rewrite H in Hl; [discriminate|].
    injection Hl as <-. contradiction.
Qed.

Lemma preprocess_audio_returns_witness :
  let load_audio := fun _ : string => Some [1%R] in
  let extract := fun _ : list R => Some Fixture.probe_matrix in
  "chroma"%string <> "mfcc"%string /\
  AudioPreprocessor.preprocess_audio load_audio extract extract
    "login.wav" "chroma" = None.
Proof.
  intros load_audio extract.
  assert (H1 : "chroma"%string <> "mfcc"%string) by discriminate.
  assert (H2 : "chroma"%string <> "spectrogram"%string) by discriminate.
  split; [exact H1|].
  exact (proj1 (proj2 (preprocess_audio_returns load_audio extract extract
                         "login.wav" "chroma")) H1 H2).
Defined.

(** * Further properties of the identification *)

Section CandidateFacts.
Import Np VoiceDatabase Identification.
Local Open Scope R_scope.

Lemma verify_without_samples (d : db) (sid : string) (probe : ndarray) :
  get_student_embeddings d sid = [] ->
  verify_student_voice d sid probe = (false, 0).
Proof.
  intro H. unfold verify_student_voice, verify_student_voice_with.
  now rewrite H.
Qed.

Lemma verify_match_iff (d : db) (sid : string) (probe : ndarray) :
  fst (verify_student_voice d sid probe) =
  Rgeb (snd (verify_student_voice d sid probe)) 0.8.
Proof.
  unfold verify_student_voice, verify_student_voice_with,
    default_similarity_threshold.
  destruct (get_student_embeddings d sid); cbn [fst snd]; [|reflexivity].
  symmetry. apply Rgeb_false. lra.
Qed.

Lemma best_candidate_none (d : db) (probe : ndarray) (l : list student)
    (b : R) :
  best_candidate d probe l = (None, b) -> b = 0.
Proof.
  unfold best_candidate. intro E.
  destruct (scan_spec d probe l None 0)
    as (_ & _ & [H|(st & _ & _ & H & _)]);
    rewrite E in H; [now injection H | discriminate].
Qed.
End CandidateFacts.

(** X13.  The loop that looks for the best student ends either on nobody,
    with the similarity 0, or on an active student of the list whose score
    is positive and not below the score of any other active student, and
    who has at least one stored embedding; so the best similarity is never
    negative, whatever the scores of the students are. *)
Theorem best_candidate_is_enrolled (d : VoiceDatabase.db)
    (probe : Np.ndarray) (all_students : list VoiceDatabase.student) :
  let best := Identification.best_candidate d probe all_students in
  (0 <= snd best)%R /\
  (forall st, In st all_students -> VoiceDatabase.is_active st = true ->
     (Identification.score d probe st <= snd best)%R) /\
  match fst best with
  | None => snd best = 0%R
  | Some st =>
      In st all_students /\ VoiceDatabase.is_active st = true /\
      snd best = Identification.score d probe st /\ (0 < snd best)%R /\
      VoiceDatabase.get_student_embeddings d (VoiceDatabase.student_id st)
      <> []
  end.
Proof.
  intro best.
  assert (Hbound : forall st, In st all_students ->
            VoiceDatabase.is_active st = true ->
            (Identification.score d probe st <= snd best)%R)
    by (intros st Hin Ha; now apply best_candidate_bound).
  destruct best as [[st|] b] eqn:E; cbn [fst snd] in *.
  - apply best_candidate_some in E. destruct E as (Hin & Ha & Hb & Hpos).
    split; [lra|]. split; [exact Hbound|].
    repeat split; try assumption.
    intro Hnone.
    rewrite (verify_without_samples d _ probe Hnone) in Hb. cbn in Hb. lra.
  - apply best_candidate_none in E. subst b.
    split; [lra|]. split; [exact Hbound | reflexivity].
Qed.

Lemma best_candidate_is_enrolled_witness :
  (0 <= snd (Identification.best_candidate
               Fixture.enrolled Fixture.probe
               (VoiceDatabase.list_all_students Fixture.enrolled)))%R.
Proof.
  exact (proj1 (best_candidate_is_enrolled Fixture.enrolled Fixture.probe
                  (VoiceDatabase.list_all_students Fixture.enrolled))).
Defined.

(** X14.  A web login whose audio was processed while some student is
    registered appends exactly one login attempt: it carries the success
    flag and the confidence of the reply, the identifier of the student the
    reply names when the login succeeds (which needs a best similarity of
    at least 0.65), and "UNKNOWN" otherwise; students and embeddings stay.
    Every other request is refused and leaves the database as it was. *)
Theorem web_login_logs_once (d : VoiceDatabase.db) :
  (forall features,
     VoiceDatabase.students d <> [] ->
     let r := fst (Web.api_voice_login d (Web.Processed features)) in
     let d' := snd (Web.api_voice_login d (Web.Processed features)) in
     exists identity best,
       VoiceDatabase.login_attempts d' =
         VoiceDatabase.login_attempts d ++
         [{| VoiceDatabase.la_student_id := identity;
             VoiceDatabase.success := Web.r_success r;
             VoiceDatabase.la_confidence_score := best;
             VoiceDatabase.ip_address := None |}] /\
       Web.r_confidence r = Some best /\
       best = snd (Identification.best_candidate
                     d features (VoiceDatabase.list_all_students d)) /\
       VoiceDatabase.students d' = VoiceDatabase.students d /\
       VoiceDatabase.voice_embeddings d' = VoiceDatabase.voice_embeddings d /\
       (if Web.r_success r then
          (best >= 0.65)%R /\
          exists st, In st (VoiceDatabase.students d) /\
                     identity = VoiceDatabase.student_id st /\
                     Web.r_student r =
                       Some (VoiceDatabase.name st,
                             VoiceDatabase.student_id st)
        else
          identity = "UNKNOWN"%string /\ (best < 0.65)%R /\
          Web.r_student r = None)) /\
  (forall u,
     VoiceDatabase.students d = [] \/
     (forall features, u <> Web.Processed features) ->
     snd (Web.api_voice_login d u) = d /\
     Web.r_success (fst (Web.api_voice_login d u)) = false).
Proof.
  split.
  - intros features Hne r d'. subst r d'. unfold Web.api_voice_login.
    destruct (VoiceDatabase.list_all_students d) as [|st0 rest] eqn:Hall.
    { exfalso. apply Hne. unfold VoiceDatabase.list_all_students in Hall.
      now apply order_by_desc_nil in Hall. }
    destruct (Identification.best_candidate d features (st0 :: rest))
      as [[st|] b] eqn:E.
    + apply best_candidate_some in E. destruct E as (Hin & _ & _ & _).
      rewrite <- Hall in Hin. apply list_all_students_in in Hin.
      destruct (Rgeb b 0.65) eqn:Hb; cbn.
      * exists (VoiceDatabase.student_id st), b. apply Rgeb_true in Hb.
        repeat split; try assumption. now exists st.
      * exists "UNKNOWN"%string, b. apply Rgeb_false in Hb.
        now repeat split.
    + pose proof (best_candidate_none _ _ _ _ E) as ->. cbn.
      exists "UNKNOWN"%string, 0%R. repeat split. lra.
  - intros u [Hnone|Hother].
    + apply list_all_students_nil in Hnone. unfold Web.api_voice_login.
      destruct u; try (now split). now rewrite Hnone.
    + destruct u as [| | | |features]; try (now split).
      now destruct (Hother features).
Qed.

Lemma web_login_logs_once_witness :
  VoiceDatabase.students Fixture.enrolled <> [] /\
  length (VoiceDatabase.login_attempts
            (snd (Web.api_voice_login Fixture.enrolled
                    (Web.Processed Fixture.probe)))) = 1%nat /\
  snd (Web.api_voice_login VoiceDatabase.init_database
         (Web.Processed Fixture.probe)) = VoiceDatabase.init_database.
Proof.
  assert (Hne : VoiceDatabase.students Fixture.enrolled <> [])
    by (cbn; discriminate).
  split; [exact Hne|]. split.
  - destruct (proj1 (web_login_logs_once Fixture.enrolled)
                Fixture.probe Hne) as (identity & best & Hlog & _).
    rewrite Hlog. reflexivity.
  - exact (proj1 (proj2 (web_login_logs_once VoiceDatabase.init_database)
                    (Web.Processed Fixture.probe) (or_introl eq_refl))).
Defined.

(** * The command-line front end *)

Lemma cli_verify_specific_student_eq (c : Cli.cli) (sid : string)
    (t : Cli.attempt) (s : VoiceDatabase.student) (m : Np.matrix) :
  VoiceDatabase.get_student_info (Cli.db c) sid = Some s ->
  Cli.record_audio_returns t = true ->
  Cli.save_audio_returns t = true ->
  Cli.features t = Some m ->
  Cli._verify_specific_student c sid t =
  (fst (VoiceDatabase.verify_student_voice (Cli.db c) sid (Np.Mat m)),
   Cli.log c sid
     (fst (VoiceDatabase.verify_student_voice (Cli.db c) sid (Np.Mat m)))
     (snd (VoiceDatabase.verify_student_voice (Cli.db c) sid (Np.Mat m)))).
Proof.
  intros Hinfo Hrec Hsave Hfeat. unfold Cli._verify_specific_student.
  rewrite Hrec, Hsave, Hfeat, Hinfo. cbn [negb].
  now destruct (VoiceDatabase.verify_student_voice (Cli.db c) sid (Np.Mat m))
    as [[|] similarity].
Qed.

Lemma cli_verify_specific_student_fails (c : Cli.cli) (sid : string)
    (t : Cli.attempt) :
  Cli.record_audio_returns t = false \/ Cli.save_audio_returns t = false \/
  Cli.features t = None ->
  Cli._verify_specific_student c sid t = (false, c).
Proof.
  intro H. unfold Cli._verify_specific_student.
  destruct (Cli.record_audio_returns t); [|reflexivity].
  destruct (Cli.save_audio_returns t); [|reflexivity].
  destruct (Cli.features t); [|reflexivity].
  destruct H as [H|[H|H]]; discriminate.
Qed.

Lemma truthy_nonempty (sid : string) :
  sid <> ""%string -> Py.truthy (Some sid) = true.
Proof.
  intro H. cbn. apply negb_true_iff. now apply String.eqb_neq.
Qed.

(** X15.  The login with a student identifier grants access only to a
    registered student whose recording was processed and whose best
    similarity to the stored encodings is at least 0.8.  Such an attempt,
    granted or not, is logged exactly once under the identifier with the
    returned flag and that similarity; an unknown identifier and a failed
    recording are answered by [False] and change nothing. *)
Theorem cli_login_with_id (c : Cli.cli) (sid : string) (t : Cli.attempt) :
  sid <> ""%string ->
  let r := Cli.login_student c (Some sid) t in
  match VoiceDatabase.get_student_info (Cli.db c) sid,
        Cli.record_audio_returns t && Cli.save_audio_returns t,
        Cli.features t with
  | Some _, true, Some m =>
      let v := VoiceDatabase.verify_student_voice (Cli.db c) sid (Np.Mat m) in
      fst r = fst v /\
      (fst r = true <-> (snd v >= 0.8)%R) /\
      Cli.db (snd r) =
        VoiceDatabase.log_login_attempt (Cli.db c) sid (fst r) (snd v) /\
      Cli.model (snd r) = Cli.model c
  | _, _, _ => r = (false, c)
  end.
Proof.
  intros Hsid r. subst r. unfold Cli.login_student.
  rewrite (truthy_nonempty sid Hsid).
  destruct (VoiceDatabase.get_student_info (Cli.db c) sid) as [s|] eqn:Hinfo;
    [|reflexivity].
  destruct (Cli.record_audio_returns t) eqn:Hrec; cbn [andb];
    [|apply cli_verify_specific_student_fails; now left].
  destruct (Cli.save_audio_returns t) eqn:Hsave;
    [|apply cli_verify_specific_student_fails; right; now left].
  destruct (Cli.features t) as [m|] eqn:Hfeat;
    [|apply cli_verify_specific_student_fails; right; now right].
  rewrite (cli_verify_specific_student_eq c sid t s m Hinfo Hrec Hsave Hfeat).
  cbn [fst snd]. repeat split.
  - intro H. rewrite verify_match_iff in H. now apply Rgeb_true.
  - intro H. rewrite verify_match_iff. now apply Rgeb_true.
Qed.

Lemma cli_login_with_id_witness :
  "S9"%string <> ""%string /\
  Cli.login_student Fixture.enrolled_cli (Some "S9"%string)
    {| Cli.record_audio_returns := true; Cli.save_audio_returns := true;
       Cli.features := Some Fixture.probe_matrix |}
  = (false, Fixture.enrolled_cli).
Proof.
  assert (H : "S9"%string <> ""%string) by discriminate.
  split; [discriminate|].
  exact (cli_login_with_id Fixture.enrolled_cli "S9"
           {| Cli.record_audio_returns := true;
              Cli.save_audio_returns := true;
              Cli.features := Some Fixture.probe_matrix |} H).
Defined.

(** X16.  The thresholds of the front ends differ: a probe whose best
    similarity lies between 0.65 and 0.8 logs the best student in through
    the web endpoint, while the command-line login with that student's
    identifier refuses the same features. *)
Theorem web_accepts_what_cli_refuses (d : VoiceDatabase.db) (m : Np.matrix)
    (st : VoiceDatabase.student) (b : R) :
  Identification.best_candidate
    d (Np.Mat m) (VoiceDatabase.list_all_students d) = (Some st, b) ->
  (0.65 <= b < 0.8)%R ->
  Web.r_success (fst (Web.api_voice_login d (Web.Processed (Np.Mat m))))
  = true /\
  Web.r_student (fst (Web.api_voice_login d (Web.Processed (Np.Mat m))))
  = Some (VoiceDatabase.name st, VoiceDatabase.student_id st) /\
  (forall (c : Cli.cli) (t : Cli.attempt),
     Cli.db c = d -> Cli.features t = Some m ->
     fst (Cli.login_student c (Some (VoiceDatabase.student_id st)) t)
     = false).
Proof.
  intros Hbest Hb.
  assert (Hweb : Rgeb b 0.65 = true) by (apply Rgeb_true; lra).
  pose proof (best_candidate_some _ _ _ _ _ Hbest) as (Hin & _ & Hscore & _).
  split; [|split].
  - unfold Web.api_voice_login.
    destruct (VoiceDatabase.list_all_students d); [destruct Hin|].
    now rewrite Hbest, Hweb.
  - unfold Web.api_voice_login.
    destruct (VoiceDatabase.list_all_students d); [destruct Hin|].
    now rewrite Hbest, Hweb.
  - intros c t Hd Hfeat. unfold Cli.login_student.
    destruct (Py.truthy (Some (VoiceDatabase.student_id st)));
      [|now rewrite cli_voice_only_login_stops].
    destruct (VoiceDatabase.get_student_info (Cli.db c) _) as [s|] eqn:Hinfo;
      [|reflexivity].
    destruct (Cli.record_audio_returns t) eqn:Hrec;
      [|rewrite cli_verify_specific_student_fails; [reflexivity | now left]].
    destruct (Cli.save_audio_returns t) eqn:Hsave;
      [|rewrite cli_verify_specific_student_fails;
        [reflexivity | right; now left]].
    rewrite (cli_verify_specific_student_eq c _ t s m Hinfo Hrec Hsave Hfeat).
    cbn [fst]. rewrite verify_match_iff, Hd, <- Hscore.
    apply Rgeb_false. lra.
Qed.

Lemma web_accepts_what_cli_refuses_witness :
  (0.65 <= 20 / 29 < 0.8)%R /\
  Web.r_success (fst (Web.api_voice_login Fixture.enrolled
                        (Web.Processed Fixture.probe))) = true.
Proof.
  assert (Hb : (0.65 <= 20 / 29 < 0.8)%R) by lra.
  split; [exact Hb|].
  destruct probe_best_candidate as (st & _ & _ & Hbest).
  exact (proj1 (web_accepts_what_cli_refuses Fixture.enrolled
                  Fixture.probe_matrix st (20 / 29)%R Hbest Hb)).
Defined.

Section RegistrationFacts.
Import Np VoiceDatabase.

Lemma embeddings_after_append (d d' : db) (sid : string)
    (row : voice_embedding) :
  voice_embeddings d' = voice_embeddings d ++ [row] ->
  ve_student_id row = sid ->
  Permutation (map embedding (get_student_embeddings d' sid))
              (embedding_data row ::
               map embedding (get_student_embeddings d sid)).
Proof.
  intros Hves Hid. rewrite !stored_embeddings_eq, Hves, filter_app.
  cbn [filter]. rewrite Hid, String.eqb_refl.
  set (mine := filter _ (voice_embeddings d)).
  change (embedding_data row ::
          map embedding_data (order_by_desc ve_registration_date mine))
    with (map embedding_data
              (row :: order_by_desc ve_registration_date mine)).
  apply Permutation_map.
  eapply perm_trans; [apply order_by_desc_perm|].
  eapply perm_trans; [apply Permutation_sym, Permutation_cons_append|].
  apply perm_skip, Permutation_sym, order_by_desc_perm.
Qed.

Lemma embeddings_same_table (d d' : db) (sid : string) :
  voice_embeddings d' = voice_embeddings d ->
  get_student_embeddings d' sid = get_student_embeddings d sid.
Proof.
  intro H. unfold get_student_embeddings. now rewrite H.
Qed.

Lemma register_student_new (d : db) (now : nat) (sid nm : string)
    (mail : option string) :
  get_student_info d sid = None ->
  register_student d now sid nm mail =
  (true,
   {| students := students d ++
        [{| student_id := sid; name := nm; email := mail;
            registration_date := now; is_active := true |}];
      voice_embeddings := voice_embeddings d;
      login_attempts := login_attempts d |}).
Proof.
  unfold get_student_info, register_student. intro H.
  now rewrite existsb_as_find, H.
Qed.

Lemma register_student_known (d : db) (now : nat) (sid nm : string)
    (mail : option string) (s : student) :
  get_student_info d sid = Some s ->
  register_student d now sid nm mail = (false, d).
Proof.
  unfold get_student_info, register_student. intro H.
  now rewrite existsb_as_find, H.
Qed.

Lemma get_student_info_appended (l : list student) (now : nat)
    (sid nm : string) (mail : option string) :
  find (fun s => String.eqb (student_id s) sid) l = None ->
  find (fun s => String.eqb (student_id s) sid)
       (l ++ [{| student_id := sid; name := nm; email := mail;
                 registration_date := now; is_active := true |}])
  = Some {| student_id := sid; name := nm; email := mail;
            registration_date := now; is_active := true |}.
Proof.
  intro H. rewrite find_in_appended, H. cbn. now rewrite String.eqb_refl.
Qed.

Lemma store_voice_embedding_known (d : db) (now : nat) (sid : string)
    (e : ndarray) (h : string) (score : option R) (s : student) :
  get_student_info d sid = Some s ->
  store_voice_embedding d now sid e (Some h) score =
  Some (true,
        {| students := students d;
           voice_embeddings := voice_embeddings d ++
             [{| ve_student_id := sid; embedding_data := e;
                 audio_hash := h; confidence_score := score;
                 ve_registration_date := now |}];
           login_attempts := login_attempts d |}).
Proof.
  unfold get_student_info, store_voice_embedding. intro H.
  now rewrite existsb_as_find, H.
Qed.
End RegistrationFacts.

(** X17.  The command-line registration inserts the student before it
    records.  For a new identifier the student row exists afterwards
    whether or not the recording was processed, so the registration cannot
    be repeated under that identifier; the embedding is stored, and [True]
    returned, exactly when recording, saving and feature extraction all
    succeed.  A registered identifier is refused and nothing changes. *)
Theorem cli_registration_outcomes (c : Cli.cli) (now : nat)
    (sid nm : string) (mail : option string) (t : Cli.attempt)
    (audio_md5 : string) :
  let r := Cli.register_student c now sid nm mail t audio_md5 in
  match VoiceDatabase.get_student_info (Cli.db c) sid with
  | Some _ => r = (false, c)
  | None =>
      VoiceDatabase.get_student_info (Cli.db (snd r)) sid =
        Some {| VoiceDatabase.student_id := sid; VoiceDatabase.name := nm;
                VoiceDatabase.email := mail;
                VoiceDatabase.registration_date := now;
                VoiceDatabase.is_active := true |} /\
      (forall now' nm' mail' t' audio_md5',
         Cli.register_student (snd r) now' sid nm' mail' t' audio_md5'
         = (false, snd r)) /\
      match Cli.record_audio_returns t && Cli.save_audio_returns t,
            Cli.features t with
      | true, Some m =>
          fst r = true /\
          Permutation
            (map VoiceDatabase.embedding
                 (VoiceDatabase.get_student_embeddings (Cli.db (snd r)) sid))
            (Np.Mat m ::
             map VoiceDatabase.embedding
                 (VoiceDatabase.get_student_embeddings (Cli.db c) sid))
      | _, _ =>
          fst r = false /\
          VoiceDatabase.voice_embeddings (Cli.db (snd r)) =
          VoiceDatabase.voice_embeddings (Cli.db c)
      end
  end.
Proof.
  intro r.
  destruct (VoiceDatabase.get_student_info (Cli.db c) sid) as [s|] eqn:Hinfo.
  { subst r. unfold Cli.register_student.
    now rewrite (register_student_known _ _ _ _ _ s Hinfo). }
  set (row := {| VoiceDatabase.student_id := sid; VoiceDatabase.name := nm;
                 VoiceDatabase.email := mail;
                 VoiceDatabase.registration_date := now;
                 VoiceDatabase.is_active := true |}).
  set (d1 := {| VoiceDatabase.students :=
                  VoiceDatabase.students (Cli.db c) ++ [row];
                VoiceDatabase.voice_embeddings :=
                  VoiceDatabase.voice_embeddings (Cli.db c);
                VoiceDatabase.login_attempts :=
                  VoiceDatabase.login_attempts (Cli.db c) |}).
  assert (Hinfo1 : VoiceDatabase.get_student_info d1 sid = Some row)
    by (apply get_student_info_appended; exact Hinfo).
  assert (Hcases :
    (Cli.record_audio_returns t && Cli.save_audio_returns t = true /\
     exists m d2,
       Cli.features t = Some m /\
       r = (true, {| Cli.db := d2; Cli.model := Cli.model c |}) /\
       VoiceDatabase.students d2 = VoiceDatabase.students d1 /\
       VoiceDatabase.voice_embeddings d2 =
         VoiceDatabase.voice_embeddings d1 ++
         [{| VoiceDatabase.ve_student_id := sid;
             VoiceDatabase.embedding_data := Np.Mat m;
             VoiceDatabase.audio_hash := audio_md5;
             VoiceDatabase.confidence_score := None;
             VoiceDatabase.ve_registration_date := now |}]) \/
    ((Cli.record_audio_returns t && Cli.save_audio_returns t = false \/
      Cli.features t = None) /\
     r = (false, {| Cli.db := d1; Cli.model := Cli.model c |}))).
  { subst r. unfold Cli.register_student.
    rewrite (register_student_new _ now sid nm mail Hinfo).
    fold row. fold d1. cbn [negb Cli.db Cli.model].
    destruct (Cli.record_audio_returns t); cbn [negb andb];
      [|right; split; [now left | reflexivity]].
    destruct (Cli.save_audio_returns t); cbn [negb];
      [|right; split; [now left | reflexivity]].
    destruct (Cli.features t) as [m|];
      [|right; split; [now right | reflexivity]].
    left. split; [reflexivity|].
    rewrite (store_voice_embedding_known d1 now sid (Np.Mat m) audio_md5
               None row Hinfo1).
    eexists m, _. repeat split. }
  assert (Hblocked : forall c',
            VoiceDatabase.get_student_info (Cli.db c') sid = Some row ->
            forall now' nm' mail' t' audio_md5',
              Cli.register_student c' now' sid nm' mail' t' audio_md5'
              = (false, c')).
  { intros c' H' now' nm' mail' t' audio_md5'. unfold Cli.register_student.
    now rewrite (register_student_known _ _ _ _ _ row H'). }
  destruct Hcases as [(Hok & m & d2 & Hfeat & Hr & Hst & Hves)
                     |(Hfail & Hr)]; rewrite Hr; cbn [fst snd Cli.db].
  - assert (Hinfo2 : VoiceDatabase.get_student_info d2 sid = Some row)
      by (unfold VoiceDatabase.get_student_info; rewrite Hst; exact Hinfo1).
    split; [exact Hinfo2|]. split; [now apply Hblocked|].
    rewrite Hok, Hfeat. split; [reflexivity|].
    eapply perm_trans;
      [apply (embeddings_after_append d1 d2 sid _ Hves eq_refl)|].
    apply Permutation_refl.
  - split; [exact Hinfo1|]. split; [now apply Hblocked|].
    destruct Hfail as [Hfail|Hfail]; rewrite Hfail.
    + now split.
    + destruct (_ && _); now split.
Qed.

Lemma cli_registration_outcomes_witness :
  Cli.register_student Fixture.enrolled_cli 9 "S1" "Again" None
    {| Cli.record_audio_returns := true; Cli.save_audio_returns := true;
       Cli.features := Some Fixture.probe_matrix |} "md5"
  = (false, Fixture.enrolled_cli) /\
  (forall now' nm' mail' t' audio_md5',
     let failed :=
       snd (Cli.register_student Fixture.enrolled_cli 9 "S7" "Mina" None
              {| Cli.record_audio_returns := true;
                 Cli.save_audio_returns := true;
                 Cli.features := None |} "md5") in
     Cli.register_student failed now' "S7" nm' mail' t' audio_md5'
     = (false, failed)).
Proof.
  split.
  - exact (cli_registration_outcomes Fixture.enrolled_cli 9 "S1" "Again" None
             {| Cli.record_audio_returns := true;
                Cli.save_audio_returns := true;
                Cli.features := Some Fixture.probe_matrix |} "md5").
  - exact (proj1 (proj2
             (cli_registration_outcomes Fixture.enrolled_cli 9 "S7" "Mina"
                None
                {| Cli.record_audio_returns := true;
                   Cli.save_audio_returns := true;
                   Cli.features := None |} "md5"))).
Defined.

(** * Registration through the web front end *)

Section WebRegistrationFacts.
Import Np VoiceDatabase.

(** The database after a registration that went through. *)
Lemma web_registration_success (d : db) (now : nat) (sid nm : string)
    (email : option string) (features : ndarray) (audio_md5 : string)
    (noise1 noise2 : ndarray) :
  sid <> ""%string -> nm <> ""%string ->
  get_student_info d sid = None ->
  exists d',
    Web.api_register_student d now (Some sid) (Some nm) email
      (Web.Processed features) true audio_md5 noise1 noise2
    = (Web.Registered, d') /\
    students d' = students d ++
      [{| student_id := sid; name := nm; email := email;
          registration_date := now; is_active := true |}] /\
    login_attempts d' = login_attempts d /\
    map embedding_data (voice_embeddings d') =
      map embedding_data (voice_embeddings d) ++
      [features; NpReduce.add features noise1; NpReduce.add features noise2]
    /\
    Permutation
      (map embedding (get_student_embeddings d' sid))
      (NpReduce.add features noise2 :: NpReduce.add features noise1 ::
       features :: map embedding (get_student_embeddings d sid)).
Proof.
  intros Hsid Hnm Hinfo. unfold Web.api_register_student.
  rewrite (truthy_nonempty sid Hsid), (truthy_nonempty nm Hnm).
  cbn [andb negb].
  rewrite (register_student_new d now sid nm email Hinfo). cbn [negb].
  set (row := {| student_id := sid; name := nm; email := email;
                 registration_date := now; is_active := true |}).
  set (d1 := {| students := students d ++ [row];
                voice_embeddings := voice_embeddings d;
                login_attempts := login_attempts d |}).
  assert (H1 : get_student_info d1 sid = Some row)
    by (apply get_student_info_appended; exact Hinfo).
  rewrite (store_voice_embedding_known d1 now sid features audio_md5 None
             row H1).
  set (d2 := {| students := students d1;
                voice_embeddings := voice_embeddings d1 ++ _;
                login_attempts := login_attempts d1 |}).
  assert (H2 : get_student_info d2 sid = Some row) by exact H1.
  rewrite (store_voice_embedding_known d2 now sid _ audio_md5 None row H2).
  set (d3 := {| students := students d2;
                voice_embeddings := voice_embeddings d2 ++ _;
                login_attempts := login_attempts d2 |}).
  assert (H3 : get_student_info d3 sid = Some row) by exact H1.
  rewrite (store_voice_embedding_known d3 now sid _ audio_md5 None row H3).
  set (d4 := {| students := students d3;
                voice_embeddings := voice_embeddings d3 ++ _;
                login_attempts := login_attempts d3 |}).
  exists d4. split; [reflexivity|].
  split; [reflexivity|]. split; [reflexivity|]. split.
  - unfold d4, d3, d2, d1. cbn [voice_embeddings].
    rewrite !map_app. cbn [map embedding_data]. now rewrite <- !app_assoc.
  - eapply perm_trans;
      [apply (embeddings_after_append d3 d4 sid _ eq_refl eq_refl)|].
    cbn [embedding_data]. apply perm_skip.
    eapply perm_trans;
      [apply (embeddings_after_append d2 d3 sid _ eq_refl eq_refl)|].
    cbn [embedding_data]. apply perm_skip.
    eapply perm_trans;
      [apply (embeddings_after_append d1 d2 sid _ eq_refl eq_refl)|].
    cbn [embedding_data]. apply perm_skip.
    now rewrite (embeddings_same_table d d1 sid eq_refl).
Qed.

Lemma filter_other_ids (l : list student) (sid : string) :
  find (fun s => String.eqb (student_id s) sid) l = None ->
  filter (fun s => negb (String.eqb (student_id s) sid)) l = l.
Proof.
  induction l as [|s l IH]; cbn; [reflexivity|].
  destruct (String.eqb (student_id s) sid); [discriminate|].
  intro H. cbn. now rewrite IH.
Qed.
End WebRegistrationFacts.

(** X18.  The web registration extracts the features before it touches the
    database.  It succeeds exactly when identifier and name are not empty,
    the audio was processed, the identifier is new and the converted file
    can be read back; the student is then registered with three
    embeddings, the features and their two noisy variations.  When the
    file cannot be read back the new student row is removed again; every
    other refusal leaves the database as it was. *)
Theorem web_registration_outcomes (d : VoiceDatabase.db) (now : nat)
    (student_id name email : option string) (u : Web.upload)
    (audio_readable : bool) (audio_md5 : string)
    (noise1 noise2 : Np.ndarray) :
  let r := Web.api_register_student d now student_id name email u
             audio_readable audio_md5 noise1 noise2 in
  (fst r = Web.Registered <->
   exists sid nm features,
     student_id = Some sid /\ sid <> ""%string /\
     name = Some nm /\ nm <> ""%string /\
     u = Web.Processed features /\
     VoiceDatabase.get_student_info d sid = None /\
     audio_readable = true) /\
  (forall sid features,
     fst r = Web.Registered -> student_id = Some sid ->
     u = Web.Processed features ->
     VoiceDatabase.get_student_info (snd r) sid <> None /\
     Permutation
       (map VoiceDatabase.embedding
            (VoiceDatabase.get_student_embeddings (snd r) sid))
       (NpReduce.add features noise2 :: NpReduce.add features noise1 ::
        features ::
        map VoiceDatabase.embedding
            (VoiceDatabase.get_student_embeddings d sid))) /\
  (forall sid,
     fst r = Web.VoiceStorageFailed -> student_id = Some sid ->
     VoiceDatabase.students (snd r) = VoiceDatabase.students d /\
     VoiceDatabase.get_student_info (snd r) sid = None /\
     VoiceDatabase.get_student_embeddings (snd r) sid = []) /\
  (fst r <> Web.Registered -> fst r <> Web.VoiceStorageFailed -> snd r = d).
Proof.
  intro r.
  destruct student_id as [sid|]; [|subst r; cbn; repeat split;
    try discriminate; try (intros (? & ? & ? & H & _); discriminate)].
  destruct name as [nm|]; [|subst r; cbn; repeat split;
    try discriminate;
    try (intros (? & ? & ? & _ & _ & H & _); discriminate)].
  destruct (String.eqb_spec sid "") as [Hsid|Hsid].
  { subst r sid. cbn. repeat split; try discriminate.
    intros (? & ? & ? & H & Hne & _). injection H as <-. contradiction. }
  destruct (String.eqb_spec nm "") as [Hnm|Hnm].
  { subst r nm. unfold Web.api_register_student.
    rewrite (truthy_nonempty sid Hsid). cbn. repeat split; try discriminate.
    intros (? & ? & ? & _ & _ & H & Hne & _). injection H as <-.
    contradiction. }
  assert (Hgate : forall v,
    Web.api_register_student d now (Some sid) (Some nm) email v
      audio_readable audio_md5 noise1 noise2 =
    match v with
    | Web.Missing => (Web.MissingRequiredFields, d)
    | Web.Undecodable => (Web.RegisterDecodeFailed, d)
    | Web.Unconvertible => (Web.RegisterConversionFailed, d)
    | Web.Unprocessable => (Web.RegisterProcessingFailed, d)
    | Web.Processed features =>
        Web.api_register_student d now (Some sid) (Some nm) email
          (Web.Processed features) audio_readable audio_md5 noise1 noise2
    end).
  { intro v. unfold Web.api_register_student.
    rewrite (truthy_nonempty sid Hsid), (truthy_nonempty nm Hnm).
    now destruct v. }
  destruct u as [| | | |features];
    try (subst r; rewrite Hgate; cbn [fst snd]; repeat split;
         try discriminate;
         intros (? & ? & ? & _ & _ & _ & _ & H & _); discriminate).
  destruct (VoiceDatabase.get_student_info d sid) as [s|] eqn:Hinfo.
  { assert (Hr : r = (Web.StudentIdAlreadyExists, d)).
    { subst r. unfold Web.api_register_student.
      rewrite (truthy_nonempty sid Hsid), (truthy_nonempty nm Hnm).
      cbn [andb negb].
      now rewrite (register_student_known d now sid nm email s Hinfo). }
    rewrite Hr. cbn [fst snd]. repeat split; try discriminate.
    intros (sid' & ? & ? & H & _ & _ & _ & _ & Hnew & _).
    injection H as <-. congruence. }
  destruct audio_readable.
  - destruct (web_registration_success d now sid nm email features audio_md5
                noise1 noise2 Hsid Hnm Hinfo)
      as (d' & Hr & Hst & _ & _ & Hperm).
    fold r in Hr. rewrite Hr. cbn [fst snd].
    split; [|split; [|split; [|congruence]]].
    + split; [|reflexivity]. intros _. exists sid, nm, features.
      now repeat split.
    + intros sid' features' _ Hs Hu. injection Hs as <-. injection Hu as <-.
      split; [|exact Hperm].
      unfold VoiceDatabase.get_student_info. rewrite Hst.
      rewrite (get_student_info_appended _ now sid nm email Hinfo).
      discriminate.
    + discriminate.
  - assert (Hr : r = (Web.VoiceStorageFailed,
                      snd (VoiceDatabase.delete_student
                             (snd (VoiceDatabase.register_student
                                     d now sid nm email)) sid))).
    { subst r. unfold Web.api_register_student.
      rewrite (truthy_nonempty sid Hsid), (truthy_nonempty nm Hnm).
      cbn [andb negb].
      now rewrite (register_student_new d now sid nm email Hinfo). }
    rewrite Hr. cbn [fst].
    split; [|split; [|split; [|congruence]]].
    + split; [discriminate|].
      intros (? & ? & ? & _ & _ & _ & _ & _ & _ & H). discriminate.
    + discriminate.
    + intros sid' _ Hs. injection Hs as <-.
      rewrite (register_student_new d now sid nm email Hinfo).
      cbn [snd VoiceDatabase.delete_student VoiceDatabase.students].
      split; [|split].
      * rewrite filter_app. cbn [filter VoiceDatabase.student_id].
        rewrite String.eqb_refl. cbn [negb].
        rewrite app_nil_r. now apply filter_other_ids.
      * apply find_filtered_out. intros s Hs. now apply eqb_same.
      * unfold VoiceDatabase.get_student_embeddings.
        cbn [VoiceDatabase.voice_embeddings].
        rewrite filter_filtered_out; [reflexivity|].
        intros ve Hve. now apply eqb_same.
Qed.

Lemma web_registration_outcomes_witness :
  fst (Web.api_register_student Fixture.enrolled 9 (Some "S1"%string)
         (Some "Again"%string) None (Web.Processed Fixture.probe) true
         "md5" Fixture.probe Fixture.probe) <> Web.Registered /\
  snd (Web.api_register_student Fixture.enrolled 9 (Some "S1"%string)
         (Some "Again"%string) None (Web.Processed Fixture.probe) true
         "md5" Fixture.probe Fixture.probe) = Fixture.enrolled.
Proof.
  assert (H1 : fst (Web.api_register_student Fixture.enrolled 9
                      (Some "S1"%string) (Some "Again"%string) None
                      (Web.Processed Fixture.probe) true
                      "md5" Fixture.probe Fixture.probe)
               <> Web.Registered) by (cbn; discriminate).
  assert (H2 : fst (Web.api_register_student Fixture.enrolled 9
                      (Some "S1"%string) (Some "Again"%string) None
                      (Web.Processed Fixture.probe) true
                      "md5" Fixture.probe Fixture.probe)
               <> Web.VoiceStorageFailed) by (cbn; discriminate).
  split; [exact H1|].
  exact (proj2 (proj2 (proj2
           (web_registration_outcomes Fixture.enrolled 9 (Some "S1"%string)
              (Some "Again"%string) None (Web.Processed Fixture.probe) true
              "md5" Fixture.probe Fixture.probe))) H1 H2).
Defined.

(** * The entry points of the voice-only login *)

(** X19.  As the modules are written, the voice-only login of the desktop
    and of the command-line front end stops at the unbound name [time]:
    whatever the recording and the database, it reports a failure, grants
    nothing and leaves database and model as they were.  The command-line
    login without identifier, or with an empty one, is that login. *)
Theorem voice_only_entry_points_stop :
  (forall (a : App.app) (t : App.attempt),
     App.login_result (App.identify_and_login a t)
     = Some (false, AuthenticationError, 0%R) /\
     App.db (App.identify_and_login a t) = App.db a /\
     App.model (App.identify_and_login a t) = App.model a) /\
  (forall (c : Cli.cli) (t : Cli.attempt),
     Cli._voice_only_login c t = (false, AuthenticationError, c) /\
     Cli.login_student c None t = (false, c) /\
     Cli.login_student c (Some ""%string) t = (false, c)).
Proof.
  split.
  - intros a t. rewrite app_identify_and_login_stops. now repeat split.
  - intros c t. pose proof (cli_voice_only_login_stops c t) as H.
    split; [exact H|]. unfold Cli.login_student. cbn [Py.truthy].
    rewrite H. now split.
Qed.

(** * Inference of the classifier *)

Section ClassifierFacts.
Import NpReduce.
Local Open Scope R_scope.

Lemma fold_rmax_ge (l : list R) (x : R) : x <= fold_left Rmax l x.
Proof.
  revert x. induction l as [|y l IH]; intro x; cbn; [lra|].
  eapply Rle_trans; [apply (Rmax_l x y) | apply IH].
Qed.

Lemma fold_rmax_upper (l : list R) (x y : R) :
  In y (x :: l) -> y <= fold_left Rmax l x.
Proof.
  revert x. induction l as [|z l IH]; intros x Hin.
  - destruct Hin as [<-|[]]. cbn. lra.
  - cbn [fold_left]. destruct Hin as [<-|[<-|Hin]].
    + eapply Rle_trans; [apply (Rmax_l x z) | apply fold_rmax_ge].
    + eapply Rle_trans; [apply (Rmax_r x z) | apply fold_rmax_ge].
    + apply IH. now right.
Qed.

Lemma fold_rmax_in (l : list R) (x : R) : In (fold_left Rmax l x) (x :: l).
Proof.
  revert x. induction l as [|y l IH]; intro x; cbn [fold_left]; [now left|].
  destruct (IH (Rmax x y)) as [E|Hin].
  - rewrite <- E. unfold Rmax. destruct (Rle_dec x y);
      [right; now left | now left].
  - right. now right.
Qed.

(** The scan of [argmax]: [seen] is what has been read, [best_i] the first
    index of its maximum [best]. *)
Lemma argmax_from_spec (rest seen : list R) (best_i : nat) (best : R) :
  (best_i < length seen)%nat ->
  nth best_i seen 0 = best ->
  (forall j, (j < length seen)%nat -> nth j seen 0 <= best) ->
  (forall j, (j < best_i)%nat -> nth j seen 0 < best) ->
  let k := argmax_from (length seen) best_i best rest in
  let v := seen ++ rest in
  (k < length v)%nat /\
  (forall j, (j < length v)%nat -> nth j v 0 <= nth k v 0) /\
  (forall j, (j < k)%nat -> nth j v 0 < nth k v 0).
Proof.
  revert seen best_i best.
  induction rest as [|x rest IH]; intros seen best_i best Hi Hbest Hall Hfirst;
    cbn [argmax_from].
  - rewrite app_nil_r. rewrite Hbest. now repeat split.
  - replace (seen ++ x :: rest) with ((seen ++ [x]) ++ rest)
      by (now rewrite <- app_assoc).
    replace (S (length seen)) with (length (seen ++ [x]))
      by (rewrite length_app; cbn; lia).
    destruct (Rgt_dec x best) as [Hgt|Hle].
    + apply IH.
      * rewrite length_app. cbn. lia.
      * rewrite app_nth2 by lia. now rewrite Nat.sub_diag.
      * intros j Hj. rewrite length_app in Hj. cbn in Hj.
        destruct (Nat.eq_dec j (length seen)) as [->|Hne].
        -- rewrite app_nth2 by lia. rewrite Nat.sub_diag. cbn. lra.
        -- rewrite app_nth1 by lia.
           assert (nth j seen 0 <= best) by (apply Hall; lia). lra.
      * intros j Hj. rewrite app_nth1 by lia.
        assert (nth j seen 0 <= best) by (apply Hall; lia). lra.
    + apply IH.
      * rewrite length_app. cbn. lia.
      * now rewrite app_nth1 by lia.
      * intros j Hj. rewrite length_app in Hj. cbn in Hj.
        destruct (Nat.eq_dec j (length seen)) as [->|Hne].
        -- rewrite app_nth2 by lia. rewrite Nat.sub_diag. cbn. lra.
        -- rewrite app_nth1 by lia. apply Hall. lia.
      * intros j Hj. rewrite app_nth1 by lia. now apply Hfirst.
Qed.
End ClassifierFacts.

(** X20.  [predict_speaker] raises only on an empty row of probabilities.
    Otherwise the predicted class is an index of the row, the first one
    that holds the largest probability; the confidence is that probability;
    and the prediction counts as confident exactly when the confidence is
    at least 0.7. *)
Theorem predict_speaker_spec (predictions : list R) :
  match Classifier.predict_speaker predictions with
  | None => predictions = []
  | Some (predicted_class, confidence, is_confident) =>
      (predicted_class < length predictions)%nat /\
      nth predicted_class predictions 0%R = confidence /\
      (forall x, In x predictions -> (x <= confidence)%R) /\
      (forall j, (j < predicted_class)%nat ->
         (nth j predictions 0 < confidence)%R) /\
      (is_confident = true <-> (confidence >= 0.7)%R)
  end.
Proof.
  unfold Classifier.predict_speaker, Classifier.predict_speaker_with.
  destruct predictions as [|x rest]; [reflexivity|].
  cbn [NpReduce.amax NpReduce.argmax].
  set (confidence := fold_left Rmax rest x).
  set (k := NpReduce.argmax_from 1 0 x rest).
  destruct (argmax_from_spec rest [x] 0 x) as (Hk & Hmax & Hfirst);
    [cbn; lia | reflexivity | | intros j Hj; lia |].
  { intros j Hj. cbn in Hj. assert (j = 0%nat) by lia. subst j. cbn. lra. }
  cbn [length app] in Hk, Hmax, Hfirst. fold k in Hk, Hmax, Hfirst.
  assert (Hconf : nth k (x :: rest) 0%R = confidence).
  { apply Rle_antisym.
    - apply fold_rmax_upper. now apply nth_In.
    - destruct (In_nth _ _ 0%R (fold_rmax_in rest x)) as (j & Hj & Hnth).
      fold confidence in Hnth. rewrite <- Hnth. now apply Hmax. }
  assert (Hprops :
    (k < length (x :: rest))%nat /\
    nth k (x :: rest) 0%R = confidence /\
    (forall y, In y (x :: rest) -> (y <= confidence)%R) /\
    (forall j, (j < k)%nat -> (nth j (x :: rest) 0 < confidence)%R)).
  { split; [exact Hk|]. split; [exact Hconf|]. split.
    - intros y Hy. now apply fold_rmax_upper.
    - intros j Hj. rewrite <- Hconf. now apply Hfirst. }
  destruct Hprops as (P1 & P2 & P3 & P4).
  destruct (Rge_dec confidence 0.7) as [Hge|Hlt];
    (split; [exact P1|]; split; [exact P2|]; split; [exact P3|];
     split; [exact P4|]; split; intro H).
  - exact Hge.
  - reflexivity.
  - discriminate H.
  - exfalso. exact (Hlt H).
Qed.

Lemma predict_speaker_spec_witness :
  Classifier.predict_speaker [0.1%R; 0.8%R; 0.1%R] <> None /\
  (forall k c f,
     Classifier.predict_speaker [0.1%R; 0.8%R; 0.1%R] = Some (k, c, f) ->
     (k < 3)%nat /\ (0.8 <= c)%R).
Proof.
  pose proof (predict_speaker_spec [0.1%R; 0.8%R; 0.1%R]) as H.
  destruct (Classifier.predict_speaker [0.1%R; 0.8%R; 0.1%R])
    as [[[k c] f]|]; [|discriminate H].
  split; [discriminate|].
  intros k' c' f' E. injection E as <- <- <-.
  destruct H as (Hk & _ & Hmax & _). split; [exact Hk|].
  apply Hmax. right. now left.
Defined.

(** * The recorder *)

Section RecorderFacts.
Import Np NpReduce AudioRecorder.
Local Open Scope R_scope.

Lemma amax_abs_spec (v : list R) (loudest : R) :
  amax (abs v) = Some loudest ->
  0 <= loudest /\ In loudest (abs v) /\
  (forall x, In x v -> Rabs x <= loudest).
Proof.
  destruct v as [|x v]; [discriminate|]. cbn [abs map amax].
  intro H. injection H as <-.
  pose proof (fold_rmax_in (map Rabs v) (Rabs x)) as Hin.
  pose proof (fold_rmax_ge (map Rabs v) (Rabs x)) as Hge.
  pose proof (Rabs_pos x) as Hpos.
  split; [lra|]. split; [exact Hin|].
  intros y Hy. apply fold_rmax_upper.
  change (Rabs x :: map Rabs v) with (map Rabs (x :: v)). now apply in_map.
Qed.

End RecorderFacts.

(** X21.  [get_audio_info] raises exactly on an empty recording.  Otherwise
    it reports the number of samples and the sample rate 22050, the maximal
    amplitude is the absolute value of one of the samples and no sample
    exceeds it in absolute value, and the root mean square is not
    negative. *)
Theorem get_audio_info_spec (audio_data : list R) :
  match AudioRecorder.get_audio_info audio_data with
  | None => audio_data = []
  | Some info =>
      audio_data <> [] /\
      AudioRecorder.samples info = length audio_data /\
      AudioRecorder.info_sample_rate info = 22050%Z /\
      (exists x, In x audio_data /\
                 AudioRecorder.max_amplitude info = Rabs x) /\
      (forall x, In x audio_data ->
         (Rabs x <= AudioRecorder.max_amplitude info)%R) /\
      (0 <= AudioRecorder.rms info)%R
  end.
Proof.
  unfold AudioRecorder.get_audio_info.
  destruct (NpReduce.amax (Np.abs audio_data)) as [loudest|] eqn:E.
  - destruct (amax_abs_spec audio_data loudest E) as (_ & Hin & Hmax).
    cbn [AudioRecorder.samples AudioRecorder.info_sample_rate
         AudioRecorder.max_amplitude AudioRecorder.rms].
    split; [intros ->; discriminate E|].
    split; [reflexivity|]. split; [reflexivity|]. split.
    { unfold Np.abs in Hin. apply in_map_iff in Hin.
      destruct Hin as (x & Hx & Hin). exists x. now split. }
    split; [exact Hmax | apply sqrt_pos].
  - destruct audio_data; [reflexivity | discriminate E].
Qed.

Section VoiceActivityFacts.
Import Np NpReduce AudioRecorder.
Local Open Scope R_scope.

Variable read : nat -> list R.

Lemma chunk_silent_iff (chunk : list R) (loudest : R) :
  amax (abs chunk) = Some loudest ->
  (loudest < silence_threshold <-> silent chunk).
Proof.
  intro E. destruct (amax_abs_spec chunk loudest E) as (_ & Hin & Hmax).
  split.
  - intros Hlt x Hx. pose proof (Hmax x Hx). lra.
  - intro Hs. unfold abs in Hin. apply in_map_iff in Hin.
    destruct Hin as (x & <- & Hx). now apply Hs.
Qed.

Lemma chunks_read (i : nat) :
  map read (seq 0 i) ++ [read i] = map read (seq 0 (S i)).
Proof. now rewrite seq_S, map_app. Qed.

Lemma record_loop_spec (remaining i s : nat) :
  (forall j, (i <= j < i + remaining)%nat -> read j <> []) ->
  recording read i s ->
  exists n,
    (i <= n <= i + remaining)%nat /\
    record_loop read remaining i (map read (seq 0 i)) s
    = Some (map read (seq 0 n)) /\
    ((n < i + remaining)%nat ->
     (max_silence_chunks <= n)%nat /\
     forall j, (n - max_silence_chunks <= j < n)%nat -> silent (read j)) /\
    (forall m, (max_silence_chunks <= m < n)%nat ->
       exists j, (m - max_silence_chunks <= j < m)%nat /\ ~ silent (read j)).
Proof.
  revert i s. unfold max_silence_chunks.
  induction remaining as [|remaining IH]; intros i s Hread Hinv.
  - exists i. cbn [record_loop]. repeat split; try lia.
    intros m Hm. destruct Hinv as (_ & _ & _ & _ & Hno).
    unfold max_silence_chunks in Hno. apply Hno. lia.
  - cbn [record_loop]. rewrite chunks_read.
    destruct (amax (abs (read i))) as [loudest|] eqn:E.
    2:{ exfalso. apply (Hread i); [lia|].
        destruct (read i); [reflexivity | discriminate E]. }
    pose proof (chunk_silent_iff (read i) loudest E) as Hsilent.
    destruct Hinv as (Hsi & Hs20 & Hrun & Hbefore & Hno).
    unfold max_silence_chunks in *.
    rewrite length_map, length_seq.
    set (s' := if Rlt_dec loudest silence_threshold then S s else O).
    assert (Hs' : (silent (read i) /\ s' = S s) \/
                  (~ silent (read i) /\ s' = O)).
    { subst s'. destruct (Rlt_dec loudest silence_threshold) as [H|H].
      - left. split; [now apply Hsilent | reflexivity].
      - right. split; [|reflexivity]. intro Hc. apply H.
        now apply Hsilent. }
    destruct ((20 <=? s')%nat && (10 <? S i)%nat) eqn:Hstop.
    + apply andb_true_iff in Hstop. destruct Hstop as [H20 _].
      apply Nat.leb_le in H20.
      destruct Hs' as [[Hnow Hs']|[_ Hs']]; [|lia].
      exists (S i). split; [lia|]. split; [reflexivity|]. split.
      * intros _. split; [lia|]. intros j Hj.
        destruct (Nat.eq_dec j i) as [->|Hne]; [exact Hnow|].
        apply Hrun. lia.
      * intros m Hm. apply Hno. lia.
    + assert (Hlt : (s' < 20)%nat).
      { apply andb_false_iff in Hstop. destruct Hstop as [H|H].
        - apply Nat.leb_gt in H. exact H.
        - apply Nat.ltb_ge in H. destruct Hs' as [[_ ->]|[_ ->]]; lia. }
      assert (Hrun' : forall j, (S i - s' <= j < S i)%nat ->
                                silent (read j)).
      { intros j Hj. destruct Hs' as [[Hnow Hs']|[_ Hs']]; [|lia].
        destruct (Nat.eq_dec j i) as [->|Hne]; [exact Hnow|].
        apply Hrun. lia. }
      assert (Hbefore' : (s' < S i)%nat -> ~ silent (read (S i - s' - 1))).
      { intro Hlt'. destruct Hs' as [[_ Hs']|[Hnow Hs']]; rewrite Hs'.
        - replace (S i - S s - 1)%nat with (i - s - 1)%nat by lia.
          apply Hbefore. lia.
        - replace (S i - 0 - 1)%nat with i by lia. exact Hnow. }
      destruct (IH (S i) s') as (n & Hn & Hrec & Hstopped & Hnostop).
      * intros j Hj. apply Hread. lia.
      * unfold recording, max_silence_chunks.
        split; [destruct Hs' as [[_ ->]|[_ ->]]; lia|].
        split; [exact Hlt|]. split; [exact Hrun'|].
        split; [exact Hbefore'|].
        intros m Hm. destruct (Nat.eq_dec m (S i)) as [->|Hne].
        -- exists (S i - s' - 1)%nat. split; [lia|]. apply Hbefore'. lia.
        -- apply Hno. lia.
      * exists n. split; [lia|]. split; [exact Hrec|]. split.
        -- intro H. apply Hstopped. lia.
        -- exact Hnostop.
Qed.
End VoiceActivityFacts.

(** X22.  The recording with voice activity detection reads between 20 and
    100 chunks and returns them joined in the order read.  It stops before
    the 100th chunk exactly at the first moment when the last 20 chunks
    were all silent: the last 20 chunks returned are silent then, and no
    earlier run of 20 chunks was. *)
Theorem recording_stops_after_silence (read : nat -> list R) :
  (forall i, (i < 100)%nat -> read i <> []) ->
  exists n,
    (20 <= n <= 100)%nat /\
    AudioRecorder.record_with_voice_activity_detection read
    = Some (concat (map read (seq 0 n))) /\
    ((n < 100)%nat ->
     forall j, (n - 20 <= j < n)%nat -> AudioRecorder.silent (read j)) /\
    (forall m, (20 <= m < n)%nat ->
       exists j, (m - 20 <= j < m)%nat /\ ~ AudioRecorder.silent (read j)).
Proof.
  intro Hread.
  destruct (record_loop_spec read 100 0 0) as (n & Hn & Hrec & Hstop & Hno).
  - intros j Hj. apply Hread. lia.
  - unfold AudioRecorder.recording, AudioRecorder.max_silence_chunks.
    repeat split; try lia; intros; lia.
  - unfold AudioRecorder.max_silence_chunks in *.
    assert (H20 : (20 <= n)%nat).
    { destruct (Nat.lt_ge_cases n 100) as [H|H]; [|lia].
      now apply Hstop. }
    exists n. split; [lia|]. split.
    + unfold AudioRecorder.record_with_voice_activity_detection,
        AudioRecorder.max_chunks.
      cbn [seq map] in Hrec. now rewrite Hrec.
    + split; [|exact Hno]. intro H. now apply Hstop.
Qed.

Lemma recording_stops_after_silence_witness :
  (forall i, (i < 100)%nat -> (fun _ : nat => [0%R]) i <> []) /\
  exists n,
    (20 <= n <= 100)%nat /\
    AudioRecorder.record_with_voice_activity_detection (fun _ => [0%R])
    = Some (concat (map (fun _ : nat => [0%R]) (seq 0 n))).
Proof.
  assert (H : forall i, (i < 100)%nat -> (fun _ : nat => [0%R]) i <> [])
    by (intros i _; discriminate).
  split; [exact H|].
  destruct (recording_stops_after_silence (fun _ => [0%R]) H)
    as (n & Hn & Hrec & _).
  exists n. now split.
Defined.

Section MaintenanceFacts.
Import VoiceDatabase Maintenance.

Lemma delete_all (l : list student) (d : db) :
  let d' := fold_left
              (fun d student => snd (delete_student d (student_id student)))
              l d in
  students d' = filter (fun s => negb (listed l (student_id s))) (students d)
  /\ voice_embeddings d' =
     filter (fun ve => negb (listed l (ve_student_id ve)))
            (voice_embeddings d)
  /\ login_attempts d' =
     filter (fun la => negb (listed l (la_student_id la)))
            (login_attempts d).
Proof.
  revert d. induction l as [|a l IH]; intro d; cbn [fold_left].
  - cbn. repeat split; symmetry; apply forallb_filter_id, forallb_forall;
      reflexivity.
  - destruct (IH (snd (delete_student d (student_id a)))) as (Hs & Hv & Hl).
    cbn zeta in *. rewrite Hs, Hv, Hl.
    cbn [delete_student snd students voice_embeddings login_attempts].
    rewrite !filter_twice.
    repeat split; apply filter_ext; intro x; unfold listed;
      cbn [existsb]; now rewrite negb_orb.
Qed.

Lemma listed_demo (d : db) (x : string) :
  listed (filter (fun s => String.prefix "DEMO" (student_id s))
                 (list_all_students d)) x =
  String.prefix "DEMO" x && listed (students d) x.
Proof.
  unfold listed, list_all_students.
  apply eq_true_iff_eq. rewrite andb_true_iff, !existsb_exists. split.
  - intros (t & Hin & E). apply filter_In in Hin. destruct Hin as [Hin Hp].
    apply order_by_desc_in in Hin. apply String.eqb_eq in E. subst x.
    split; [exact Hp|]. exists t. split; [exact Hin|]. apply String.eqb_refl.
  - intros (Hp & t & Hin & E). exists t. split; [|exact E].
    apply filter_In. split; [now apply order_by_desc_in|].
    apply String.eqb_eq in E. now subst x.
Qed.

Lemma listed_in (l : list student) (x : string) :
  In x (map student_id l) -> listed l x = true.
Proof.
  intro H. apply in_map_iff in H. destruct H as (t & <- & Hin).
  unfold listed. apply existsb_exists. exists t. split; [exact Hin|].
  apply String.eqb_refl.
Qed.

Lemma cleanup_demo_data_tables (d : db) :
  let d' := Maintenance.cleanup_demo_data d in
  students d' =
    filter (fun s => negb (String.prefix "DEMO" (student_id s))) (students d)
  /\ voice_embeddings d' =
     filter (fun ve => negb (String.prefix "DEMO" (ve_student_id ve)
                             && listed (students d) (ve_student_id ve)))
            (voice_embeddings d)
  /\ login_attempts d' =
     filter (fun la => negb (String.prefix "DEMO" (la_student_id la)
                             && listed (students d) (la_student_id la)))
            (login_attempts d).
Proof.
  cbn zeta. unfold Maintenance.cleanup_demo_data.
  destruct (delete_all
              (filter (fun s => String.prefix "DEMO" (student_id s))
                      (list_all_students d)) d) as (Hs & Hv & Hl).
  cbn zeta in *. rewrite Hs, Hv, Hl. repeat split.
  - apply filter_ext_in. intros s Hin. rewrite listed_demo.
    rewrite (listed_in (students d) (student_id s)), andb_true_r;
      [reflexivity|]. now apply in_map.
  - apply filter_ext. intro ve. now rewrite listed_demo.
  - apply filter_ext. intro la. now rewrite listed_demo.
Qed.
End MaintenanceFacts.

(** X23.  In a database the program can produce, [cleanup_demo_data]
    removes exactly the students whose identifier starts with DEMO: such an
    identifier is no longer found and has no embedding left, every other
    identifier is found as before with the same embeddings and the same
    login attempts, and the students that stay are the ones that do not
    start with DEMO, in their order. *)
Theorem cleanup_demo_data_removes_demo (d : VoiceDatabase.db) :
  VoiceDatabase.reachable d ->
  let d' := Maintenance.cleanup_demo_data d in
  VoiceDatabase.students d' =
    filter (fun s => negb (String.prefix "DEMO" (VoiceDatabase.student_id s)))
           (VoiceDatabase.students d) /\
  (forall sid, String.prefix "DEMO" sid = true ->
     VoiceDatabase.get_student_info d' sid = None /\
     VoiceDatabase.get_student_embeddings d' sid = []) /\
  (forall sid, String.prefix "DEMO" sid = false ->
     VoiceDatabase.get_student_info d' sid =
       VoiceDatabase.get_student_info d sid /\
     VoiceDatabase.get_student_embeddings d' sid =
       VoiceDatabase.get_student_embeddings d sid /\
     filter (fun la => String.eqb (VoiceDatabase.la_student_id la) sid)
            (VoiceDatabase.login_attempts d') =
     filter (fun la => String.eqb (VoiceDatabase.la_student_id la) sid)
            (VoiceDatabase.login_attempts d)).
Proof.
  intros Hreach d'.
  destruct (cleanup_demo_data_tables d) as (Hs & Hv & Hl).
  fold d' in Hs, Hv, Hl.
  assert (Hv' : VoiceDatabase.voice_embeddings d' =
    filter (fun ve => negb (String.prefix "DEMO"
                              (VoiceDatabase.ve_student_id ve)))
           (VoiceDatabase.voice_embeddings d)).
  { rewrite Hv. apply filter_ext_in. intros ve Hin.
    rewrite (listed_in _ _ (reachable_embeddings_owned d Hreach ve Hin)).
    now rewrite andb_true_r. }
  split; [exact Hs|]. split.
  - intros sid Hp. split.
    + unfold VoiceDatabase.get_student_info. rewrite Hs.
      apply find_filtered_out. intros s E. apply String.eqb_eq in E.
      rewrite E, Hp. reflexivity.
    + unfold VoiceDatabase.get_student_embeddings. rewrite Hv'.
      rewrite filter_filtered_out; [reflexivity|].
      intros ve E. apply String.eqb_eq in E. rewrite E, Hp. reflexivity.
  - intros sid Hp. split; [|split].
    + unfold VoiceDatabase.get_student_info. rewrite Hs.
      apply find_filter_kept. intros s E. apply String.eqb_eq in E.
      rewrite E, Hp. reflexivity.
    + unfold VoiceDatabase.get_student_embeddings. rewrite Hv'.
      rewrite filter_filter_kept; [reflexivity|].
      intros ve E. apply String.eqb_eq in E. rewrite E, Hp. reflexivity.
    + rewrite Hl. apply filter_filter_kept.
      intros la E. apply String.eqb_eq in E. rewrite E, Hp. reflexivity.
Qed.

Lemma cleanup_demo_data_removes_demo_witness :
  VoiceDatabase.reachable
    (Fixture.enrol Fixture.enrolled 2 "DEMO001" "Demo" Fixture.probe) /\
  VoiceDatabase.get_student_info
    (Maintenance.cleanup_demo_data
       (Fixture.enrol Fixture.enrolled 2 "DEMO001" "Demo" Fixture.probe))
    "DEMO001" = None.
Proof.
  assert (H : VoiceDatabase.reachable
    (Fixture.enrol Fixture.enrolled 2 "DEMO001" "Demo" Fixture.probe)).
  { apply enrol_reachable. unfold Fixture.enrolled. apply enrol_reachable.
    apply VoiceDatabase.reachable_init. }
  split; [exact H|].
  apply (cleanup_demo_data_removes_demo _ H). reflexivity.
Defined.

Section ConfirmationFacts.
Import Ascii VoiceDatabase.

Lemma lower_char_cases (c lo : Ascii.ascii) :
  In lo ["y"; "e"; "s"]%char ->
  Py.lower_char c = lo ->
  c = lo \/ Py.lower_char lo = lo /\
            Ascii.nat_of_ascii c + 32 = Ascii.nat_of_ascii lo.
Proof.
  intros Hlo E. unfold Py.lower_char in E.
  destruct ((65 <=? Ascii.nat_of_ascii c)
            && (Ascii.nat_of_ascii c <=? 90)) eqn:Hup.
  - right. apply andb_true_iff in Hup. destruct Hup as [H1 H2].
    apply Nat.leb_le in H1, H2. split.
    + destruct Hlo as [<-|[<-|[<-|[]]]]; reflexivity.
    + rewrite <- E. rewrite Ascii.nat_ascii_embedding; lia.
  - now left.
Qed.

Lemma upper_of (c : Ascii.ascii) (n : nat) :
  Ascii.nat_of_ascii c = n -> c = Ascii.ascii_of_nat n.
Proof. intros <-. now rewrite Ascii.ascii_nat_embedding. Qed.

Lemma lower_is_yes (confirm : string) :
  Py.lower confirm = "yes"%string <->
  In confirm ["yes"; "yeS"; "yEs"; "yES"; "Yes"; "YeS"; "YEs"; "YES"]%string.
Proof.
  split.
  - destruct confirm as [|a [|b [|c [|? ?]]]]; try discriminate.
    cbn [Py.lower]. intro E. injection E as Ea Eb Ec.
    apply (lower_char_cases a "y"%char) in Ea; [|cbn; tauto].
    apply (lower_char_cases b "e"%char) in Eb; [|cbn; tauto].
    apply (lower_char_cases c "s"%char) in Ec; [|cbn; tauto].
    assert (Ha : a = "y"%char \/ a = "Y"%char).
    { destruct Ea as [->|[_ Ea]]; [now left|right].
      apply (upper_of a 89). cbn in Ea. lia. }
    assert (Hb : b = "e"%char \/ b = "E"%char).
    { destruct Eb as [->|[_ Eb]]; [now left|right].
      apply (upper_of b 69). cbn in Eb. lia. }
    assert (Hc : c = "s"%char \/ c = "S"%char).
    { destruct Ec as [->|[_ Ec]]; [now left|right].
      apply (upper_of c 83). cbn in Ec. lia. }
    destruct Ha as [-> | ->], Hb as [-> | ->], Hc as [-> | ->];
      cbn; tauto.
  - intro H. cbn in H.
    repeat (destruct H as [<-|H]; [reflexivity|]). destruct H.
Qed.

Lemma delete_student_lookups (d : db) (sid : string) :
  get_student_info (snd (delete_student d sid)) sid = None /\
  get_student_embeddings (snd (delete_student d sid)) sid = [].
Proof.
  split.
  - apply find_filtered_out. intros s Hs. now apply eqb_same.
  - unfold get_student_embeddings.
    cbn [snd delete_student voice_embeddings].
    rewrite filter_filtered_out; [reflexivity|].
    intros ve Hve. now apply eqb_same.
Qed.
End ConfirmationFacts.

(** X24.  Both deletion commands, [delete_student] of cli_app.py and
    [cleanup_student] of cleanup_student.py, delete exactly when the student
    is registered and the line typed at the prompt is yes in any mix of
    upper and lower case.  Otherwise they return [False] and the database
    is as it was; after a deletion the identifier is no longer found and
    has no embedding.  The two commands do the same to the database. *)
Theorem deletion_needs_yes (c : Cli.cli) (sid confirm : string) :
  let r := Maintenance.cleanup_student (Cli.db c) sid confirm in
  Cli.delete_student c sid confirm =
    (fst r, {| Cli.db := snd r; Cli.model := Cli.model c |}) /\
  (fst r = true <->
   VoiceDatabase.get_student_info (Cli.db c) sid <> None /\
   In confirm
      ["yes"; "yeS"; "yEs"; "yES"; "Yes"; "YeS"; "YEs"; "YES"]%string) /\
  (fst r = false -> snd r = Cli.db c) /\
  (fst r = true ->
   VoiceDatabase.get_student_info (snd r) sid = None /\
   VoiceDatabase.get_student_embeddings (snd r) sid = []).
Proof.
  cbn zeta. unfold Cli.delete_student, Maintenance.cleanup_student.
  rewrite <- lower_is_yes.
  destruct (VoiceDatabase.get_student_info (Cli.db c) sid) as [s|] eqn:Hs.
  - destruct (String.eqb (Py.lower confirm) "yes") eqn:E; cbn [negb].
    + apply String.eqb_eq in E.
      pose proof (delete_student_lookups (Cli.db c) sid) as [Hi He].
      cbn [VoiceDatabase.delete_student fst snd] in *.
      repeat split; try assumption; try discriminate.
    + apply String.eqb_neq in E. destruct c. cbn [fst snd Cli.db Cli.model].
      split; [reflexivity|]. split; [|split; [reflexivity|discriminate]].
      split; [discriminate|]. intros [_ H]. contradiction.
  - destruct c. cbn [fst snd Cli.db Cli.model].
    split; [reflexivity|]. split; [|split; [reflexivity|discriminate]].
    split; [discriminate|]. intros [H _]. contradiction.
Qed.
